(** * Smart Study Table firmware: session controller, encoder capture,
      button debouncing and countdown timing

    A shallow embedding of [smarttablecode.ino] (Arduino UNO, ATmega328P).
    The sketch keeps its whole state in global variables and talks to the
    hardware through the Arduino API.  Here the globals form one record,
    every sketch function becomes a function on that record, values read
    from the hardware ([millis()], [digitalRead], [pulseIn], serial bytes)
    are explicit arguments, and calls that act on the hardware are logged
    as a list of effects.

    On this target [int] is 16 bits wide and [long] 32 bits wide; both are
    modelled in [Z] with the wrap-around written out. *)

From Stdlib Require Import ZArith List Bool String Ascii Lia.
Import ListNotations.
Open Scope Z_scope.

(** ** Machine integers of the AVR target *)

Module MachineInt.

Definition ULONG_MOD : Z := 2 ^ 32.
Definition UINT_MOD : Z := 2 ^ 16.

(** [unsigned long]: 32 bits, arithmetic modulo [2^32] *)
Definition wrap_ulong (z : Z) : Z := z mod ULONG_MOD.
(** [unsigned int]: 16 bits *)
Definition wrap_uint (z : Z) : Z := z mod UINT_MOD.
(** [long]: 32 bits, two's complement *)
Definition wrap_long (z : Z) : Z := (z + 2 ^ 31) mod ULONG_MOD - 2 ^ 31.
(** [int]: 16 bits, two's complement *)
Definition wrap_int (z : Z) : Z := (z + 2 ^ 15) mod UINT_MOD - 2 ^ 15.

Definition is_ulong (z : Z) : Prop := 0 <= z < ULONG_MOD.
Definition is_long (z : Z) : Prop := - 2 ^ 31 <= z < 2 ^ 31.

(** [a - b] and [a + b] on [unsigned long] operands *)
Definition ulong_sub (a b : Z) : Z := wrap_ulong (a - b).
Definition ulong_add (a b : Z) : Z := wrap_ulong (a + b).
Definition ulong_mul (a b : Z) : Z := wrap_ulong (a * b).

End MachineInt.
Import MachineInt.

(** ** Pins, levels and configuration constants *)

Definition HIGH : bool := true.
Definition LOW : bool := false.

Definition trigPin : Z := 8.
Definition echoPin : Z := 9.
Definition relayPin : Z := 7.
Definition irPin : Z := 6.
Definition buzzerPin : Z := 5.
Definition encA : Z := 2.
Definition encB : Z := 3.
Definition encBtn : Z := 4.

Definition BUZZER_TOGGLE_MS : Z := 220.
Definition PHONE_DETECTED_STATE : bool := LOW.
Definition debounceDelay : Z := 50.
Definition LONG_PRESS_MS : Z := 2000.
Definition ultrasonicInterval : Z := 200.
Definition presenceThreshold : Z := 100.
Definition displayInterval : Z := 250.
Definition phoneCheckInterval : Z := 150.

(** ** The session state machine and the sketch's globals *)

Inductive State : Type := IDLE | SET_TIMER | WAIT_PHONE | COUNTDOWN | ABORTED.

Definition State_eqb (a b : State) : bool :=
  match a, b with
  | IDLE, IDLE | SET_TIMER, SET_TIMER | WAIT_PHONE, WAIT_PHONE
  | COUNTDOWN, COUNTDOWN | ABORTED, ABORTED => true
  | _, _ => false
  end.

(** All global variables of the sketch, plus [lastSnap], the [static]
    local of [loop]. *)
Record Globals : Type := MkGlobals {
  rtcOk : bool;
  encoderPos : Z;
  lastEncoded : Z;
  lastBtnState : bool;
  btnState : bool;
  lastDebounceBtn : Z;
  btnPressStart : Z;
  state : State;
  timerMinutes : Z;
  countdownSeconds : Z;
  countdownRunning : bool;
  countdownEndMillis : Z;
  countdownStartMillis : Z;
  lastUltrasonicCheck : Z;
  studentDistance : Z;
  ledState : bool;
  lastBuzzerToggle : Z;
  buzzerOn : bool;
  lastDisplayUpdate : Z;
  lastPhoneCheck : Z;
  phonePresent : bool;
  serialLine : string;
  lastSnap : Z
}.

Definition set_rtcOk (v : bool) (g : Globals) : Globals :=
  MkGlobals v (encoderPos g) (lastEncoded g) (lastBtnState g) (btnState g)
    (lastDebounceBtn g) (btnPressStart g) (state g) (timerMinutes g)
    (countdownSeconds g) (countdownRunning g) (countdownEndMillis g)
    (countdownStartMillis g) (lastUltrasonicCheck g) (studentDistance g)
    (ledState g) (lastBuzzerToggle g) (buzzerOn g) (lastDisplayUpdate g)
    (lastPhoneCheck g) (phonePresent g) (serialLine g) (lastSnap g).

Definition set_encoderPos (v : Z) (g : Globals) : Globals :=
  MkGlobals (rtcOk g) v (lastEncoded g) (lastBtnState g) (btnState g)
    (lastDebounceBtn g) (btnPressStart g) (state g) (timerMinutes g)
    (countdownSeconds g) (countdownRunning g) (countdownEndMillis g)
    (countdownStartMillis g) (lastUltrasonicCheck g) (studentDistance g)
    (ledState g) (lastBuzzerToggle g) (buzzerOn g) (lastDisplayUpdate g)
    (lastPhoneCheck g) (phonePresent g) (serialLine g) (lastSnap g).

Definition set_lastEncoded (v : Z) (g : Globals) : Globals :=
  MkGlobals (rtcOk g) (encoderPos g) v (lastBtnState g) (btnState g)
    (lastDebounceBtn g) (btnPressStart g) (state g) (timerMinutes g)
    (countdownSeconds g) (countdownRunning g) (countdownEndMillis g)
    (countdownStartMillis g) (lastUltrasonicCheck g) (studentDistance g)
    (ledState g) (lastBuzzerToggle g) (buzzerOn g) (lastDisplayUpdate g)
    (lastPhoneCheck g) (phonePresent g) (serialLine g) (lastSnap g).

Definition set_lastBtnState (v : bool) (g : Globals) : Globals :=
  MkGlobals (rtcOk g) (encoderPos g) (lastEncoded g) v (btnState g)
    (lastDebounceBtn g) (btnPressStart g) (state g) (timerMinutes g)
    (countdownSeconds g) (countdownRunning g) (countdownEndMillis g)
    (countdownStartMillis g) (lastUltrasonicCheck g) (studentDistance g)
    (ledState g) (lastBuzzerToggle g) (buzzerOn g) (lastDisplayUpdate g)
    (lastPhoneCheck g) (phonePresent g) (serialLine g) (lastSnap g).

Definition set_btnState (v : bool) (g : Globals) : Globals :=
  MkGlobals (rtcOk g) (encoderPos g) (lastEncoded g) (lastBtnState g) v
    (lastDebounceBtn g) (btnPressStart g) (state g) (timerMinutes g)
    (countdownSeconds g) (countdownRunning g) (countdownEndMillis g)
    (countdownStartMillis g) (lastUltrasonicCheck g) (studentDistance g)
    (ledState g) (lastBuzzerToggle g) (buzzerOn g) (lastDisplayUpdate g)
    (lastPhoneCheck g) (phonePresent g) (serialLine g) (lastSnap g).

Definition set_lastDebounceBtn (v : Z) (g : Globals) : Globals :=
  MkGlobals (rtcOk g) (encoderPos g) (lastEncoded g) (lastBtnState g)
    (btnState g) v (btnPressStart g) (state g) (timerMinutes g)
    (countdownSeconds g) (countdownRunning g) (countdownEndMillis g)
    (countdownStartMillis g) (lastUltrasonicCheck g) (studentDistance g)
    (ledState g) (lastBuzzerToggle g) (buzzerOn g) (lastDisplayUpdate g)
    (lastPhoneCheck g) (phonePresent g) (serialLine g) (lastSnap g).

Definition set_btnPressStart (v : Z) (g : Globals) : Globals :=
  MkGlobals (rtcOk g) (encoderPos g) (lastEncoded g) (lastBtnState g)
    (btnState g) (lastDebounceBtn g) v (state g) (timerMinutes g)
    (countdownSeconds g) (countdownRunning g) (countdownEndMillis g)
    (countdownStartMillis g) (lastUltrasonicCheck g) (studentDistance g)
    (ledState g) (lastBuzzerToggle g) (buzzerOn g) (lastDisplayUpdate g)
    (lastPhoneCheck g) (phonePresent g) (serialLine g) (lastSnap g).

Definition set_state (v : State) (g : Globals) : Globals :=
  MkGlobals (rtcOk g) (encoderPos g) (lastEncoded g) (lastBtnState g)
    (btnState g) (lastDebounceBtn g) (btnPressStart g) v (timerMinutes g)
    (countdownSeconds g) (countdownRunning g) (countdownEndMillis g)
    (countdownStartMillis g) (lastUltrasonicCheck g) (studentDistance g)
    (ledState g) (lastBuzzerToggle g) (buzzerOn g) (lastDisplayUpdate g)
    (lastPhoneCheck g) (phonePresent g) (serialLine g) (lastSnap g).

Definition set_timerMinutes (v : Z) (g : Globals) : Globals :=
  MkGlobals (rtcOk g) (encoderPos g) (lastEncoded g) (lastBtnState g)
    (btnState g) (lastDebounceBtn g) (btnPressStart g) (state g) v
    (countdownSeconds g) (countdownRunning g) (countdownEndMillis g)
    (countdownStartMillis g) (lastUltrasonicCheck g) (studentDistance g)
    (ledState g) (lastBuzzerToggle g) (buzzerOn g) (lastDisplayUpdate g)
    (lastPhoneCheck g) (phonePresent g) (serialLine g) (lastSnap g).

Definition set_countdownSeconds (v : Z) (g : Globals) : Globals :=
  MkGlobals (rtcOk g) (encoderPos g) (lastEncoded g) (lastBtnState g)
    (btnState g) (lastDebounceBtn g) (btnPressStart g) (state g) (timerMinutes
    g) v (countdownRunning g) (countdownEndMillis g) (countdownStartMillis g)
    (lastUltrasonicCheck g) (studentDistance g) (ledState g) (lastBuzzerToggle
    g) (buzzerOn g) (lastDisplayUpdate g) (lastPhoneCheck g) (phonePresent g)
    (serialLine g) (lastSnap g).

Definition set_countdownRunning (v : bool) (g : Globals) : Globals :=
  MkGlobals (rtcOk g) (encoderPos g) (lastEncoded g) (lastBtnState g)
    (btnState g) (lastDebounceBtn g) (btnPressStart g) (state g) (timerMinutes
    g) (countdownSeconds g) v (countdownEndMillis g) (countdownStartMillis g)
    (lastUltrasonicCheck g) (studentDistance g) (ledState g) (lastBuzzerToggle
    g) (buzzerOn g) (lastDisplayUpdate g) (lastPhoneCheck g) (phonePresent g)
    (serialLine g) (lastSnap g).

Definition set_countdownEndMillis (v : Z) (g : Globals) : Globals :=
  MkGlobals (rtcOk g) (encoderPos g) (lastEncoded g) (lastBtnState g)
    (btnState g) (lastDebounceBtn g) (btnPressStart g) (state g) (timerMinutes
    g) (countdownSeconds g) (countdownRunning g) v (countdownStartMillis g)
    (lastUltrasonicCheck g) (studentDistance g) (ledState g) (lastBuzzerToggle
    g) (buzzerOn g) (lastDisplayUpdate g) (lastPhoneCheck g) (phonePresent g)
    (serialLine g) (lastSnap g).

Definition set_countdownStartMillis (v : Z) (g : Globals) : Globals :=
  MkGlobals (rtcOk g) (encoderPos g) (lastEncoded g) (lastBtnState g)
    (btnState g) (lastDebounceBtn g) (btnPressStart g) (state g) (timerMinutes
    g) (countdownSeconds g) (countdownRunning g) (countdownEndMillis g) v
    (lastUltrasonicCheck g) (studentDistance g) (ledState g) (lastBuzzerToggle
    g) (buzzerOn g) (lastDisplayUpdate g) (lastPhoneCheck g) (phonePresent g)
    (serialLine g) (lastSnap g).

Definition set_lastUltrasonicCheck (v : Z) (g : Globals) : Globals :=
  MkGlobals (rtcOk g) (encoderPos g) (lastEncoded g) (lastBtnState g)
    (btnState g) (lastDebounceBtn g) (btnPressStart g) (state g) (timerMinutes
    g) (countdownSeconds g) (countdownRunning g) (countdownEndMillis g)
    (countdownStartMillis g) v (studentDistance g) (ledState g)
    (lastBuzzerToggle g) (buzzerOn g) (lastDisplayUpdate g) (lastPhoneCheck g)
    (phonePresent g) (serialLine g) (lastSnap g).

Definition set_studentDistance (v : Z) (g : Globals) : Globals :=
  MkGlobals (rtcOk g) (encoderPos g) (lastEncoded g) (lastBtnState g)
    (btnState g) (lastDebounceBtn g) (btnPressStart g) (state g) (timerMinutes
    g) (countdownSeconds g) (countdownRunning g) (countdownEndMillis g)
    (countdownStartMillis g) (lastUltrasonicCheck g) v (ledState g)
    (lastBuzzerToggle g) (buzzerOn g) (lastDisplayUpdate g) (lastPhoneCheck g)
    (phonePresent g) (serialLine g) (lastSnap g).

Definition set_ledState (v : bool) (g : Globals) : Globals :=
  MkGlobals (rtcOk g) (encoderPos g) (lastEncoded g) (lastBtnState g)
    (btnState g) (lastDebounceBtn g) (btnPressStart g) (state g) (timerMinutes
    g) (countdownSeconds g) (countdownRunning g) (countdownEndMillis g)
    (countdownStartMillis g) (lastUltrasonicCheck g) (studentDistance g) v
    (lastBuzzerToggle g) (buzzerOn g) (lastDisplayUpdate g) (lastPhoneCheck g)
    (phonePresent g) (serialLine g) (lastSnap g).

Definition set_lastBuzzerToggle (v : Z) (g : Globals) : Globals :=
  MkGlobals (rtcOk g) (encoderPos g) (lastEncoded g) (lastBtnState g)
    (btnState g) (lastDebounceBtn g) (btnPressStart g) (state g) (timerMinutes
    g) (countdownSeconds g) (countdownRunning g) (countdownEndMillis g)
    (countdownStartMillis g) (lastUltrasonicCheck g) (studentDistance g)
    (ledState g) v (buzzerOn g) (lastDisplayUpdate g) (lastPhoneCheck g)
    (phonePresent g) (serialLine g) (lastSnap g).

Definition set_buzzerOn (v : bool) (g : Globals) : Globals :=
  MkGlobals (rtcOk g) (encoderPos g) (lastEncoded g) (lastBtnState g)
    (btnState g) (lastDebounceBtn g) (btnPressStart g) (state g) (timerMinutes
    g) (countdownSeconds g) (countdownRunning g) (countdownEndMillis g)
    (countdownStartMillis g) (lastUltrasonicCheck g) (studentDistance g)
    (ledState g) (lastBuzzerToggle g) v (lastDisplayUpdate g) (lastPhoneCheck
    g) (phonePresent g) (serialLine g) (lastSnap g).

Definition set_lastDisplayUpdate (v : Z) (g : Globals) : Globals :=
  MkGlobals (rtcOk g) (encoderPos g) (lastEncoded g) (lastBtnState g)
    (btnState g) (lastDebounceBtn g) (btnPressStart g) (state g) (timerMinutes
    g) (countdownSeconds g) (countdownRunning g) (countdownEndMillis g)
    (countdownStartMillis g) (lastUltrasonicCheck g) (studentDistance g)
    (ledState g) (lastBuzzerToggle g) (buzzerOn g) v (lastPhoneCheck g)
    (phonePresent g) (serialLine g) (lastSnap g).

Definition set_lastPhoneCheck (v : Z) (g : Globals) : Globals :=
  MkGlobals (rtcOk g) (encoderPos g) (lastEncoded g) (lastBtnState g)
    (btnState g) (lastDebounceBtn g) (btnPressStart g) (state g) (timerMinutes
    g) (countdownSeconds g) (countdownRunning g) (countdownEndMillis g)
    (countdownStartMillis g) (lastUltrasonicCheck g) (studentDistance g)
    (ledState g) (lastBuzzerToggle g) (buzzerOn g) (lastDisplayUpdate g) v
    (phonePresent g) (serialLine g) (lastSnap g).

Definition set_phonePresent (v : bool) (g : Globals) : Globals :=
  MkGlobals (rtcOk g) (encoderPos g) (lastEncoded g) (lastBtnState g)
    (btnState g) (lastDebounceBtn g) (btnPressStart g) (state g) (timerMinutes
    g) (countdownSeconds g) (countdownRunning g) (countdownEndMillis g)
    (countdownStartMillis g) (lastUltrasonicCheck g) (studentDistance g)
    (ledState g) (lastBuzzerToggle g) (buzzerOn g) (lastDisplayUpdate g)
    (lastPhoneCheck g) v (serialLine g) (lastSnap g).

Definition set_serialLine (v : string) (g : Globals) : Globals :=
  MkGlobals (rtcOk g) (encoderPos g) (lastEncoded g) (lastBtnState g)
    (btnState g) (lastDebounceBtn g) (btnPressStart g) (state g) (timerMinutes
    g) (countdownSeconds g) (countdownRunning g) (countdownEndMillis g)
    (countdownStartMillis g) (lastUltrasonicCheck g) (studentDistance g)
    (ledState g) (lastBuzzerToggle g) (buzzerOn g) (lastDisplayUpdate g)
    (lastPhoneCheck g) (phonePresent g) v (lastSnap g).

Definition set_lastSnap (v : Z) (g : Globals) : Globals :=
  MkGlobals (rtcOk g) (encoderPos g) (lastEncoded g) (lastBtnState g)
    (btnState g) (lastDebounceBtn g) (btnPressStart g) (state g) (timerMinutes
    g) (countdownSeconds g) (countdownRunning g) (countdownEndMillis g)
    (countdownStartMillis g) (lastUltrasonicCheck g) (studentDistance g)
    (ledState g) (lastBuzzerToggle g) (buzzerOn g) (lastDisplayUpdate g)
    (lastPhoneCheck g) (phonePresent g) (serialLine g) v.

(** The initial values of the globals, as their declarations give them. *)
Definition initial : Globals :=
  {| rtcOk := false;
     encoderPos := 0; lastEncoded := 0;
     lastBtnState := HIGH; btnState := HIGH;
     lastDebounceBtn := 0; btnPressStart := 0;
     state := IDLE;
     timerMinutes := 25; countdownSeconds := 0; countdownRunning := false;
     countdownEndMillis := 0; countdownStartMillis := 0;
     lastUltrasonicCheck := 0; studentDistance := 999;
     ledState := false;
     lastBuzzerToggle := 0; buzzerOn := false;
     lastDisplayUpdate := 0;
     lastPhoneCheck := 0; phonePresent := false;
     serialLine := EmptyString;
     lastSnap := 0 |}.

(** ** Hardware effects *)

(** What [updateDisplay] hands to the display: the fields it reads. *)
Record StatusPage : Type := MkStatusPage {
  page_rtcOk : bool;
  page_distance : Z;
  page_led : bool;
  page_state : State;
  page_timerMinutes : Z;
  page_countdownSeconds : Z;
  page_phonePresent : bool
}.

Inductive Effect : Type :=
| DigitalWrite (pin : Z) (level : bool)
| DelayMicroseconds (us : Z)
| Delay (ms : Z)
| PulseIn (pin : Z) (level : bool) (timeout_us : Z)
| SerialPrint (s : string)
| SerialPrintNum (n : Z)
| SerialPrintln (s : string)
| SerialPrintlnNum (n : Z)
| SerialPrintlnRtcNow
| RtcAdjustCompileTime
| RtcAdjust (year month day hour minute second : Z)
| DrawMessage (msg : string)
| DrawStatus (page : StatusPage).

(** A sketch function: it updates the globals and performs effects. *)
Definition Cmd : Type := Globals -> Globals * list Effect.

Definition skip : Cmd := fun g => (g, []).
Definition emit (e : Effect) : Cmd := fun g => (g, [e]).
Definition modify (f : Globals -> Globals) : Cmd := fun g => (f g, []).
Definition seq (c1 c2 : Cmd) : Cmd :=
  fun g => let (g1, o1) := c1 g in
           let (g2, o2) := c2 g1 in
           (g2, o1 ++ o2).
Definition ifc (cond : Globals -> bool) (c1 c2 : Cmd) : Cmd :=
  fun g => if cond g then c1 g else c2 g.
Definition when (cond : Globals -> bool) (c : Cmd) : Cmd := ifc cond c skip.

Declare Scope cmd_scope.
Delimit Scope cmd_scope with cmd.
Notation "c1 ;; c2" := (seq c1 c2) (at level 61, right associativity) : cmd_scope.
Local Open Scope cmd_scope.

Definition exec (c : Cmd) (g : Globals) : Globals := fst (c g).
Definition effects (c : Cmd) (g : Globals) : list Effect := snd (c g).

(** ** Quadrature capture: the encoder interrupt handler *)

(** [encoded = (MSB << 1) | LSB] *)
Definition encoded_of (MSB LSB : bool) : Z :=
  Z.lor (Z.shiftl (Z.b2z MSB) 1) (Z.b2z LSB).

(** [updateEncoder]; the binary literals of the source are
    [0b0001 = 1], [0b0111 = 7], [0b1110 = 14], [0b1000 = 8] and
    [0b0010 = 2], [0b1011 = 11], [0b1101 = 13], [0b0100 = 4]. *)
Definition updateEncoder (MSB LSB : bool) (g : Globals) : Globals :=
  let encoded := encoded_of MSB LSB in
  let sum := Z.lor (wrap_int (Z.shiftl (lastEncoded g) 2)) encoded in
  let g1 :=
    if (sum =? 1) || (sum =? 7) || (sum =? 14) || (sum =? 8)
    then set_encoderPos (wrap_long (encoderPos g + 1)) g else g in
  let g2 :=
    if (sum =? 2) || (sum =? 11) || (sum =? 13) || (sum =? 4)
    then set_encoderPos (wrap_long (encoderPos g1 - 1)) g1 else g1 in
  set_lastEncoded encoded g2.

(** The handler run once per sampled pair of phase levels. *)
Definition runEncoder (samples : list (bool * bool)) (g : Globals) : Globals :=
  fold_left (fun g s => updateEncoder (fst s) (snd s) g) samples g.

(** ** Relay, buzzer, message display *)

Definition setRelay (on : bool) : Cmd :=
  emit (DigitalWrite relayPin (if on then HIGH else LOW)) ;;
  modify (set_ledState on).

(** [ACTIVE_BUZZER] is 1, so the buzzer is driven with [digitalWrite]. *)
Definition rapidBuzzer (now : Z) : Cmd :=
  when (fun g => BUZZER_TOGGLE_MS <? ulong_sub now (lastBuzzerToggle g))
    (modify (set_lastBuzzerToggle now) ;;
     modify (fun g => set_buzzerOn (negb (buzzerOn g)) g) ;;
     (fun g => emit (DigitalWrite buzzerPin (if buzzerOn g then HIGH else LOW)) g)).

Definition stopBuzzer : Cmd :=
  emit (DigitalWrite buzzerPin LOW) ;;
  modify (set_buzzerOn false).

Definition showMessage (msg : string) : Cmd :=
  emit (DrawMessage msg) ;;
  emit (Delay 900).

Definition updateDisplay : Cmd :=
  fun g => emit (DrawStatus
                   {| page_rtcOk := rtcOk g;
                      page_distance := studentDistance g;
                      page_led := ledState g;
                      page_state := state g;
                      page_timerMinutes := timerMinutes g;
                      page_countdownSeconds := countdownSeconds g;
                      page_phonePresent := phonePresent g |}) g.

(** ** Countdown start *)

(** [startCountdown]; [t1] and [t2] are the values of its two [millis()]
    calls. *)
Definition startCountdown (t1 t2 : Z) : Cmd :=
  modify (set_countdownRunning true) ;;
  modify (fun g =>
            let durMs := ulong_mul (ulong_mul (timerMinutes g) 60) 1000 in
            set_countdownEndMillis (ulong_add t1 durMs) g) ;;
  modify (fun g => set_countdownSeconds (ulong_mul (timerMinutes g) 60) g) ;;
  modify (set_countdownStartMillis t2) ;;
  setRelay true.

(** ** Encoder button *)

(** The two lines [if (mins < 1) mins = 1; if (mins > 600) mins = 600;],
    which occur in [onEncoderShortPress] and in [loop]. *)
Definition clampMinutes (mins : Z) : Z :=
  let mins := if mins <? 1 then 1 else mins in
  let mins := if 600 <? mins then 600 else mins in
  mins.

Definition onEncoderShortPress : Cmd :=
  fun g =>
    match state g with
    | IDLE =>
        (modify (set_state SET_TIMER) ;;
         modify (fun g => set_encoderPos (wrap_long (timerMinutes g * 4)) g)) g
    | SET_TIMER =>
        (modify (fun g =>
                   let mins := Z.quot (encoderPos g) 4 in
                   let mins := clampMinutes mins in
                   set_timerMinutes (wrap_uint mins) g) ;;
         modify (set_state WAIT_PHONE)) g
    | WAIT_PHONE => modify (set_state IDLE) g
    | COUNTDOWN =>
        (modify (set_countdownRunning false) ;;
         stopBuzzer ;;
         setRelay false ;;
         showMessage "Aborted"%string ;;
         modify (set_state IDLE)) g
    | ABORTED => modify (set_state IDLE) g
    end.

(** The outcome of one button sample: the release of an accepted press is
    a short or a long press, by the two branches on [pressDur]. *)
Inductive ButtonEvent : Type := ShortPress | LongPress.

(** The debouncing part of [readEncoderButton]: everything except the
    actions of the two [pressDur] branches and the final
    [lastBtnState = reading]. *)
Definition debounceButton (reading : bool) (t : Z) (g : Globals)
  : Globals * option ButtonEvent :=
  let g := if negb (Bool.eqb reading (lastBtnState g))
           then set_lastDebounceBtn t g else g in
  if debounceDelay <? ulong_sub t (lastDebounceBtn g) then
    if negb (Bool.eqb reading (btnState g)) then
      let g := set_btnState reading g in
      if Bool.eqb (btnState g) LOW then
        (set_btnPressStart t g, None)
      else
        let pressDur := ulong_sub t (btnPressStart g) in
        if LONG_PRESS_MS <=? pressDur then (g, Some LongPress)
        else (g, Some ShortPress)
    else (g, None)
  else (g, None).

(** The long-press branch: set the RTC to the compile time. *)
Definition onEncoderLongPress : Cmd :=
  ifc rtcOk
    (emit RtcAdjustCompileTime ;;
     emit (SerialPrintln "RTC set to compile time (long press)."%string) ;;
     showMessage "RTC Saved"%string)
    (emit (SerialPrintln "RTC missing; cannot set time."%string) ;;
     showMessage "RTC Missing"%string).

Definition dispatchButton (ev : option ButtonEvent) : Cmd :=
  match ev with
  | Some LongPress => onEncoderLongPress
  | Some ShortPress => onEncoderShortPress
  | None => skip
  end.

(** [readEncoderButton]; [reading] is [digitalRead(encBtn)] and [t] is
    [millis()]. *)
Definition readEncoderButton (reading : bool) (t : Z) : Cmd :=
  fun g =>
    let (g1, ev) := debounceButton reading t g in
    (dispatchButton ev ;; modify (set_lastBtnState reading)) g1.

(** ** Ultrasonic sensor and presence *)

Definition readUltrasonic_effects : list Effect :=
  [ DigitalWrite trigPin LOW; DelayMicroseconds 2;
    DigitalWrite trigPin HIGH; DelayMicroseconds 10;
    DigitalWrite trigPin LOW; PulseIn echoPin HIGH 30000 ].

(** [readUltrasonic] returns -1 when [pulseIn] times out.  Otherwise it
    returns [duration * 0.034 / 2] converted to [long]; that product is
    computed in floating point, so its value [cm] is taken from the
    environment together with [duration]. *)
Definition readUltrasonic_value (duration cm : Z) : Z :=
  if duration =? 0 then -1 else cm.

Definition handleStudentPresence (present : bool) : Cmd :=
  if present then
    when (fun g => negb (ledState g)) (setRelay true)
  else
    when (fun g => negb (State_eqb (state g) COUNTDOWN) && ledState g)
      (setRelay false).

(** ** Serial command handling *)

Module CString.

(** Characters as the C library classifies them. *)
Definition code (c : ascii) : Z := Z.of_nat (nat_of_ascii c).

Definition isspace (c : ascii) : bool :=
  (code c =? 32) || ((9 <=? code c) && (code c <=? 13)).

Definition isdigit (c : ascii) : bool :=
  (48 <=? code c) && (code c <=? 57).

Definition toupper (c : ascii) : ascii :=
  if (97 <=? code c) && (code c <=? 122)
  then ascii_of_nat (nat_of_ascii c - 32) else c.

(** The delimiters [" \t"] passed to [strtok]. *)
Definition is_delim (c : ascii) : bool :=
  (code c =? 32) || (code c =? 9).

(** A [char] buffer read as a C string ends at its first NUL. *)
Fixpoint until_nul (cs : list ascii) : list ascii :=
  match cs with
  | [] => []
  | c :: rest => if code c =? 0 then [] else c :: until_nul rest
  end.

(** Repeated [strtok(.., " \t")]: the maximal runs of non-delimiters.
    [cur] is the token being read, reversed. *)
Fixpoint strtok_all (cs : list ascii) (cur : list ascii) : list (list ascii) :=
  match cs with
  | [] => match cur with [] => [] | _ => [rev cur] end
  | c :: rest =>
      if is_delim c then
        match cur with
        | [] => strtok_all rest []
        | _ => rev cur :: strtok_all rest []
        end
      else strtok_all rest (c :: cur)
  end.

Fixpoint drop_space (cs : list ascii) : list ascii :=
  match cs with
  | [] => []
  | c :: rest => if isspace c then drop_space rest else cs
  end.

(** [String::trim] *)
Definition trim (cs : list ascii) : list ascii :=
  rev (drop_space (rev (drop_space cs))).

(** The digits of [atoi], accumulated in a 16-bit [int]. *)
Fixpoint atoi_digits (cs : list ascii) (acc : Z) : Z :=
  match cs with
  | [] => acc
  | c :: rest =>
      if isdigit c then atoi_digits rest (wrap_int (acc * 10 + (code c - 48)))
      else acc
  end.

(** [atoi]: leading white space, an optional sign, then digits. *)
Definition atoi (cs : list ascii) : Z :=
  match drop_space cs with
  | c :: rest =>
      if code c =? 45 then wrap_int (- atoi_digits rest 0)
      else if code c =? 43 then atoi_digits rest 0
      else atoi_digits (c :: rest) 0
  | [] => 0
  end.

End CString.

(** The two range tests of the [SET] command on its six parsed arguments. *)
Definition setArgsOk (year month day hour minute second : Z) : bool :=
  let ok := true in
  let ok := if (year <? 2000) || (month <? 1) || (12 <? month)
               || (day <? 1) || (31 <? day) then false else ok in
  let ok := if (hour <? 0) || (23 <? hour) || (minute <? 0) || (59 <? minute)
               || (second <? 0) || (59 <? second) then false else ok in
  ok.

(** The tokens of a command line: [toCharArray(buf, 220)] keeps at most
    219 characters, and at most 12 tokens are stored. *)
Definition commandTokens (line : string) : list (list ascii) :=
  let buf := CString.until_nul (firstn 219 (list_ascii_of_string line)) in
  firstn 12 (CString.strtok_all buf []).

Definition commandSET (args : list (list ascii)) : Cmd :=
  match args with
  | a1 :: a2 :: a3 :: a4 :: a5 :: a6 :: _ =>
      let year := CString.atoi a1 in
      let month := CString.atoi a2 in
      let day := CString.atoi a3 in
      let hour := CString.atoi a4 in
      let minute := CString.atoi a5 in
      let second := CString.atoi a6 in
      if negb (setArgsOk year month day hour minute second) then
        emit (SerialPrintln "Invalid date/time."%string)
      else
        ifc (fun g => negb (rtcOk g))
          (emit (SerialPrintln "RTC not available - can't set time."%string))
          (emit (RtcAdjust year month day hour minute second) ;;
           emit (SerialPrint "RTC set to: "%string) ;;
           emit (SerialPrintNum year) ;; emit (SerialPrint "/"%string) ;;
           emit (SerialPrintNum month) ;; emit (SerialPrint "/"%string) ;;
           emit (SerialPrintNum day) ;; emit (SerialPrint " "%string) ;;
           emit (SerialPrintNum hour) ;; emit (SerialPrint ":"%string) ;;
           emit (SerialPrintNum minute) ;; emit (SerialPrint ":"%string) ;;
           emit (SerialPrintlnNum second) ;;
           showMessage "RTC Saved"%string)
  | _ => emit (SerialPrintln "Usage: SET YYYY MM DD HH MM SS"%string)
  end.

Definition processSerialCommand (line : string) : Cmd :=
  match commandTokens line with
  | [] => skip
  | tok0 :: args =>
      let cmd := string_of_list_ascii (map CString.toupper tok0) in
      if String.eqb cmd "SETNOW" then
        ifc (fun g => negb (rtcOk g))
          (emit (SerialPrintln "RTC not available - can't set time."%string))
          (emit RtcAdjustCompileTime ;;
           emit (SerialPrintln "RTC set to compile time (SETNOW)."%string) ;;
           showMessage "RTC Saved"%string)
      else if String.eqb cmd "SET" then
        commandSET args
      else if String.eqb cmd "READ" then
        ifc (fun g => negb (rtcOk g))
          (emit (SerialPrintln "RTC not available."%string))
          (emit SerialPrintlnRtcNow)
      else
        emit (SerialPrint "Unknown command: "%string) ;;
        emit (SerialPrintln cmd) ;;
        emit (SerialPrintln
                "Commands: SET YYYY MM DD HH MM SS | SETNOW | READ"%string)
  end.

(** One pass of the [while (Serial.available())] loop, for the byte [c]. *)
Definition serialByte (c : ascii) : Cmd :=
  if CString.code c =? 13 then skip
  else if CString.code c =? 10 then
    modify (fun g =>
              set_serialLine
                (string_of_list_ascii
                   (CString.trim (list_ascii_of_string (serialLine g)))) g) ;;
    when (fun g => 0 <? Z.of_nat (String.length (serialLine g)))
      ((fun g => processSerialCommand (serialLine g) g) ;;
       modify (set_serialLine EmptyString))
  else
    modify (fun g => set_serialLine (serialLine g ++ String c EmptyString) g) ;;
    when (fun g => 200 <? Z.of_nat (String.length (serialLine g)))
      (modify (fun g =>
                 let cs := list_ascii_of_string (serialLine g) in
                 set_serialLine
                   (string_of_list_ascii (skipn (List.length cs - 200) cs)) g)).

(** [handleSerialInput]; [bytes] are the bytes the serial port delivers
    during this call. *)
Fixpoint handleSerialInput (bytes : list ascii) : Cmd :=
  match bytes with
  | [] => skip
  | c :: rest => serialByte c ;; handleSerialInput rest
  end.

(** ** The main loop *)

(** Everything one iteration of [loop] reads from the hardware, in the
    order of the reads.  Encoder interrupts may fire at any time; the
    samples they take are given for the two stretches that end where the
    loop reads [encoderPos]. *)
Record LoopInput : Type := MkLoopInput {
  in_now : Z;                        (* millis() on entry *)
  in_serial : list ascii;            (* bytes pending on Serial *)
  in_isr_early : list (bool * bool); (* interrupts before the button is read *)
  in_btn : bool;                     (* digitalRead(encBtn) *)
  in_btn_t : Z;                      (* millis() in readEncoderButton *)
  in_echo_us : Z;                    (* pulseIn(echoPin, HIGH, 30000) *)
  in_echo_cm : Z;                    (* that duration converted to cm *)
  in_ir : bool;                      (* digitalRead(irPin) *)
  in_start_t1 : Z;                   (* millis() calls of startCountdown *)
  in_start_t2 : Z;
  in_cd_t1 : Z;                      (* millis() in the deadline test *)
  in_cd_t2 : Z;                      (* millis() in the remaining time *)
  in_buzz_t : Z;                     (* millis() in rapidBuzzer *)
  in_isr_late : list (bool * bool)   (* interrupts before the snapshot *)
}.

(** The block under the comment "Ultrasonic". *)
Definition presenceTask (now duration cm : Z) : Cmd :=
  when (fun g => ultrasonicInterval <=? ulong_sub now (lastUltrasonicCheck g))
    (modify (set_lastUltrasonicCheck now) ;;
     (fun g => (g, readUltrasonic_effects)) ;;
     modify (set_studentDistance (readUltrasonic_value duration cm)) ;;
     (fun g =>
        let present := (0 <? studentDistance g)
                       && (studentDistance g <=? presenceThreshold) in
        handleStudentPresence present g)).

(** The block under the comment "Phone checks". *)
Definition phoneTask (now : Z) (irVal : bool) (t1 t2 : Z) : Cmd :=
  when (fun g => State_eqb (state g) WAIT_PHONE || State_eqb (state g) COUNTDOWN)
    (when (fun g => phoneCheckInterval <=? ulong_sub now (lastPhoneCheck g))
       (modify (set_lastPhoneCheck now) ;;
        modify (set_phonePresent (Bool.eqb irVal PHONE_DETECTED_STATE)) ;;
        when (fun g => State_eqb (state g) WAIT_PHONE && phonePresent g
                       && negb (countdownRunning g))
          (startCountdown t1 t2 ;;
           modify (fun g =>
                     set_countdownSeconds (ulong_mul (timerMinutes g) 60) g) ;;
           modify (set_state COUNTDOWN)))).

(** The block under the comment "COUNTDOWN handling using end timestamp". *)
Definition countdownTask (t1 t2 tb : Z) : Cmd :=
  when (fun g => State_eqb (state g) COUNTDOWN && countdownRunning g)
    (ifc (fun g => countdownEndMillis g <=? t1)
       (modify (set_countdownSeconds 0) ;;
        modify (set_countdownRunning false) ;;
        setRelay false ;;
        showMessage "Timer Done"%string ;;
        modify (set_state IDLE) ;;
        stopBuzzer)
       (modify (fun g =>
                  let remMs := ulong_sub (countdownEndMillis g) t2 in
                  set_countdownSeconds (remMs / 1000) g)) ;;
     ifc (fun g => negb (phonePresent g)) (rapidBuzzer tb) stopBuzzer).

(** The block under the comment "SET_TIMER". *)
Definition setTimerTask : Cmd :=
  when (fun g => State_eqb (state g) SET_TIMER)
    (fun g =>
       let snap := encoderPos g in
       when (fun g => negb (snap =? lastSnap g))
         (modify (set_lastSnap snap) ;;
          modify (set_timerMinutes (wrap_uint (clampMinutes (Z.quot snap 4)))))
         g).

(** The block under the comment "Display update". *)
Definition displayTask (now : Z) : Cmd :=
  when (fun g => displayInterval <=? ulong_sub now (lastDisplayUpdate g))
    (modify (set_lastDisplayUpdate now) ;;
     updateDisplay).

Definition loop (i : LoopInput) : Cmd :=
  handleSerialInput (in_serial i) ;;
  modify (runEncoder (in_isr_early i)) ;;
  readEncoderButton (in_btn i) (in_btn_t i) ;;
  presenceTask (in_now i) (in_echo_us i) (in_echo_cm i) ;;
  phoneTask (in_now i) (in_ir i) (in_start_t1 i) (in_start_t2 i) ;;
  countdownTask (in_cd_t1 i) (in_cd_t2 i) (in_buzz_t i) ;;
  modify (runEncoder (in_isr_late i)) ;;
  setTimerTask ;;
  displayTask (in_now i).

(** [setup]: [found] is the result of [rtc.begin()].  The configuration
    calls ([Serial.begin], [pinMode], [attachInterrupt], [u8g2.begin])
    change no global. *)
Definition setup (found : bool) : Cmd :=
  modify (set_rtcOk found) ;;
  ifc (fun g => negb (rtcOk g))
    (emit (SerialPrintln
             "Couldn't find RTC. Check wiring (SDA->A4, SCL->A5)."%string))
    (emit (SerialPrintln "RTC found."%string)) ;;
  setRelay false.

(** The sketch as a transition system: [setup] runs once, then [loop]
    forever, with encoder interrupts in between. *)
Inductive reachable : Globals -> Prop :=
| reach_setup (found : bool) :
    reachable (exec (setup found) initial)
| reach_loop (i : LoopInput) (g : Globals) :
    reachable g -> reachable (exec (loop i) g)
| reach_isr (MSB LSB : bool) (g : Globals) :
    reachable g -> reachable (updateEncoder MSB LSB g).

(** ** Vocabulary of the properties *)

(** *** Quadrature transition codes *)

Module Quadrature.

(** The 2-bit phase code of a sample [(A, B)]: [A] is the high bit. *)
Definition phase_code (s : bool * bool) : Z :=
  2 * Z.b2z (fst s) + Z.b2z (snd s).

(** The 4-bit transition code: the previous phase code followed by the
    current one. *)
Definition transition_code (prev cur : bool * bool) : Z :=
  4 * phase_code prev + phase_code cur.

(** Codes 0001, 0111, 1110, 1000 and 0010, 1011, 1101, 0100. *)
Definition inc_codes : list Z := [1; 7; 14; 8].
Definition dec_codes : list Z := [2; 11; 13; 4].

Definition is_inc (code : Z) : bool := existsb (Z.eqb code) inc_codes.
Definition is_dec (code : Z) : bool := existsb (Z.eqb code) dec_codes.

(** The codes formed along a run of samples that follows the sample
    [prev]. *)
Fixpoint transition_codes (prev : bool * bool) (samples : list (bool * bool))
  : list Z :=
  match samples with
  | [] => []
  | s :: rest => transition_code prev s :: transition_codes s rest
  end.

Definition count (p : Z -> bool) (codes : list Z) : Z :=
  Z.of_nat (List.length (filter p codes)).

(** The change of the counter that the table gives for one code. *)
Definition delta (code : Z) : Z :=
  (if is_inc code then 1 else 0) - (if is_dec code then 1 else 0).

End Quadrature.

(** *** Runs of the main loop *)

Definition runLoop (inputs : list LoopInput) (g : Globals) : Globals :=
  fold_left (fun g i => exec (loop i) g) inputs g.

(** A loop iteration during which every [millis()] call returns [now],
    no serial byte arrives, no encoder interrupt fires and the ultrasonic
    sensor hears no echo; [btn] and [ir] are the levels of the button and
    of the phone detector. *)
Definition tick (now : Z) (btn ir : bool) : LoopInput :=
  {| in_now := now; in_serial := []; in_isr_early := [];
     in_btn := btn; in_btn_t := now;
     in_echo_us := 0; in_echo_cm := 0;
     in_ir := ir;
     in_start_t1 := now; in_start_t2 := now;
     in_cd_t1 := now; in_cd_t2 := now; in_buzz_t := now;
     in_isr_late := [] |}.

(** Four iterations, 60 ms apart, in which the button is pressed and
    released: the classifier reports one short press. *)
Definition shortPressAt (t : Z) (ir : bool) : list LoopInput :=
  [ tick t LOW ir; tick (t + 60) LOW ir;
    tick (t + 120) HIGH ir; tick (t + 180) HIGH ir ].

(** *** Countdown timing *)

Module Countdown.

Definition duration_ms (minutes : Z) : Z := minutes * 60 * 1000.

(** The deadline of a countdown of [minutes] started at time [start]. *)
Definition end_time (start minutes : Z) : Z := start + duration_ms minutes.

(** The test [millis() >= countdownEndMillis] of the loop. *)
Definition is_elapsed (g : Globals) (now : Z) : bool :=
  countdownEndMillis g <=? now.

(** The remaining time of the loop.  The loop reads the clock twice:
    [t1] is the read of the deadline test, [t2] the later read that is
    subtracted from the deadline in [remMs]. *)
Definition remaining_ms (g : Globals) (t1 t2 : Z) : Z :=
  if is_elapsed g t1 then 0 else ulong_sub (countdownEndMillis g) t2.

End Countdown.

(** *** Invariants of the session *)

Definition preserves (P : Globals -> Prop) (c : Cmd) : Prop :=
  forall g, P g -> P (exec c g).

(** What holds of the session between any two operations of the sketch:
    the timer setting is within its range, a countdown runs exactly in
    state [COUNTDOWN], and the state is never [ABORTED]. *)
Definition SessionInv (g : Globals) : Prop :=
  1 <= timerMinutes g <= 600 /\
  (countdownRunning g = true <-> state g = COUNTDOWN) /\
  state g <> ABORTED.

(** The encoder variables hold a [long] count and a 2-bit phase code. *)
Definition EncoderInv (g : Globals) : Prop :=
  is_long (encoderPos g) /\
  exists prev : bool * bool, lastEncoded g = Quadrature.phase_code prev.

(** *** Frames *)

(** Two globals that differ at most in [serialLine]. *)
Definition same_but_serialLine (g g' : Globals) : Prop :=
  g' = set_serialLine (serialLine g') g.

(** Two globals that differ at most in the encoder variables. *)
Definition same_but_encoder (g g' : Globals) : Prop :=
  g' = set_lastEncoded (lastEncoded g') (set_encoderPos (encoderPos g') g).

(** *** The validated ranges of the [SET] command *)

Definition validSetArgs (year month day hour minute second : Z) : Prop :=
  2000 <= year /\ 1 <= month <= 12 /\ 1 <= day <= 31 /\
  0 <= hour <= 23 /\ 0 <= minute <= 59 /\ 0 <= second <= 59.

(** The presence that the loop derives from a distance reading. *)
Definition presenceOf (distance : Z) : bool :=
  (0 <? distance) && (distance <=? presenceThreshold).

(** *** Sample sessions *)

Module Session.

(** After [setup] with an RTC, two short presses lead through
    [SET_TIMER] to [WAIT_PHONE] with the default 25 minutes. *)
Definition waiting : Globals :=
  runLoop (shortPressAt 1000 HIGH ++ shortPressAt 2000 HIGH)
    (exec (setup true) initial).

(** The phone is put down: the countdown starts. *)
Definition counting : Globals := runLoop [tick 3000 HIGH LOW] waiting.

(** The countdown is cancelled with the phone still in place. *)
Definition cancelled : Globals := runLoop (shortPressAt 4000 LOW) counting.

(** The phone is taken away and the timer is opened again. *)
Definition setting_again : Globals :=
  runLoop (shortPressAt 6000 HIGH) cancelled.

(** The button held down during the countdown: the press is accepted
    and only the release is missing for a short press. *)
Definition cancelling : Globals :=
  runLoop [tick 4000 LOW LOW; tick 4060 LOW LOW; tick 4120 HIGH LOW] counting.

(** The same two short presses after 49 days and 17 hours of uptime,
    shortly before the millisecond clock wraps at [2^32]. *)
Definition late_waiting : Globals :=
  runLoop (shortPressAt 4294960000 HIGH ++ shortPressAt 4294961000 HIGH)
    (exec (setup true) initial).

End Session.

(** *** Button samples *)

Module Button.

(** A sample of the button: the time in milliseconds since power-up and
    the raw level.  The classifier sees the time through the 32-bit
    clock, that is modulo [2^32]. *)
Definition Sample : Type := (Z * bool)%type.

(** The events that the classifier reports along a run of samples. *)
Fixpoint events (samples : list Sample) (g : Globals) : list ButtonEvent :=
  match samples with
  | [] => []
  | (T, level) :: rest =>
      let t := wrap_ulong T in
      match snd (debounceButton level t g) with
      | Some e => [e]
      | None => []
      end ++ events rest (exec (readEncoderButton level t) g)
  end.

(** The globals after a run of samples. *)
Fixpoint after (samples : list Sample) (g : Globals) : Globals :=
  match samples with
  | [] => g
  | (T, level) :: rest =>
      after rest (exec (readEncoderButton level (wrap_ulong T)) g)
  end.

(** The four variables of the classifier. *)
Definition view (g : Globals) : bool * bool * Z * Z :=
  (lastBtnState g, btnState g, lastDebounceBtn g, btnPressStart g).

(** Times that never go back, starting not before [prev]. *)
Fixpoint ascending (prev : Z) (times : list Z) : Prop :=
  match times with
  | [] => True
  | T :: rest => prev <= T /\ ascending T rest
  end.

Definition chronological (samples : list Sample) : Prop :=
  match map fst samples with
  | [] => True
  | T :: rest => ascending T rest
  end.

(** While [stable] is the accepted level, every stretch of consecutive
    samples of the other level spans at most the debounce window, from its
    first to its last sample.  [since] is the time of the first sample of
    the stretch in progress. *)
Fixpoint bounces_only (stable : bool) (since : option Z)
  (samples : list Sample) : Prop :=
  match samples with
  | [] => True
  | (T, level) :: rest =>
      if Bool.eqb level stable then bounces_only stable None rest
      else
        let T0 := match since with Some T0 => T0 | None => T end in
        T - T0 <= debounceDelay /\ bounces_only stable (Some T0) rest
  end.

(** The same level sampled at each of [times]. *)
Definition held (level : bool) (times : list Z) : list Sample :=
  map (fun T => (T, level)) times.

(** The first of [times] at which a level held since [since] has been
    stable for more than the debounce window. *)
Fixpoint accept_time (since : Z) (times : list Z) : option Z :=
  match times with
  | [] => None
  | T :: rest =>
      if debounceDelay <? T - since then Some T else accept_time since rest
  end.

(** A press sampled at [p0 :: ps] and its release sampled at
    [r0 :: rs]. *)
Definition press_release (p0 : Z) (ps : list Z) (r0 : Z) (rs : list Z)
  : list Sample :=
  held LOW (p0 :: ps) ++ held HIGH (r0 :: rs).

(** The debounce timer after the first line of [readEncoderButton]. *)
Definition restarted (reading : bool) (t : Z) (g : Globals) : Z :=
  if negb (Bool.eqb reading (lastBtnState g)) then t else lastDebounceBtn g.

(** The classifier between two samples of a run of bounces. *)
Definition bouncing (stable : bool) (since : option Z) (prev : Z)
  (g : Globals) : Prop :=
  btnState g = stable /\
  match since with
  | None => lastBtnState g = stable
  | Some T0 =>
      lastBtnState g = negb stable /\ lastDebounceBtn g = wrap_ulong T0 /\
      T0 <= prev
  end.

(** The button sample that an iteration of the loop takes. *)
Definition sample_of (i : LoopInput) : Sample := (in_btn_t i, in_btn i).

(** The events that the classifier reports along iterations of the whole
    loop. *)
Fixpoint loop_events (inputs : list LoopInput) (g : Globals)
  : list ButtonEvent :=
  match inputs with
  | [] => []
  | i :: rest =>
      let g0 := exec (handleSerialInput (in_serial i) ;;
                      modify (runEncoder (in_isr_early i))) g in
      match snd (debounceButton (in_btn i) (in_btn_t i) g0) with
      | Some e => [e]
      | None => []
      end ++ loop_events rest (exec (loop i) g)
  end.

End Button.

(** *** The relay *)

(** The level of the relay pin after an effect, given its level before. *)
Definition relayWrite (level : bool) (e : Effect) : bool :=
  match e with
  | DigitalWrite pin v => if pin =? relayPin then v else level
  | _ => level
  end.

(** The level of the relay pin after a list of effects. *)
Definition relayAfter (level : bool) (out : list Effect) : bool :=
  fold_left relayWrite out level.

(** A command after which the relay is at the level [ledState] records,
    if it was so before. *)
Definition relay_sync (c : Cmd) : Prop :=
  forall g, relayAfter (ledState g) (effects c g) = ledState (exec c g).

(** The sketch from power-up: [setup], then one iteration of [loop] per
    input, with all effects in order. *)
Definition powerUp (found : bool) (inputs : list LoopInput)
  : Globals * list Effect :=
  fold_left (fun acc i => let (g', o) := loop i (fst acc) in (g', snd acc ++ o))
    inputs (setup found initial).

(** *** Command arguments as written *)

Module Written.

(** The decimal digits of a token, read without a bound on the size of
    the number. *)
Fixpoint digits (cs : list ascii) (acc : Z) : Z :=
  match cs with
  | [] => acc
  | c :: rest =>
      if CString.isdigit c then digits rest (acc * 10 + (CString.code c - 48))
      else acc
  end.

(** The integer a token spells: white space, an optional sign, digits. *)
Definition value (cs : list ascii) : Z :=
  match CString.drop_space cs with
  | c :: rest =>
      if CString.code c =? 45 then - digits rest 0
      else if CString.code c =? 43 then digits rest 0
      else digits (c :: rest) 0
  | [] => 0
  end.

(** An integer that a 16-bit [int] holds, together with its negation. *)
Definition fits_int (v : Z) : Prop := - 32767 <= v <= 32767.

End Written.

(** *** Further vocabulary *)

Module Quadrature2.
Import Quadrature.

(** The net change that the table gives for a list of codes. *)
Definition net (codes : list Z) : Z :=
  count is_inc codes - count is_dec codes.

(** The samples met when the path [prev, path] is walked back to
    [prev]. *)
Definition retrace (prev : bool * bool) (path : list (bool * bool))
  : list (bool * bool) :=
  tl (rev (prev :: path)).

End Quadrature2.

(** During a countdown the LED is on. *)
Definition LedInv (g : Globals) : Prop :=
  state g = COUNTDOWN -> ledState g = true.

(** The buzzer is on only while the phone is known to be away. *)
Definition BuzzerInv (g : Globals) : Prop :=
  buzzerOn g = true -> phonePresent g = false.

(** Effects that write or read the real-time clock: [rtc.adjust], the
    [rtc.now()] of the [READ] command, and the [rtc.now()] that
    [updateDisplay] calls for the first line of the status page when
    [rtcOk] holds. *)
Definition touches_rtc (e : Effect) : bool :=
  match e with
  | RtcAdjustCompileTime | RtcAdjust _ _ _ _ _ _ | SerialPrintlnRtcNow => true
  | DrawStatus page => page_rtcOk page
  | _ => false
  end.

(** Characters that end or are dropped from a serial line. *)
Definition is_line_break (c : ascii) : bool :=
  (CString.code c =? 13) || (CString.code c =? 10).

(** Two globals that differ at most in the classifier's four variables. *)
Definition same_but_button (g g' : Globals) : Prop :=
  g' = set_btnPressStart (btnPressStart g')
         (set_btnState (btnState g')
            (set_lastDebounceBtn (lastDebounceBtn g')
               (set_lastBtnState (lastBtnState g') g))).

(** The page that [updateDisplay] draws for given globals. *)
Definition statusPage (g : Globals) : StatusPage :=
  {| page_rtcOk := rtcOk g;
     page_distance := studentDistance g;
     page_led := ledState g;
     page_state := state g;
     page_timerMinutes := timerMinutes g;
     page_countdownSeconds := countdownSeconds g;
     page_phonePresent := phonePresent g |}.

(** No effect of the list touches the real-time clock. *)
Definition rtc_untouched (out : list Effect) : bool :=
  forallb (fun e => negb (touches_rtc e)) out.

(** No RTC was found. *)
Definition noRtc (g : Globals) : Prop := rtcOk g = false.

(** The characters of the serial line buffer. *)
Definition lineChars (g : Globals) : list ascii :=
  list_ascii_of_string (serialLine g).

(** The line buffer holds at most 200 characters, none of them a carriage
    return or a line feed. *)
Definition SerialInv (g : Globals) : Prop :=
  (List.length (lineChars g) <= 200)%nat /\
  Forall (fun c => is_line_break c = false) (lineChars g).

Definition LF : ascii := ascii_of_nat 10.
Definition CR : ascii := ascii_of_nat 13.

(** * Properties *)

(** ** Machine integers *)

Module MachineIntFacts.

Lemma wrap_ulong_id z : is_ulong z -> wrap_ulong z = z.
Proof. unfold is_ulong, wrap_ulong. intros H. apply Z.mod_small. exact H. Qed.

Lemma wrap_ulong_range z : is_ulong (wrap_ulong z).
Proof. unfold is_ulong, wrap_ulong, ULONG_MOD. apply Z.mod_pos_bound. lia. Qed.

Lemma wrap_long_id z : is_long z -> wrap_long z = z.
Proof.
  unfold is_long, wrap_long, ULONG_MOD. intros H.
  rewrite Z.mod_small; lia.
Qed.

Lemma wrap_long_range z : is_long (wrap_long z).
Proof.
  unfold is_long, wrap_long, ULONG_MOD.
  pose proof (Z.mod_pos_bound (z + 2 ^ 31) (2 ^ 32)). lia.
Qed.

Lemma wrap_uint_id z : 0 <= z < UINT_MOD -> wrap_uint z = z.
Proof. unfold wrap_uint. intros H. apply Z.mod_small. exact H. Qed.

(** Adding inside a [wrap_long] commutes with an earlier wrap. *)
Lemma wrap_long_add_l a b : wrap_long (wrap_long a + b) = wrap_long (a + b).
Proof.
  unfold wrap_long, ULONG_MOD.
  replace ((a + 2 ^ 31) mod 2 ^ 32 - 2 ^ 31 + b + 2 ^ 31)
    with ((a + 2 ^ 31) mod 2 ^ 32 + b) by lia.
  rewrite Zplus_mod_idemp_l.
  replace (a + 2 ^ 31 + b) with (a + b + 2 ^ 31) by lia.
  reflexivity.
Qed.

Lemma ulong_sub_mono a b : is_ulong a -> is_ulong b -> b <= a -> ulong_sub a b = a - b.
Proof.
  unfold ulong_sub. intros Ha Hb Hle. apply wrap_ulong_id.
  unfold is_ulong in *. lia.
Qed.

End MachineIntFacts.
Import MachineIntFacts.

Lemma State_eqb_eq a b : State_eqb a b = true <-> a = b.
Proof. destruct a, b; simpl; split; intros H; try reflexivity; discriminate H. Qed.


(** ** Commands *)

Ltac cmd_unfold :=
  unfold exec, effects, seq, when, ifc, modify, emit, skip,
    showMessage, setRelay, stopBuzzer in *.

Lemma exec_seq (c1 c2 : Cmd) (g : Globals) :
  exec (c1 ;; c2) g = exec c2 (exec c1 g).
Proof.
  unfold exec, seq. destruct (c1 g) as [g1 o1]. simpl.
  destruct (c2 g1). reflexivity.
Qed.

Lemma effects_seq (c1 c2 : Cmd) (g : Globals) :
  effects (c1 ;; c2) g = effects c1 g ++ effects c2 (exec c1 g).
Proof.
  unfold effects, exec, seq. destruct (c1 g) as [g1 o1]. simpl.
  destruct (c2 g1). reflexivity.
Qed.

Lemma preserves_seq P c1 c2 :
  preserves P c1 -> preserves P c2 -> preserves P (c1 ;; c2).
Proof. intros H1 H2 g Hg. rewrite exec_seq. apply H2, H1, Hg. Qed.

Lemma preserves_skip P : preserves P skip.
Proof. intros g Hg. exact Hg. Qed.

Lemma preserves_emit P e : preserves P (emit e).
Proof. intros g Hg. exact Hg. Qed.

Lemma preserves_ifc P cond c1 c2 :
  preserves P c1 -> preserves P c2 -> preserves P (ifc cond c1 c2).
Proof.
  intros H1 H2 g Hg. unfold exec, ifc.
  destruct (cond g); [apply H1 | apply H2]; exact Hg.
Qed.

Lemma preserves_when P cond c : preserves P c -> preserves P (when cond c).
Proof. intros H. apply preserves_ifc; [exact H | apply preserves_skip]. Qed.

Lemma preserves_modify (P : Globals -> Prop) f :
  (forall g, P g -> P (f g)) -> preserves P (modify f).
Proof. intros H g Hg. apply H, Hg. Qed.

(** ** Serial commands leave the globals alone *)

Lemma showMessage_globals msg g : exec (showMessage msg) g = g.
Proof. reflexivity. Qed.

Lemma commandSET_globals args g : exec (commandSET args) g = g.
Proof.
  unfold commandSET.
  destruct args as [|a1 [|a2 [|a3 [|a4 [|a5 [|a6 rest]]]]]]; try reflexivity.
  destruct (negb (setArgsOk _ _ _ _ _ _)); [reflexivity|].
  cmd_unfold. destruct (negb (rtcOk g)); reflexivity.
Qed.

Lemma processSerialCommand_globals line g :
  exec (processSerialCommand line) g = g.
Proof.
  unfold processSerialCommand.
  destruct (commandTokens line) as [|tok0 args]; [reflexivity|].
  cbv zeta.
  destruct (String.eqb _ "SETNOW").
  { cmd_unfold. destruct (negb (rtcOk g)); reflexivity. }
  destruct (String.eqb _ "SET"); [apply commandSET_globals|].
  destruct (String.eqb _ "READ").
  { cmd_unfold. destruct (negb (rtcOk g)); reflexivity. }
  reflexivity.
Qed.

Lemma same_but_serialLine_refl g : same_but_serialLine g g.
Proof. unfold same_but_serialLine. destruct g; reflexivity. Qed.

Lemma same_but_serialLine_trans g1 g2 g3 :
  same_but_serialLine g1 g2 -> same_but_serialLine g2 g3 ->
  same_but_serialLine g1 g3.
Proof.
  unfold same_but_serialLine. intros H12 H23.
  rewrite H23. rewrite H12. destruct g1; reflexivity.
Qed.

Lemma serialByte_frame c g : same_but_serialLine g (exec (serialByte c) g).
Proof.
  unfold serialByte.
  destruct (CString.code c =? 13); [apply same_but_serialLine_refl|].
  destruct (CString.code c =? 10).
  - rewrite exec_seq. unfold when, ifc.
    set (g1 := exec (modify _) g).
    assert (H1 : same_but_serialLine g g1).
    { unfold g1, same_but_serialLine, exec, modify. destruct g; reflexivity. }
    unfold exec at 1.
    destruct (0 <? _).
    + fold (exec ((fun g0 => processSerialCommand (serialLine g0) g0) ;;
                    modify (set_serialLine EmptyString)) g1).
      rewrite exec_seq.
      replace (exec (fun g0 => processSerialCommand (serialLine g0) g0) g1)
        with g1 by (symmetry; apply processSerialCommand_globals).
      eapply same_but_serialLine_trans; [exact H1|].
      unfold same_but_serialLine, exec, modify. destruct g1; reflexivity.
    + exact H1.
  - rewrite exec_seq. unfold when, ifc.
    set (g1 := exec (modify _) g).
    assert (H1 : same_but_serialLine g g1).
    { unfold g1, same_but_serialLine, exec, modify. destruct g; reflexivity. }
    unfold exec at 1.
    destruct (200 <? _).
    + eapply same_but_serialLine_trans; [exact H1|].
      unfold same_but_serialLine, modify. destruct g1; reflexivity.
    + exact H1.
Qed.

Lemma handleSerialInput_frame bytes :
  forall g, same_but_serialLine g (exec (handleSerialInput bytes) g).
Proof.
  induction bytes as [|c rest IH]; intros g.
  - apply same_but_serialLine_refl.
  - simpl. rewrite exec_seq.
    eapply same_but_serialLine_trans; [apply serialByte_frame | apply IH].
Qed.

(** ** The encoder handler touches the encoder variables only *)

Lemma updateEncoder_frame a b g : same_but_encoder g (updateEncoder a b g).
Proof.
  unfold same_but_encoder, updateEncoder. cbv zeta.
  destruct (_ || _ || _ || _); destruct (_ || _ || _ || _);
    destruct g; reflexivity.
Qed.

Lemma runEncoder_frame samples :
  forall g, same_but_encoder g (runEncoder samples g).
Proof.
  induction samples as [|s rest IH]; intros g.
  - unfold same_but_encoder. destruct g; reflexivity.
  - change (runEncoder (s :: rest) g)
      with (runEncoder rest (updateEncoder (fst s) (snd s) g)).
    pose proof (updateEncoder_frame (fst s) (snd s) g) as H1.
    pose proof (IH (updateEncoder (fst s) (snd s) g)) as H2.
    unfold same_but_encoder in *. rewrite H2. rewrite H1.
    destruct g; reflexivity.
Qed.

(** ** The session invariant *)

Lemma clampMinutes_range m : 1 <= clampMinutes m <= 600.
Proof.
  unfold clampMinutes. destruct (m <? 1) eqn:E1.
  - simpl. lia.
  - destruct (600 <? m) eqn:E2; lia.
Qed.

Lemma clamped_minutes_fit m : wrap_uint (clampMinutes m) = clampMinutes m.
Proof.
  apply wrap_uint_id. pose proof (clampMinutes_range m).
  unfold UINT_MOD. lia.
Qed.

Lemma handleSerialInput_inv bytes : preserves SessionInv (handleSerialInput bytes).
Proof.
  intros g Hg. pose proof (handleSerialInput_frame bytes g) as H.
  rewrite H. exact Hg.
Qed.

Lemma runEncoder_inv samples : preserves SessionInv (modify (runEncoder samples)).
Proof.
  intros g Hg. unfold exec, modify. simpl.
  pose proof (runEncoder_frame samples g) as H. rewrite H. exact Hg.
Qed.

Lemma updateEncoder_inv a b g : SessionInv g -> SessionInv (updateEncoder a b g).
Proof.
  intros Hg. pose proof (updateEncoder_frame a b g) as H. rewrite H. exact Hg.
Qed.

Lemma onEncoderShortPress_inv : preserves SessionInv onEncoderShortPress.
Proof.
  intros g (Hm & Hr & Ha). unfold exec, onEncoderShortPress.
  destruct (state g) eqn:Es; cmd_unfold; simpl; unfold SessionInv; simpl.
  all: try rewrite clamped_minutes_fit.
  all: repeat split; try (apply clampMinutes_range); try lia;
    try discriminate; try congruence.
  all: try (intros H; apply Hr in H; congruence).
Qed.

Lemma onEncoderLongPress_globals g : exec onEncoderLongPress g = g.
Proof. unfold onEncoderLongPress. cmd_unfold. destruct (rtcOk g); reflexivity. Qed.

Lemma debounceButton_inv reading t g :
  SessionInv g -> SessionInv (fst (debounceButton reading t g)).
Proof.
  intros Hg. unfold debounceButton.
  repeat match goal with
         | |- context [if ?c then _ else _] => destruct c
         end; exact Hg.
Qed.

Lemma readEncoderButton_inv reading t :
  preserves SessionInv (readEncoderButton reading t).
Proof.
  intros g Hg. unfold exec, readEncoderButton.
  pose proof (debounceButton_inv reading t g Hg) as H1.
  destruct (debounceButton reading t g) as [g1 ev]. simpl in H1.
  fold (exec (dispatchButton ev ;; modify (set_lastBtnState reading)) g1).
  rewrite exec_seq.
  assert (H2 : SessionInv (exec (dispatchButton ev) g1)).
  { destruct ev as [[]|]; simpl.
    - apply onEncoderShortPress_inv, H1.
    - rewrite onEncoderLongPress_globals. exact H1.
    - exact H1. }
  exact H2.
Qed.

Lemma presenceTask_inv now d cm : preserves SessionInv (presenceTask now d cm).
Proof.
  intros g Hg. unfold exec, presenceTask, handleStudentPresence. cmd_unfold.
  repeat match goal with
         | |- context [if ?c then _ else _] => destruct c; simpl
         end; exact Hg.
Qed.

Lemma phoneTask_inv now ir t1 t2 : preserves SessionInv (phoneTask now ir t1 t2).
Proof.
  intros g (Hm & Hr & Ha). unfold exec, phoneTask, startCountdown. cmd_unfold.
  destruct (State_eqb (state g) WAIT_PHONE || State_eqb (state g) COUNTDOWN);
    [|simpl; repeat split; tauto].
  destruct (phoneCheckInterval <=? _); [|simpl; repeat split; tauto].
  simpl.
  destruct (State_eqb (state g) WAIT_PHONE && Bool.eqb ir PHONE_DETECTED_STATE
            && negb (countdownRunning g)); simpl; unfold SessionInv; simpl.
  - repeat split; try lia; try discriminate.
  - repeat split; tauto.
Qed.

Lemma countdownTask_inv t1 t2 tb : preserves SessionInv (countdownTask t1 t2 tb).
Proof.
  intros g (Hm & Hr & Ha). unfold exec, countdownTask, rapidBuzzer. cmd_unfold.
  destruct (State_eqb (state g) COUNTDOWN && countdownRunning g);
    [|simpl; repeat split; tauto].
  destruct (countdownEndMillis g <=? t1); simpl;
    destruct (negb (phonePresent g)); simpl;
    repeat match goal with
           | |- context [if ?c then _ else _] => destruct c; simpl
           end;
    unfold SessionInv; simpl; repeat split; try tauto; try discriminate.
Qed.

Lemma setTimerTask_inv : preserves SessionInv setTimerTask.
Proof.
  intros g (Hm & Hr & Ha). unfold exec, setTimerTask. cmd_unfold.
  destruct (State_eqb (state g) SET_TIMER); [|simpl; repeat split; tauto].
  destruct (negb (encoderPos g =? lastSnap g)); simpl;
    unfold SessionInv; simpl; [|repeat split; tauto].
  rewrite clamped_minutes_fit. pose proof (clampMinutes_range (encoderPos g ÷ 4)).
  repeat split; try tauto; lia.
Qed.

Lemma displayTask_inv now : preserves SessionInv (displayTask now).
Proof.
  intros g Hg. unfold exec, displayTask, updateDisplay. cmd_unfold.
  destruct (displayInterval <=? _); exact Hg.
Qed.

Lemma loop_inv i : preserves SessionInv (loop i).
Proof.
  unfold loop.
  repeat apply preserves_seq.
  - apply handleSerialInput_inv.
  - apply runEncoder_inv.
  - apply readEncoderButton_inv.
  - apply presenceTask_inv.
  - apply phoneTask_inv.
  - apply countdownTask_inv.
  - apply runEncoder_inv.
  - apply setTimerTask_inv.
  - apply displayTask_inv.
Qed.

Lemma setup_inv found : SessionInv (exec (setup found) initial).
Proof.
  destruct found; unfold SessionInv; simpl;
    (split; [lia | split; [split; discriminate | discriminate]]).
Qed.

Lemma reachable_inv g : reachable g -> SessionInv g.
Proof.
  induction 1 as [found | i g Hr IH | a b g Hr IH].
  - apply setup_inv.
  - apply loop_inv, IH.
  - apply updateEncoder_inv, IH.
Qed.

Lemma runLoop_reachable inputs :
  forall g, reachable g -> reachable (runLoop inputs g).
Proof.
  induction inputs as [|i rest IH]; intros g Hg.
  - exact Hg.
  - simpl. apply IH. apply reach_loop. exact Hg.
Qed.

(** ** Quadrature capture *)

Section QuadratureCapture.
Import Quadrature.

Lemma phase_code_encoded (s : bool * bool) :
  encoded_of (fst s) (snd s) = phase_code s.
Proof. destruct s as [[] []]; reflexivity. Qed.

(** The handler's [sum] is the 4-bit transition code. *)
Lemma sum_is_transition_code (prev cur : bool * bool) :
  Z.lor (wrap_int (Z.shiftl (phase_code prev) 2)) (encoded_of (fst cur) (snd cur))
  = transition_code prev cur.
Proof. destruct prev as [[] []], cur as [[] []]; reflexivity. Qed.

Lemma updateEncoder_step (g : Globals) (prev cur : bool * bool) :
  lastEncoded g = phase_code prev ->
  is_long (encoderPos g) ->
  lastEncoded (updateEncoder (fst cur) (snd cur) g) = phase_code cur /\
  encoderPos (updateEncoder (fst cur) (snd cur) g)
  = wrap_long (encoderPos g + delta (transition_code prev cur)).
Proof.
  intros Hprev Hlong. unfold updateEncoder.
  rewrite Hprev, sum_is_transition_code.
  split.
  - destruct prev as [[] []], cur as [[] []]; reflexivity.
  - destruct prev as [[] []], cur as [[] []]; cbn [transition_code phase_code fst snd Z.b2z];
      unfold delta; simpl;
      rewrite ?Z.add_0_r; try reflexivity;
      symmetry; apply wrap_long_id; exact Hlong.
Qed.

Lemma count_cons (p : Z -> bool) (c : Z) (cs : list Z) :
  count p (c :: cs) = (if p c then 1 else 0) + count p cs.
Proof.
  unfold count. simpl. destruct (p c); simpl List.length; lia.
Qed.

Lemma runEncoder_net (samples : list (bool * bool)) :
  forall (g : Globals) (prev : bool * bool),
    lastEncoded g = phase_code prev ->
    is_long (encoderPos g) ->
    encoderPos (runEncoder samples g)
    = wrap_long (encoderPos g
                 + count is_inc (transition_codes prev samples)
                 - count is_dec (transition_codes prev samples)).
Proof.
  induction samples as [|s rest IH]; intros g prev Hprev Hlong.
  - simpl. unfold count; simpl. rewrite Z.add_0_r, Z.sub_0_r.
    symmetry; apply wrap_long_id; exact Hlong.
  - destruct (updateEncoder_step g prev s Hprev Hlong) as [Hlast Hpos].
    change (runEncoder (s :: rest) g)
      with (runEncoder rest (updateEncoder (fst s) (snd s) g)).
    rewrite (IH _ s Hlast).
    + rewrite Hpos. cbn [transition_codes]. rewrite !count_cons.
      rewrite <- Z.add_sub_assoc, wrap_long_add_l. f_equal.
      unfold delta. lia.
    + rewrite Hpos. apply wrap_long_range.
Qed.

Lemma count_bounds (p : Z -> bool) (codes : list Z) :
  0 <= count p codes <= Z.of_nat (List.length codes).
Proof.
  unfold count. pose proof (filter_length_le p codes). lia.
Qed.

Lemma transition_codes_length (samples : list (bool * bool)) :
  forall prev, List.length (transition_codes prev samples) = List.length samples.
Proof. induction samples as [|s rest IH]; intros prev; simpl; [reflexivity | now rewrite IH]. Qed.

(** In every reachable state the encoder variables are as the handler
    expects them. *)
Lemma updateEncoder_EncoderInv a b g :
  EncoderInv g -> EncoderInv (updateEncoder a b g).
Proof.
  intros [Hlong [prev Hprev]].
  destruct (updateEncoder_step g prev (a, b) Hprev Hlong) as [Hlast Hpos].
  cbn [fst snd] in Hlast, Hpos. split.
  - rewrite Hpos. apply wrap_long_range.
  - exists (a, b). exact Hlast.
Qed.

Lemma runEncoder_EncoderInv samples :
  forall g, EncoderInv g -> EncoderInv (runEncoder samples g).
Proof.
  induction samples as [|s rest IH]; intros g Hg.
  - exact Hg.
  - change (runEncoder (s :: rest) g)
      with (runEncoder rest (updateEncoder (fst s) (snd s) g)).
    apply IH, updateEncoder_EncoderInv, Hg.
Qed.

Lemma loop_EncoderInv i : preserves EncoderInv (loop i).
Proof.
  unfold loop. repeat apply preserves_seq.
  - intros g Hg. pose proof (handleSerialInput_frame (in_serial i) g) as F.
    unfold same_but_serialLine in F. rewrite F. exact Hg.
  - intros g Hg. apply runEncoder_EncoderInv, Hg.
  - intros g Hg. unfold exec, readEncoderButton.
    assert (H1 : EncoderInv (fst (debounceButton (in_btn i) (in_btn_t i) g))).
    { unfold debounceButton.
      repeat match goal with
             | |- context [if ?c then _ else _] => destruct c
             end; exact Hg. }
    destruct (debounceButton (in_btn i) (in_btn_t i) g) as [g1 ev].
    simpl in H1.
    fold (exec (dispatchButton ev ;; modify (set_lastBtnState (in_btn i))) g1).
    rewrite exec_seq.
    assert (H2 : EncoderInv (exec (dispatchButton ev) g1)).
    { destruct ev as [[]|]; simpl.
      - destruct H1 as [Hlong Hprev]. unfold exec, onEncoderShortPress.
        destruct (state g1); cmd_unfold; simpl;
          (split; [try exact Hlong; apply wrap_long_range | exact Hprev]).
      - rewrite onEncoderLongPress_globals. exact H1.
      - exact H1. }
    exact H2.
  - intros g Hg. unfold exec, presenceTask, handleStudentPresence. cmd_unfold.
    repeat match goal with
           | |- context [if ?c then _ else _] => destruct c; simpl
           end; exact Hg.
  - intros g Hg. unfold exec, phoneTask, startCountdown. cmd_unfold.
    repeat match goal with
           | |- context [if ?c then _ else _] => destruct c; simpl
           end; exact Hg.
  - intros g Hg. unfold exec, countdownTask, rapidBuzzer. cmd_unfold.
    repeat match goal with
           | |- context [if ?c then _ else _] => destruct c; simpl
           end; exact Hg.
  - intros g Hg. apply runEncoder_EncoderInv, Hg.
  - intros g Hg. unfold exec, setTimerTask. cmd_unfold.
    repeat match goal with
           | |- context [if ?c then _ else _] => destruct c; simpl
           end; exact Hg.
  - intros g Hg. unfold exec, displayTask, updateDisplay. cmd_unfold.
    repeat match goal with
           | |- context [if ?c then _ else _] => destruct c; simpl
           end; exact Hg.
Qed.

Lemma reachable_EncoderInv g : reachable g -> EncoderInv g.
Proof.
  induction 1 as [found | i g Hr IH | a b g Hr IH].
  - split; [unfold is_long; destruct found; simpl; lia|].
    exists (false, false). destruct found; reflexivity.
  - apply loop_EncoderInv, IH.
  - apply updateEncoder_EncoderInv, IH.
Qed.

(** C3.  Every run of the interrupt handler forms the 4-bit code whose two
    high bits are the previous phase code and whose two low bits are the
    current one; codes 0001, 0111, 1110,
    1000 add one to [encoderPos], codes 0010, 1011, 1101, 0100 subtract
    one, every other code leaves it unchanged (in [long] arithmetic).
    Over any sequence of samples the final count is the initial count
    plus the number of incrementing codes minus the number of
    decrementing codes; from a count of zero, and for fewer than [2^31]
    samples, it is exactly increments minus decrements. *)
Theorem C3_quadrature_table (g : Globals) (prev : bool * bool) :
  lastEncoded g = phase_code prev ->
  is_long (encoderPos g) ->
  (forall cur : bool * bool,
      let code := transition_code prev cur in
      let g' := updateEncoder (fst cur) (snd cur) g in
      Z.lor (wrap_int (Z.shiftl (lastEncoded g) 2))
        (encoded_of (fst cur) (snd cur)) = code /\
      (Z.testbit code 3 = fst prev /\ Z.testbit code 2 = snd prev /\
       Z.testbit code 1 = fst cur /\ Z.testbit code 0 = snd cur) /\
      lastEncoded g' = phase_code cur /\
      (In code inc_codes -> encoderPos g' = wrap_long (encoderPos g + 1)) /\
      (In code dec_codes -> encoderPos g' = wrap_long (encoderPos g - 1)) /\
      (~ In code inc_codes -> ~ In code dec_codes ->
       encoderPos g' = encoderPos g)) /\
  (forall samples : list (bool * bool),
      let codes := transition_codes prev samples in
      encoderPos (runEncoder samples g)
      = wrap_long (encoderPos g + count is_inc codes - count is_dec codes)) /\
  (forall samples : list (bool * bool),
      let codes := transition_codes prev samples in
      encoderPos g = 0 ->
      Z.of_nat (List.length samples) < 2 ^ 31 ->
      encoderPos (runEncoder samples g)
      = count is_inc codes - count is_dec codes).
Proof.
  intros Hprev Hlong. split; [|split].
  - intros cur code g'.
    destruct (updateEncoder_step g prev cur Hprev Hlong) as [Hlast Hpos].
    fold g' in Hlast, Hpos. fold code in Hpos.
    split; [rewrite Hprev; apply sum_is_transition_code|].
    split; [subst code; destruct prev as [[] []], cur as [[] []];
            repeat split; reflexivity|].
    split; [exact Hlast|].
    assert (Hinc : In code inc_codes <-> is_inc code = true).
    { unfold is_inc. rewrite existsb_exists. split.
      - intros H. exists code. split; [exact H | apply Z.eqb_refl].
      - intros [x [Hin Hx]]. apply Z.eqb_eq in Hx. now subst x. }
    assert (Hdec : In code dec_codes <-> is_dec code = true).
    { unfold is_dec. rewrite existsb_exists. split.
      - intros H. exists code. split; [exact H | apply Z.eqb_refl].
      - intros [x [Hin Hx]]. apply Z.eqb_eq in Hx. now subst x. }
    assert (Hexcl : is_inc code = true -> is_dec code = true -> False).
    { subst code. destruct prev as [[] []], cur as [[] []]; cbv; congruence. }
    unfold delta in Hpos.
    repeat split.
    + intros H. apply Hinc in H. rewrite Hpos, H.
      destruct (is_dec code) eqn:E; [exfalso; now apply Hexcl|].
      f_equal; lia.
    + intros H. apply Hdec in H. rewrite Hpos, H.
      destruct (is_inc code) eqn:E; [exfalso; now apply Hexcl|].
      f_equal; lia.
    + intros Hni Hnd. rewrite Hpos.
      destruct (is_inc code) eqn:Ei; [exfalso; apply Hni, Hinc; reflexivity|].
      destruct (is_dec code) eqn:Ed; [exfalso; apply Hnd, Hdec; reflexivity|].
      rewrite Z.add_0_r. apply wrap_long_id; exact Hlong.
  - intros samples codes. apply runEncoder_net; assumption.
  - intros samples codes Hzero Hlen.
    rewrite (runEncoder_net samples g prev Hprev Hlong). fold codes.
    rewrite Hzero. apply wrap_long_id.
    pose proof (count_bounds is_inc codes) as Hi.
    pose proof (count_bounds is_dec codes) as Hd.
    unfold codes in Hi, Hd. rewrite transition_codes_length in Hi, Hd.
    fold codes in Hi, Hd. unfold is_long. lia.
Qed.

(** A full clockwise detent followed by one step back, from the initial
    globals. *)
Lemma C3_quadrature_table_witness :
  encoderPos
    (runEncoder [(false, true); (true, true); (true, false); (false, false);
                 (true, false)] initial) = 3.
Proof.
  destruct (C3_quadrature_table initial (false, false)) as [_ [_ H]].
  - reflexivity.
  - unfold is_long; simpl; lia.
  - rewrite (H [(false, true); (true, true); (true, false); (false, false);
                (true, false)]).
    + reflexivity.
    + reflexivity.
    + simpl; lia.
Defined.

End QuadratureCapture.

(** ** Timer setting *)

Lemma clampMinutes_spec m : clampMinutes m = Z.max 1 (Z.min 600 m).
Proof.
  unfold clampMinutes.
  destruct (m <? 1) eqn:E1; [apply Z.ltb_lt in E1 | apply Z.ltb_ge in E1].
  - simpl. lia.
  - destruct (600 <? m) eqn:E2; [apply Z.ltb_lt in E2 | apply Z.ltb_ge in E2]; lia.
Qed.

Lemma waiting_reachable : reachable Session.waiting.
Proof. unfold Session.waiting. apply runLoop_reachable, reach_setup. Qed.

Lemma counting_reachable : reachable Session.counting.
Proof. unfold Session.counting. apply runLoop_reachable, waiting_reachable. Qed.

Lemma cancelled_reachable : reachable Session.cancelled.
Proof. unfold Session.cancelled. apply runLoop_reachable, counting_reachable. Qed.

Lemma setting_again_reachable : reachable Session.setting_again.
Proof.
  unfold Session.setting_again. apply runLoop_reachable, cancelled_reachable.
Qed.

Lemma cancelling_reachable : reachable Session.cancelling.
Proof. unfold Session.cancelling. apply runLoop_reachable, counting_reachable. Qed.

(** C2.  [timerMinutes] is between 1 and 600 in every state the sketch can
    reach, whatever the button, the encoder, the sensors, the clock and
    the serial port deliver.  The two places that write it clamp every
    encoder position, however far it overshoots: committing with a short
    press in [SET_TIMER], and the [SET_TIMER] block of the loop, both
    store [max 1 (min 600 (encoderPos / 4))]. *)
Theorem C2_timerMinutes_in_range :
  (forall g, reachable g -> 1 <= timerMinutes g <= 600) /\
  (forall g pos, state g = SET_TIMER ->
     let g' := exec onEncoderShortPress (set_encoderPos pos g) in
     timerMinutes g' = Z.max 1 (Z.min 600 (pos ÷ 4)) /\
     1 <= timerMinutes g' <= 600) /\
  (forall g pos, state g = SET_TIMER -> pos <> lastSnap g ->
     let g' := exec setTimerTask (set_encoderPos pos g) in
     timerMinutes g' = Z.max 1 (Z.min 600 (pos ÷ 4)) /\
     1 <= timerMinutes g' <= 600).
Proof.
  split; [|split].
  - intros g Hr. apply reachable_inv in Hr. apply Hr.
  - intros g pos Hs g'. subst g'. unfold exec, onEncoderShortPress.
    simpl. rewrite Hs. cmd_unfold. simpl.
    rewrite clamped_minutes_fit, clampMinutes_spec. split; [reflexivity | lia].
  - intros g pos Hs Hne g'. subst g'. unfold exec, setTimerTask. cmd_unfold.
    simpl. rewrite Hs. simpl.
    apply Z.eqb_neq in Hne. rewrite Hne. simpl.
    rewrite clamped_minutes_fit, clampMinutes_spec. split; [reflexivity | lia].
Qed.

(** The encoder far beyond either end of the range, and a state reached by
    two short presses. *)
Lemma C2_timerMinutes_in_range_witness :
  1 <= timerMinutes Session.waiting <= 600 /\
  timerMinutes
    (exec onEncoderShortPress
       (set_encoderPos 2000000000 (set_state SET_TIMER initial))) = 600 /\
  timerMinutes
    (exec setTimerTask
       (set_encoderPos (-2000000000) (set_state SET_TIMER initial))) = 1.
Proof.
  destruct C2_timerMinutes_in_range as [H1 [H2 H3]].
  split; [|split].
  - apply H1. exact waiting_reachable.
  - destruct (H2 (set_state SET_TIMER initial) 2000000000) as [E _].
    + reflexivity.
    + rewrite E. vm_compute. reflexivity.
  - destruct (H3 (set_state SET_TIMER initial) (-2000000000)) as [E _].
    + reflexivity.
    + vm_compute. discriminate.
    + rewrite E. vm_compute. reflexivity.
Defined.

(** ** Countdown status and session state *)

(** C7.  In every reachable state a running countdown implies state
    [COUNTDOWN].  Both operations that leave [COUNTDOWN], the short press
    that cancels and the deadline test that succeeds, clear
    [countdownRunning]; and whenever an iteration of the loop leaves
    [COUNTDOWN], no countdown is running afterwards. *)
Theorem C7_countdown_only_in_COUNTDOWN :
  (forall g, reachable g -> countdownRunning g = true -> state g = COUNTDOWN) /\
  (forall g, state g = COUNTDOWN ->
     let g' := exec onEncoderShortPress g in
     state g' = IDLE /\ countdownRunning g' = false) /\
  (forall g t1 t2 tb,
     state g = COUNTDOWN -> countdownRunning g = true ->
     countdownEndMillis g <= t1 ->
     let g' := exec (countdownTask t1 t2 tb) g in
     state g' = IDLE /\ countdownRunning g' = false) /\
  (forall g i, reachable g -> state g = COUNTDOWN ->
     state (exec (loop i) g) <> COUNTDOWN ->
     countdownRunning (exec (loop i) g) = false).
Proof.
  split; [|split; [|split]].
  - intros g Hr Hrun. apply reachable_inv in Hr.
    destruct Hr as (_ & Hiff & _). apply Hiff, Hrun.
  - intros g Hs g'. subst g'. unfold exec, onEncoderShortPress.
    rewrite Hs. cmd_unfold. simpl. split; reflexivity.
  - intros g t1 t2 tb Hs Hrun Hend g'. subst g'.
    unfold exec, countdownTask, rapidBuzzer. cmd_unfold.
    rewrite Hs, Hrun. simpl.
    apply Z.leb_le in Hend. rewrite Hend. simpl.
    destruct (negb (phonePresent g)); simpl;
      repeat match goal with
             | |- context [if ?c then _ else _] => destruct c; simpl
             end; split; reflexivity.
  - intros g i Hr Hs Hleft.
    assert (Hr' : reachable (exec (loop i) g)) by (apply reach_loop, Hr).
    apply reachable_inv in Hr'. destruct Hr' as (_ & Hiff & _).
    destruct (countdownRunning (exec (loop i) g)) eqn:E; [|reflexivity].
    exfalso. apply Hleft, Hiff. reflexivity.
Qed.

Lemma C7_countdown_only_in_COUNTDOWN_witness :
  state Session.counting = COUNTDOWN /\
  countdownRunning (exec onEncoderShortPress Session.counting) = false /\
  countdownRunning
    (exec (countdownTask 1503000 1503000 1503000) Session.counting) = false /\
  countdownRunning (exec (loop (tick 1503000 HIGH LOW)) Session.counting) = false.
Proof.
  destruct C7_countdown_only_in_COUNTDOWN as [H1 [H2 [H3 H4]]].
  split; [|split; [|split]].
  - apply H1.
    + exact counting_reachable.
    + vm_compute. reflexivity.
  - destruct (H2 Session.counting) as [_ E].
    + vm_compute. reflexivity.
    + exact E.
  - destruct (H3 Session.counting 1503000 1503000 1503000) as [_ E].
    + vm_compute. reflexivity.
    + vm_compute. reflexivity.
    + vm_compute. discriminate.
    + exact E.
  - apply (H4 Session.counting (tick 1503000 HIGH LOW)).
    + exact counting_reachable.
    + vm_compute. reflexivity.
    + vm_compute. discriminate.
Defined.

(** C10.  No reachable state has [state = ABORTED].  Cancelling a countdown
    with a short press goes straight to [IDLE]; "Aborted" is only the
    message shown on the way. *)
Theorem C10_ABORTED_unreachable :
  (forall g, reachable g -> state g <> ABORTED) /\
  (forall g, state g = COUNTDOWN ->
     state (exec onEncoderShortPress g) = IDLE /\
     In (DrawMessage "Aborted") (effects onEncoderShortPress g)).
Proof.
  split.
  - intros g Hr. apply reachable_inv in Hr. apply Hr.
  - intros g Hs. unfold exec, effects, onEncoderShortPress.
    rewrite Hs. cmd_unfold. simpl. split; [reflexivity|]. tauto.
Qed.

Lemma C10_ABORTED_unreachable_witness :
  state Session.cancelled <> ABORTED /\
  state (exec onEncoderShortPress Session.counting) = IDLE.
Proof.
  destruct C10_ABORTED_unreachable as [H1 H2]. split.
  - apply H1. exact cancelled_reachable.
  - destruct (H2 Session.counting) as [E _].
    + vm_compute. reflexivity.
    + exact E.
Defined.

(** ** Presence and the LED *)

Lemma presenceTask_due now duration cm g :
  ultrasonicInterval <= ulong_sub now (lastUltrasonicCheck g) ->
  ledState (exec (presenceTask now duration cm) g)
  = ledState (exec (handleStudentPresence
                      (presenceOf (readUltrasonic_value duration cm))) g) /\
  state (exec (presenceTask now duration cm) g) = state g.
Proof.
  intros Hdue. apply Z.leb_le in Hdue.
  unfold exec, presenceTask, handleStudentPresence, presenceOf. cmd_unfold.
  rewrite Hdue. simpl.
  destruct ((0 <? readUltrasonic_value duration cm)
            && (readUltrasonic_value duration cm <=? presenceThreshold)); simpl.
  - destruct (ledState g); simpl; split; reflexivity.
  - destruct (negb (State_eqb (state g) COUNTDOWN) && ledState g); simpl;
      split; reflexivity.
Qed.

(** ** The phone reading on entering WAIT_PHONE *)

(** C6, counterexample.  A countdown is started with the phone in place
    and cancelled, the phone is taken away and the timer opened again:
    the state is [SET_TIMER] and [phonePresent] still holds [true].  The
    short press that commits the timer enters [WAIT_PHONE] with that stale
    [true]. *)
Lemma C6_counterexample :
  reachable Session.setting_again /\
  state Session.setting_again = SET_TIMER /\
  state (exec onEncoderShortPress Session.setting_again) = WAIT_PHONE /\
  phonePresent (exec onEncoderShortPress Session.setting_again) = true.
Proof.
  split; [exact setting_again_reachable|].
  vm_compute. repeat split; reflexivity.
Qed.

(** C6, as amended.  The short press that commits the timer enters
    [WAIT_PHONE] and leaves [phonePresent] as it was.  The phone-poll tick
    overwrites it with the fresh sample, and a countdown is started from
    [WAIT_PHONE] only by a due phone-poll tick whose fresh sample shows
    the phone. *)
Theorem C6_phone_reading_kept :
  (forall g, state g = SET_TIMER ->
     let g' := exec onEncoderShortPress g in
     state g' = WAIT_PHONE /\ phonePresent g' = phonePresent g) /\
  (forall g now ir t1 t2,
     state g = WAIT_PHONE ->
     phoneCheckInterval <= ulong_sub now (lastPhoneCheck g) ->
     phonePresent (exec (phoneTask now ir t1 t2) g)
     = Bool.eqb ir PHONE_DETECTED_STATE) /\
  (forall g now ir t1 t2,
     state g = WAIT_PHONE ->
     state (exec (phoneTask now ir t1 t2) g) = COUNTDOWN ->
     phoneCheckInterval <= ulong_sub now (lastPhoneCheck g) /\
     ir = PHONE_DETECTED_STATE).
Proof.
  split; [|split].
  - intros g Hs g'. subst g'. unfold exec, onEncoderShortPress.
    rewrite Hs. cmd_unfold. simpl. split; reflexivity.
  - intros g now ir t1 t2 Hs Hdue. apply Z.leb_le in Hdue.
    unfold exec, phoneTask, startCountdown. cmd_unfold.
    rewrite Hs, Hdue. simpl. rewrite Hs. simpl.
    destruct (Bool.eqb ir PHONE_DETECTED_STATE && negb (countdownRunning g));
      reflexivity.
  - intros g now ir t1 t2 Hs.
    unfold exec, phoneTask, startCountdown. cmd_unfold.
    rewrite Hs. simpl.
    destruct (phoneCheckInterval <=? ulong_sub now (lastPhoneCheck g)) eqn:Hdue;
      simpl.
    + rewrite Hs. simpl.
      destruct (Bool.eqb ir PHONE_DETECTED_STATE) eqn:Hir; simpl.
      * intros _. split; [apply Z.leb_le, Hdue | apply Bool.eqb_prop, Hir].
      * rewrite Hs. discriminate.
    + rewrite Hs. discriminate.
Qed.

(** The stale reading of the counterexample is kept; a due poll without
    the phone reads [false]; the poll that starts the countdown was due and
    saw the phone. *)
Lemma C6_phone_reading_kept_witness :
  phonePresent (exec onEncoderShortPress Session.setting_again) = true /\
  phonePresent (exec (phoneTask 3000 HIGH 3000 3000) Session.waiting) = false /\
  (phoneCheckInterval <= ulong_sub 3000 (lastPhoneCheck Session.waiting) /\
   LOW = PHONE_DETECTED_STATE).
Proof.
  destruct C6_phone_reading_kept as [H1 [H2 H3]].
  split; [|split].
  - destruct (H1 Session.setting_again) as [_ E].
    + vm_compute. reflexivity.
    + rewrite E. vm_compute. reflexivity.
  - rewrite (H2 Session.waiting 3000 HIGH 3000 3000).
    + reflexivity.
    + vm_compute. reflexivity.
    + vm_compute. discriminate.
  - apply (H3 Session.waiting 3000 LOW 3000 3000).
    + vm_compute. reflexivity.
    + vm_compute. reflexivity.
Defined.

(** ** Blocking calls *)

(** The gated tasks do nothing at all while their interval has not
    elapsed. *)
Lemma gated_tasks_skip (g : Globals) (now : Z) :
  (forall duration cm,
     ulong_sub now (lastUltrasonicCheck g) < ultrasonicInterval ->
     presenceTask now duration cm g = (g, [])) /\
  (forall ir t1 t2,
     ulong_sub now (lastPhoneCheck g) < phoneCheckInterval ->
     phoneTask now ir t1 t2 g = (g, [])) /\
  (ulong_sub now (lastDisplayUpdate g) < displayInterval ->
   displayTask now g = (g, [])) /\
  (ulong_sub now (lastBuzzerToggle g) <= BUZZER_TOGGLE_MS ->
   rapidBuzzer now g = (g, [])).
Proof.
  split; [|split; [|split]].
  - intros duration cm H. apply Z.leb_gt in H.
    unfold presenceTask, when, ifc. rewrite H. reflexivity.
  - intros ir t1 t2 H. apply Z.leb_gt in H.
    unfold phoneTask, when, ifc. rewrite H.
    destruct (_ || _); reflexivity.
  - intros H. apply Z.leb_gt in H.
    unfold displayTask, when, ifc. rewrite H. reflexivity.
  - intros H. apply Z.ltb_ge in H.
    unfold rapidBuzzer, when, ifc. rewrite H. reflexivity.
Qed.

(** C8.  The loop does block.  In a reachable state with a countdown
    running and the button press already accepted, the iteration that
    sees the release cancels the countdown and calls [showMessage], which
    sleeps for 900 ms in [delay]; and every due presence sample busy-waits
    in [delayMicroseconds] and in [pulseIn], for up to 30 ms. *)
Theorem C8_loop_blocks :
  reachable Session.cancelling /\
  state Session.cancelling = COUNTDOWN /\
  effects (loop (tick 4180 HIGH LOW)) Session.cancelling
  = [ DigitalWrite buzzerPin LOW; DigitalWrite relayPin LOW;
      DrawMessage "Aborted"; Delay 900 ] /\
  effects (presenceTask 4200 0 0) Session.cancelling
  = [ DigitalWrite trigPin LOW; DelayMicroseconds 2;
      DigitalWrite trigPin HIGH; DelayMicroseconds 10;
      DigitalWrite trigPin LOW; PulseIn echoPin HIGH 30000 ].
Proof.
  split; [exact cancelling_reachable|].
  vm_compute. repeat split; reflexivity.
Qed.

(** ** The SET command *)

Lemma setArgsOk_valid year month day hour minute second :
  setArgsOk year month day hour minute second = true
  <-> validSetArgs year month day hour minute second.
Proof.
  unfold setArgsOk, validSetArgs.
  destruct ((year <? 2000) || (month <? 1) || (12 <? month)
            || (day <? 1) || (31 <? day)) eqn:E1;
    destruct ((hour <? 0) || (23 <? hour) || (minute <? 0) || (59 <? minute)
              || (second <? 0) || (59 <? second)) eqn:E2;
    rewrite ?orb_true_iff, ?orb_false_iff, ?Z.ltb_lt, ?Z.ltb_ge in E1, E2;
    (split; [intros H; try discriminate H; lia | intros H; try reflexivity; lia]).
Qed.

(** A command line whose first token is [SET] (in any letter case) and
    which carries six arguments that, as [atoi] reads them, violate the
    validated ranges, is answered with "Invalid date/time." and nothing
    else: the RTC is not adjusted and no global variable changes. *)
Lemma SET_rejected_as_read
  (line : string) (g : Globals) (tok0 a1 a2 a3 a4 a5 a6 : list ascii)
  (rest : list (list ascii)) :
  commandTokens line = tok0 :: a1 :: a2 :: a3 :: a4 :: a5 :: a6 :: rest ->
  string_of_list_ascii (map CString.toupper tok0) = "SET"%string ->
  ~ validSetArgs (CString.atoi a1) (CString.atoi a2) (CString.atoi a3)
      (CString.atoi a4) (CString.atoi a5) (CString.atoi a6) ->
  processSerialCommand line g = (g, [SerialPrintln "Invalid date/time."]).
Proof.
  intros Htok Hset Hbad.
  unfold processSerialCommand. rewrite Htok. cbv zeta. rewrite Hset.
  simpl String.eqb. cbv iota. unfold commandSET.
  destruct (setArgsOk _ _ _ _ _ _) eqn:Hok.
  - exfalso. apply Hbad, setArgsOk_valid, Hok.
  - reflexivity.
Qed.

(** ** Countdown timing *)

Section CountdownTiming.
Import Countdown.

Lemma late_waiting_reachable : reachable Session.late_waiting.
Proof. unfold Session.late_waiting. apply runLoop_reachable, reach_setup. Qed.

Lemma startCountdown_deadline g t1 t2 :
  countdownEndMillis (exec (startCountdown t1 t2) g)
  = ulong_add t1 (ulong_mul (ulong_mul (timerMinutes g) 60) 1000).
Proof. reflexivity. Qed.

(** What the countdown block of the loop does with its two clock reads:
    it leaves [COUNTDOWN] exactly when the deadline test on the first
    read succeeds, and otherwise shows the whole seconds of the deadline
    minus the second read. *)
Lemma countdownTask_timing g t1 t2 tb :
  state g = COUNTDOWN -> countdownRunning g = true ->
  let g' := exec (countdownTask t1 t2 tb) g in
  state g' = (if is_elapsed g t1 then IDLE else COUNTDOWN) /\
  countdownRunning g' = negb (is_elapsed g t1) /\
  countdownSeconds g' = remaining_ms g t1 t2 / 1000 /\
  countdownEndMillis g' = countdownEndMillis g.
Proof.
  intros Hs Hrun g'. subst g'.
  unfold exec, countdownTask, rapidBuzzer, remaining_ms, is_elapsed.
  cmd_unfold. rewrite Hs, Hrun. simpl.
  destruct (countdownEndMillis g <=? t1); simpl;
    destruct (negb (phonePresent g)); simpl;
    repeat match goal with
           | |- context [if ?c then _ else _] => destruct c; simpl
           end; rewrite ?Hs, ?Hrun; repeat split; reflexivity.
Qed.

(** The phone poll that starts a countdown. *)
Lemma phoneTask_starts g now ir start s2 :
  state g = WAIT_PHONE -> countdownRunning g = false ->
  phoneCheckInterval <= ulong_sub now (lastPhoneCheck g) ->
  ir = PHONE_DETECTED_STATE ->
  let g0 := exec (phoneTask now ir start s2) g in
  state g0 = COUNTDOWN /\ countdownRunning g0 = true /\
  countdownEndMillis g0
  = ulong_add start (ulong_mul (ulong_mul (timerMinutes g) 60) 1000) /\
  countdownSeconds g0 = ulong_mul (timerMinutes g) 60.
Proof.
  intros Hs Hrun Hdue -> g0. subst g0. apply Z.leb_le in Hdue.
  unfold exec, phoneTask, startCountdown. cmd_unfold.
  rewrite Hs, Hdue. simpl. rewrite Hs, Hrun. simpl.
  repeat split; reflexivity.
Qed.

(** As long as the deadline still fits the 32-bit millisecond clock.  The
    phone poll that starts the countdown stores the start time plus the
    timer in milliseconds.  Every later run of the countdown block, with
    clock reads [t1 <= t2], ends the countdown if and only if [t1] has
    reached the deadline.  Before that it shows the whole seconds from
    [t2] to the deadline, at most the timer and never more than an
    earlier run showed, as long as [t2] has not passed the deadline
    either; if the two reads straddle the deadline, the subtraction wraps
    and it shows [(2^32 + deadline - t2) / 1000] seconds. *)
Theorem countdown_without_wrap g now ir start s2 :
  state g = WAIT_PHONE -> countdownRunning g = false ->
  phoneCheckInterval <= ulong_sub now (lastPhoneCheck g) ->
  ir = PHONE_DETECTED_STATE ->
  0 <= timerMinutes g -> is_ulong start ->
  end_time start (timerMinutes g) < ULONG_MOD ->
  let deadline := end_time start (timerMinutes g) in
  let g0 := exec (phoneTask now ir start s2) g in
  countdownEndMillis g0 = deadline /\
  forall t1 t2 tb,
    start <= t1 -> t1 <= t2 -> is_ulong t2 ->
    let g1 := exec (countdownTask t1 t2 tb) g0 in
    (deadline <= t1 ->
     state g1 = IDLE /\ countdownRunning g1 = false /\
     countdownSeconds g1 = 0) /\
    (t1 < deadline ->
     state g1 = COUNTDOWN /\ countdownRunning g1 = true /\
     countdownEndMillis g1 = deadline) /\
    (t1 < deadline -> t2 <= deadline ->
     countdownSeconds g1 = (deadline - t2) / 1000 /\
     0 <= countdownSeconds g1 <= timerMinutes g * 60 /\
     forall t1' t2' tb',
       t2 <= t1' -> t1' <= t2' -> t1' < deadline -> t2' <= deadline ->
       countdownSeconds (exec (countdownTask t1' t2' tb') g1)
       <= countdownSeconds g1) /\
    (t1 < deadline -> deadline < t2 ->
     countdownSeconds g1 = (ULONG_MOD + deadline - t2) / 1000).
Proof.
  intros Hs Hrun Hdue Hir Hmin Hstart Hfit deadline g0.
  destruct (phoneTask_starts g now ir start s2 Hs Hrun Hdue Hir)
    as (S0 & R0 & E0 & _).
  fold g0 in S0, R0, E0.
  assert (Hdl : 0 <= deadline < ULONG_MOD).
  { subst deadline. unfold end_time, duration_ms, is_ulong in *. lia. }
  assert (Hend : countdownEndMillis g0 = deadline).
  { rewrite E0. subst deadline. unfold end_time, duration_ms in *.
    unfold ulong_add, ulong_mul, is_ulong, ULONG_MOD in *.
    rewrite (wrap_ulong_id (timerMinutes g * 60))
      by (unfold is_ulong, ULONG_MOD; lia).
    rewrite (wrap_ulong_id (timerMinutes g * 60 * 1000))
      by (unfold is_ulong, ULONG_MOD; lia).
    apply wrap_ulong_id. unfold is_ulong, ULONG_MOD. lia. }
  split; [exact Hend|].
  (* one run of the block on any state of this countdown *)
  assert (Hblock : forall h u1 u2 ub,
             state h = COUNTDOWN -> countdownRunning h = true ->
             countdownEndMillis h = deadline ->
             let h1 := exec (countdownTask u1 u2 ub) h in
             (deadline <= u1 ->
              state h1 = IDLE /\ countdownRunning h1 = false /\
              countdownSeconds h1 = 0) /\
             (u1 < deadline ->
              state h1 = COUNTDOWN /\ countdownRunning h1 = true /\
              countdownEndMillis h1 = deadline /\
              countdownSeconds h1 = ulong_sub deadline u2 / 1000)).
  { intros h u1 u2 ub Sh Rh Eh h1.
    destruct (countdownTask_timing h u1 u2 ub Sh Rh) as (T1 & T2 & T3 & T4).
    fold h1 in T1, T2, T3, T4.
    unfold remaining_ms, is_elapsed in *. rewrite Eh in *. split.
    - intros Hle. apply Z.leb_le in Hle. rewrite Hle in *.
      repeat split; assumption.
    - intros Hlt. apply Z.leb_gt in Hlt. rewrite Hlt in *.
      repeat split; assumption. }
  intros t1 t2 tb Hst H12 Ht2 g1.
  destruct (Hblock g0 t1 t2 tb S0 R0 Hend) as [B1 B2]. fold g1 in B1, B2.
  split; [exact B1|].
  split; [intros Hlt; destruct (B2 Hlt) as (A1 & A2 & A3 & _);
          repeat split; assumption|].
  split.
  - intros Hlt Hle. destruct (B2 Hlt) as (A1 & A2 & A3 & A4).
    assert (Hsec : countdownSeconds g1 = (deadline - t2) / 1000).
    { rewrite A4, ulong_sub_mono; [reflexivity | exact Hdl | exact Ht2 | exact Hle]. }
    split; [exact Hsec|]. split.
    + rewrite Hsec. split.
      * apply Z.div_pos; lia.
      * apply Z.div_le_upper_bound; [lia|].
        subst deadline. unfold end_time, duration_ms in *. lia.
    + intros t1' t2' tb' H21 H12' Hlt' Hle'.
      destruct (Hblock g1 t1' t2' tb' A1 A2 A3) as [_ C2].
      destruct (C2 Hlt') as (_ & _ & _ & C4).
      rewrite C4, Hsec, ulong_sub_mono;
        [| exact Hdl | unfold is_ulong in *; lia | exact Hle'].
      apply Z.div_le_mono; lia.
  - intros Hlt Hgt. destruct (B2 Hlt) as (_ & _ & _ & A4).
    rewrite A4. unfold ulong_sub, wrap_ulong. f_equal.
    replace (deadline - t2) with (ULONG_MOD + deadline - t2 + (-1) * ULONG_MOD)
      by lia.
    rewrite Z_mod_plus_full. apply Z.mod_small.
    unfold is_ulong in *. lia.
Qed.

(** Once the deadline does not fit the clock any more, the deadline test
    succeeds at the very moment the countdown is started. *)
Lemma countdown_with_wrap g start t2 :
  0 <= timerMinutes g <= 600 -> is_ulong start ->
  ULONG_MOD <= end_time start (timerMinutes g) ->
  is_elapsed (exec (startCountdown start t2) g) start = true.
Proof.
  intros Hmin Hstart Hwrap. unfold is_elapsed.
  rewrite startCountdown_deadline.
  unfold end_time, duration_ms, is_ulong, ULONG_MOD in *.
  unfold ulong_mul.
  rewrite (wrap_ulong_id (timerMinutes g * 60))
    by (unfold is_ulong, ULONG_MOD; lia).
  rewrite (wrap_ulong_id (timerMinutes g * 60 * 1000))
    by (unfold is_ulong, ULONG_MOD; lia).
  apply Z.leb_le. unfold ulong_add, wrap_ulong, ULONG_MOD.
  replace (start + timerMinutes g * 60 * 1000)
    with (start + timerMinutes g * 60 * 1000 - 2 ^ 32 + 1 * 2 ^ 32) by lia.
  rewrite Z_mod_plus_full. rewrite Z.mod_small; lia.
Qed.

(** C1.  The deadline is computed as [millis() + durMs] in 32-bit
    arithmetic and compared with [millis() >= countdownEndMillis].  In
    a reachable state waiting for the phone with 25 minutes set, with the
    clock at 4294967000 ms (296 ms before it wraps), the phone is put
    down: the deadline, 25 minutes ahead, wraps to 1499704, the test
    succeeds in the same iteration, and the countdown is over at once
    ("Timer Done", state [IDLE]) although the clock is 1500000 ms short
    of the deadline. *)
Theorem C1_deadline_wraps :
  let start := 4294967000 in
  let g := exec (loop (tick start HIGH LOW)) Session.late_waiting in
  reachable Session.late_waiting /\
  state Session.late_waiting = WAIT_PHONE /\
  timerMinutes Session.late_waiting = 25 /\
  is_ulong start /\
  start < end_time start 25 /\
  countdownEndMillis g = 1499704 /\
  is_elapsed (exec (startCountdown start start) Session.late_waiting) start
  = true /\
  state g = IDLE /\ countdownRunning g = false /\
  In (DrawMessage "Timer Done")
    (effects (loop (tick start HIGH LOW)) Session.late_waiting).
Proof.
  intros start g. split; [exact late_waiting_reachable|].
  subst start g. unfold is_ulong.
  vm_compute. repeat split; try reflexivity; try discriminate.
  tauto.
Qed.

End CountdownTiming.

(** ** The button classifier *)

Section ButtonClassifier.
Import Button.

Lemma ulong_sub_wrap a b :
  0 <= a - b < ULONG_MOD -> ulong_sub (wrap_ulong a) (wrap_ulong b) = a - b.
Proof.
  intros H. unfold ulong_sub, wrap_ulong.
  rewrite <- Zminus_mod. apply Z.mod_small. exact H.
Qed.

Lemma ulong_sub_same t : ulong_sub t t = 0.
Proof. unfold ulong_sub, wrap_ulong. rewrite Z.sub_diag. reflexivity. Qed.

(** The actions of a press do not touch the classifier's variables. *)
Lemma dispatchButton_view ev g : view (exec (dispatchButton ev) g) = view g.
Proof.
  destruct ev as [[]|]; simpl.
  - unfold exec, onEncoderShortPress.
    destruct (state g); cmd_unfold; reflexivity.
  - rewrite onEncoderLongPress_globals. reflexivity.
  - reflexivity.
Qed.

Lemma readEncoderButton_view reading t g :
  view (exec (readEncoderButton reading t) g)
  = (reading,
     btnState (fst (debounceButton reading t g)),
     lastDebounceBtn (fst (debounceButton reading t g)),
     btnPressStart (fst (debounceButton reading t g))).
Proof.
  unfold exec at 1, readEncoderButton.
  destruct (debounceButton reading t g) as [g1 ev]. simpl fst.
  fold (exec (dispatchButton ev ;; modify (set_lastBtnState reading)) g1).
  rewrite exec_seq.
  pose proof (dispatchButton_view ev g1) as Hv.
  set (g2 := exec (dispatchButton ev) g1) in *.
  unfold view in Hv. injection Hv as _ H2 H3 H4.
  unfold view, exec, modify. simpl. rewrite H2, H3, H4. reflexivity.
Qed.

(** A sample that is not accepted: the level has not been stable for
    long enough, or it is the accepted level already. *)
Lemma sample_quiet reading t g :
  ulong_sub t (restarted reading t g) <= debounceDelay \/ reading = btnState g ->
  snd (debounceButton reading t g) = None /\
  view (exec (readEncoderButton reading t) g)
  = (reading, btnState g, restarted reading t g, btnPressStart g).
Proof.
  intros H. rewrite readEncoderButton_view.
  unfold debounceButton, restarted in *.
  destruct (negb (Bool.eqb reading (lastBtnState g))); simpl in *.
  - destruct (debounceDelay <? ulong_sub t t) eqn:E; simpl.
    + apply Z.ltb_lt in E.
      destruct H as [H | H]; [lia|]. subst reading.
      rewrite Bool.eqb_reflx. simpl. split; reflexivity.
    + split; reflexivity.
  - destruct (debounceDelay <? ulong_sub t (lastDebounceBtn g)) eqn:E; simpl.
    + apply Z.ltb_lt in E.
      destruct H as [H | H]; [lia|]. subst reading.
      rewrite Bool.eqb_reflx. simpl. split; reflexivity.
    + split; reflexivity.
Qed.

(** The sample at which a press is accepted. *)
Lemma sample_press t g :
  btnState g = HIGH ->
  debounceDelay < ulong_sub t (restarted LOW t g) ->
  snd (debounceButton LOW t g) = None /\
  view (exec (readEncoderButton LOW t) g) = (LOW, LOW, restarted LOW t g, t).
Proof.
  intros Hb H. rewrite readEncoderButton_view.
  unfold debounceButton, restarted in *.
  destruct (negb (Bool.eqb LOW (lastBtnState g))); simpl in *;
    apply Z.ltb_lt in H; rewrite H, Hb; simpl; split; reflexivity.
Qed.

(** The sample at which a release is accepted: the one place where an
    event is reported. *)
Lemma sample_release t g :
  btnState g = LOW ->
  debounceDelay < ulong_sub t (restarted HIGH t g) ->
  snd (debounceButton HIGH t g)
  = Some (if LONG_PRESS_MS <=? ulong_sub t (btnPressStart g)
          then LongPress else ShortPress) /\
  view (exec (readEncoderButton HIGH t) g)
  = (HIGH, HIGH, restarted HIGH t g, btnPressStart g).
Proof.
  intros Hb H. rewrite readEncoderButton_view.
  unfold debounceButton, restarted in *.
  destruct (negb (Bool.eqb HIGH (lastBtnState g))); simpl in *;
    apply Z.ltb_lt in H; rewrite H, Hb; simpl;
    destruct (LONG_PRESS_MS <=? ulong_sub t (btnPressStart g));
    split; reflexivity.
Qed.

Lemma events_app s1 s2 : forall g,
  events (s1 ++ s2) g = events s1 g ++ events s2 (after s1 g).
Proof.
  induction s1 as [|[T level] rest IH]; intros g.
  - reflexivity.
  - simpl. rewrite IH, app_assoc. reflexivity.
Qed.

Lemma after_app s1 s2 : forall g, after (s1 ++ s2) g = after s2 (after s1 g).
Proof.
  induction s1 as [|[T level] rest IH]; intros g.
  - reflexivity.
  - simpl. apply IH.
Qed.

Lemma view_fields g a b c d :
  view g = (a, b, c, d) ->
  lastBtnState g = a /\ btnState g = b /\
  lastDebounceBtn g = c /\ btnPressStart g = d.
Proof. unfold view. intros H. injection H as -> -> -> ->. repeat split. Qed.

(** *** Bounces *)

Lemma bounces_emit_nothing stable samples :
  forall since prev g,
    bouncing stable since prev g ->
    ascending prev (map fst samples) ->
    bounces_only stable since samples ->
    events samples g = [].
Proof.
  induction samples as [|[T level] rest IH];
    intros since prev g [Hb Hl] Hasc Hbounce.
  - reflexivity.
  - simpl in Hasc. destruct Hasc as [Hprev Hasc].
    cbn [events]. cbn [bounces_only] in Hbounce.
    destruct (Bool.eqb level stable) eqn:Elevel.
    + (* a sample of the accepted level *)
      apply Bool.eqb_prop in Elevel. subst level.
      destruct (sample_quiet stable (wrap_ulong T) g) as [Hev Hview].
      { right. symmetry. exact Hb. }
      rewrite Hev. simpl.
      apply view_fields in Hview. destruct Hview as (V1 & V2 & V3 & V4).
      apply (IH None T); [|exact Hasc | exact Hbounce].
      split; [rewrite V2; exact Hb | exact V1].
    + (* a sample of the other level, within the window *)
      assert (Hneg : level = negb stable).
      { destruct level, stable; try reflexivity; discriminate Elevel. }
      destruct Hbounce as [Hspan Hbounce].
      destruct since as [T0|].
      * destruct Hl as (Hl1 & Hl2 & Hl3).
        assert (Hre : restarted level (wrap_ulong T) g = wrap_ulong T0).
        { unfold restarted. rewrite Hl1, Hneg, Bool.eqb_reflx. exact Hl2. }
        destruct (sample_quiet level (wrap_ulong T) g) as [Hev Hview].
        { left. rewrite Hre, ulong_sub_wrap; [exact Hspan|].
          unfold debounceDelay, ULONG_MOD in *. lia. }
        rewrite Hev. simpl.
        apply view_fields in Hview. destruct Hview as (V1 & V2 & V3 & V4).
        apply (IH (Some T0) T); [|exact Hasc | exact Hbounce].
        split; [rewrite V2; exact Hb|].
        split; [rewrite V1; exact Hneg|]. split; [|lia].
        rewrite V3. exact Hre.
      * assert (Hre : restarted level (wrap_ulong T) g = wrap_ulong T).
        { unfold restarted. rewrite Hl, Hneg.
          destruct stable; reflexivity. }
        destruct (sample_quiet level (wrap_ulong T) g) as [Hev Hview].
        { left. rewrite Hre, ulong_sub_same. unfold debounceDelay. lia. }
        rewrite Hev. simpl.
        apply view_fields in Hview. destruct Hview as (V1 & V2 & V3 & V4).
        apply (IH (Some T) T); [|exact Hasc | exact Hbounce].
        split; [rewrite V2; exact Hb|].
        split; [rewrite V1; exact Hneg|]. split; [|lia].
        rewrite V3. exact Hre.
Qed.

(** *** A clean press and release *)

Lemma map_fst_held level times : map fst (held level times) = times.
Proof.
  unfold held. rewrite map_map. simpl. apply map_id.
Qed.

Lemma ascending_weaken times : forall prev prev',
  prev' <= prev -> ascending prev times -> ascending prev' times.
Proof.
  destruct times as [|T rest]; intros prev prev' Hle H.
  - exact I.
  - simpl in *. destruct H as [H1 H2]. split; [lia | exact H2].
Qed.

Lemma ascending_from times : forall prev,
  ascending prev times -> Forall (fun T => prev <= T) times.
Proof.
  induction times as [|T rest IH]; intros prev H.
  - constructor.
  - simpl in H. destruct H as [H1 H2]. constructor; [exact H1|].
    apply IH. apply (ascending_weaken rest T prev H1 H2).
Qed.

Lemma ascending_split a x b : forall prev,
  ascending prev (a ++ x :: b) ->
  ascending prev a /\ Forall (fun T => T <= x) a /\ prev <= x /\
  ascending x b.
Proof.
  induction a as [|T rest IH]; intros prev H.
  - simpl in H. destruct H as [H1 H2]. repeat split; [constructor | exact H1 | exact H2].
  - simpl in H. destruct H as [H1 H2].
    destruct (IH T H2) as (I1 & I2 & I3 & I4).
    repeat split; try assumption; [|lia].
    constructor; [exact I3 | exact I2].
Qed.

Lemma accept_time_In since times T :
  accept_time since times = Some T -> In T times /\ debounceDelay < T - since.
Proof.
  induction times as [|T' rest IH]; simpl; [discriminate|].
  destruct (debounceDelay <? T' - since) eqn:E.
  - intros H. injection H as <-. apply Z.ltb_lt in E. tauto.
  - intros H. destruct (IH H) as [H1 H2]. tauto.
Qed.

(** Further samples of the accepted level change nothing. *)
Lemma level_held_quiet level times : forall g,
  btnState g = level -> lastBtnState g = level ->
  events (held level times) g = [] /\
  view (after (held level times) g) = view g.
Proof.
  induction times as [|T rest IH]; intros g Hb Hl.
  - split; reflexivity.
  - cbn [held map events after].
    destruct (sample_quiet level (wrap_ulong T) g) as [Hev Hview].
    { right. symmetry. exact Hb. }
    rewrite Hev. simpl app.
    assert (Hsame : view (exec (readEncoderButton level (wrap_ulong T)) g)
                    = view g).
    { rewrite Hview. unfold restarted, view. rewrite Hl, Hb.
      rewrite Bool.eqb_reflx. reflexivity. }
    pose proof (view_fields _ _ _ _ _ Hview) as (V1 & V2 & V3 & V4).
    destruct (IH (exec (readEncoderButton level (wrap_ulong T)) g))
      as [IH1 IH2].
    { rewrite V2. exact Hb. }
    { exact V1. }
    fold (held level rest). split; [exact IH1|].
    rewrite IH2. exact Hsame.
Qed.

(** The press is accepted at [pa], the first sample that finds [LOW]
    stable for more than the debounce window. *)
Lemma press_accepted p0 pa ps : forall g,
  btnState g = HIGH -> lastBtnState g = LOW ->
  lastDebounceBtn g = wrap_ulong p0 ->
  Forall (fun T => p0 <= T) ps ->
  accept_time p0 ps = Some pa ->
  pa - p0 < ULONG_MOD ->
  events (held LOW ps) g = [] /\
  view (after (held LOW ps) g) = (LOW, LOW, wrap_ulong p0, wrap_ulong pa).
Proof.
  induction ps as [|T rest IH]; intros g Hb Hl Hd Hfrom Hacc Hspan.
  - discriminate Hacc.
  - inversion Hfrom as [|? ? HT Hrest]; subst.
    cbn [held map events after]. fold (held LOW rest).
    assert (Hre : restarted LOW (wrap_ulong T) g = wrap_ulong p0).
    { unfold restarted. rewrite Hl. simpl. exact Hd. }
    simpl in Hacc. destruct (debounceDelay <? T - p0) eqn:E.
    + injection Hacc as ->. apply Z.ltb_lt in E.
      destruct (sample_press (wrap_ulong pa) g Hb) as [Hev Hview].
      { rewrite Hre, ulong_sub_wrap; [exact E | lia]. }
      rewrite Hev. simpl app. rewrite Hre in Hview.
      pose proof (view_fields _ _ _ _ _ Hview) as (V1 & V2 & V3 & V4).
      destruct (level_held_quiet LOW rest
                  (exec (readEncoderButton LOW (wrap_ulong pa)) g) V2 V1)
        as [Q1 Q2].
      split; [exact Q1 | rewrite Q2; exact Hview].
    + apply Z.ltb_ge in E.
      destruct (sample_quiet LOW (wrap_ulong T) g) as [Hev Hview].
      { left. rewrite Hre, ulong_sub_wrap; [exact E|].
        unfold debounceDelay, ULONG_MOD in *. lia. }
      rewrite Hev. simpl app. rewrite Hre in Hview.
      pose proof (view_fields _ _ _ _ _ Hview) as (V1 & V2 & V3 & V4).
      apply IH; try assumption.
      rewrite V2. exact Hb.
Qed.

(** The release is accepted at [ra], and there the event is reported. *)
Lemma release_accepted r0 ra rs : forall g,
  btnState g = LOW -> lastBtnState g = HIGH ->
  lastDebounceBtn g = wrap_ulong r0 ->
  Forall (fun T => r0 <= T) rs ->
  accept_time r0 rs = Some ra ->
  ra - r0 < ULONG_MOD ->
  events (held HIGH rs) g
  = [if LONG_PRESS_MS <=? ulong_sub (wrap_ulong ra) (btnPressStart g)
     then LongPress else ShortPress].
Proof.
  induction rs as [|T rest IH]; intros g Hb Hl Hd Hfrom Hacc Hspan.
  - discriminate Hacc.
  - inversion Hfrom as [|? ? HT Hrest]; subst.
    cbn [held map events after]. fold (held HIGH rest).
    assert (Hre : restarted HIGH (wrap_ulong T) g = wrap_ulong r0).
    { unfold restarted. rewrite Hl. simpl. exact Hd. }
    simpl in Hacc. destruct (debounceDelay <? T - r0) eqn:E.
    + injection Hacc as ->. apply Z.ltb_lt in E.
      destruct (sample_release (wrap_ulong ra) g Hb) as [Hev Hview].
      { rewrite Hre, ulong_sub_wrap; [exact E | lia]. }
      rewrite Hev. simpl app.
      pose proof (view_fields _ _ _ _ _ Hview) as (V1 & V2 & V3 & V4).
      destruct (level_held_quiet HIGH rest
                  (exec (readEncoderButton HIGH (wrap_ulong ra)) g) V2 V1)
        as [Q1 _].
      rewrite Q1. reflexivity.
    + apply Z.ltb_ge in E.
      destruct (sample_quiet HIGH (wrap_ulong T) g) as [Hev Hview].
      { left. rewrite Hre, ulong_sub_wrap; [exact E|].
        unfold debounceDelay, ULONG_MOD in *. lia. }
      rewrite Hev. simpl app. rewrite Hre in Hview.
      pose proof (view_fields _ _ _ _ _ Hview) as (V1 & V2 & V3 & V4).
      rewrite (IH (exec (readEncoderButton HIGH (wrap_ulong T)) g));
        try assumption.
      * rewrite V4. reflexivity.
      * rewrite V2. exact Hb.
Qed.

Lemma clean_press_one_event g p0 ps r0 rs pa ra :
  btnState g = HIGH -> lastBtnState g = HIGH ->
  chronological (press_release p0 ps r0 rs) ->
  accept_time p0 ps = Some pa ->
  accept_time r0 rs = Some ra ->
  ra - p0 < ULONG_MOD ->
  events (press_release p0 ps r0 rs) g
  = [if LONG_PRESS_MS <=? ra - pa then LongPress else ShortPress].
Proof.
  intros Hb Hl Hchron Hpa Hra Hspan.
  unfold chronological, press_release in Hchron.
  rewrite map_app, !map_fst_held in Hchron. simpl in Hchron.
  destruct (ascending_split ps r0 rs p0 Hchron) as (A1 & A2 & A3 & A4).
  pose proof (ascending_from ps p0 A1) as Fp.
  pose proof (ascending_from rs r0 A4) as Fr.
  destruct (accept_time_In p0 ps pa Hpa) as [Ipa Dpa].
  destruct (accept_time_In r0 rs ra Hra) as [Ira Dra].
  assert (Hpa_r0 : pa <= r0).
  { rewrite Forall_forall in A2. apply A2, Ipa. }
  unfold debounceDelay in Dpa, Dra.
  unfold press_release. rewrite events_app.
  (* the press *)
  cbn [held map events after]. fold (held LOW ps).
  destruct (sample_quiet LOW (wrap_ulong p0) g) as [Hev0 Hview0].
  { left. unfold restarted. rewrite Hl. simpl.
    rewrite ulong_sub_same. unfold debounceDelay. lia. }
  rewrite Hev0. simpl app.
  assert (Hre0 : restarted LOW (wrap_ulong p0) g = wrap_ulong p0).
  { unfold restarted. rewrite Hl. reflexivity. }
  rewrite Hre0 in Hview0.
  pose proof (view_fields _ _ _ _ _ Hview0) as (V1 & V2 & V3 & V4).
  set (g1 := exec (readEncoderButton LOW (wrap_ulong p0)) g) in *.
  destruct (press_accepted p0 pa ps g1) as [P1 P2]; try assumption.
  { rewrite V2. exact Hb. }
  { lia. }
  rewrite P1. simpl app.
  pose proof (view_fields _ _ _ _ _ P2) as (W1 & W2 & W3 & W4).
  set (g2 := after (held LOW ps) g1) in *.
  (* the release *)
  cbn [held map events after]. fold (held HIGH rs).
  destruct (sample_quiet HIGH (wrap_ulong r0) g2) as [Hev1 Hview1].
  { left. unfold restarted. rewrite W1. simpl.
    rewrite ulong_sub_same. unfold debounceDelay. lia. }
  rewrite Hev1. simpl app.
  assert (Hre1 : restarted HIGH (wrap_ulong r0) g2 = wrap_ulong r0).
  { unfold restarted. rewrite W1. reflexivity. }
  rewrite Hre1 in Hview1.
  pose proof (view_fields _ _ _ _ _ Hview1) as (X1 & X2 & X3 & X4).
  set (g3 := exec (readEncoderButton HIGH (wrap_ulong r0)) g2) in *.
  rewrite (release_accepted r0 ra rs g3); try assumption.
  - rewrite X4, W4. rewrite ulong_sub_wrap; [reflexivity | lia].
  - rewrite X2. exact W2.
  - lia.
Qed.

(** *** The classifier inside the loop *)

(** The classifier's outcome depends on its four variables only. *)
Lemma debounceButton_view reading t g1 g2 :
  view g1 = view g2 ->
  snd (debounceButton reading t g1) = snd (debounceButton reading t g2) /\
  view (exec (readEncoderButton reading t) g1)
  = view (exec (readEncoderButton reading t) g2).
Proof.
  intros Hv. rewrite !readEncoderButton_view.
  unfold view in Hv. injection Hv as H1 H2 H3 H4.
  unfold debounceButton. rewrite H1.
  destruct (negb (Bool.eqb reading (lastBtnState g2))); simpl;
    rewrite ?H2, ?H3, ?H4;
    repeat match goal with
           | |- context [if ?c then _ else _] => destruct c; simpl
           end; rewrite ?H2, ?H3, ?H4; split; reflexivity.
Qed.

Lemma events_view samples : forall g1 g2,
  view g1 = view g2 -> events samples g1 = events samples g2.
Proof.
  induction samples as [|[T level] rest IH]; intros g1 g2 Hv.
  - reflexivity.
  - cbn [events].
    destruct (debounceButton_view level (wrap_ulong T) g1 g2 Hv) as [E1 E2].
    rewrite E1. f_equal. apply IH, E2.
Qed.

(** Nothing else in the loop touches the classifier's variables. *)
Lemma loop_view i g :
  view (exec (handleSerialInput (in_serial i) ;;
              modify (runEncoder (in_isr_early i))) g) = view g /\
  view (exec (loop i) g)
  = view (exec (readEncoderButton (in_btn i) (in_btn_t i)) g).
Proof.
  assert (Hpre : forall g,
             view (exec (handleSerialInput (in_serial i) ;;
                         modify (runEncoder (in_isr_early i))) g) = view g).
  { intros g0. rewrite exec_seq.
    pose proof (handleSerialInput_frame (in_serial i) g0) as F1.
    set (g1 := exec (handleSerialInput (in_serial i)) g0) in *.
    pose proof (runEncoder_frame (in_isr_early i) g1) as F2.
    unfold exec at 1, modify. simpl fst.
    unfold same_but_serialLine, same_but_encoder in *.
    rewrite F2. unfold view. simpl. rewrite F1. reflexivity. }
  split; [apply Hpre|].
  assert (H1 : forall g', view (exec (presenceTask (in_now i) (in_echo_us i)
                                        (in_echo_cm i)) g') = view g').
  { intros g'. unfold exec, presenceTask, handleStudentPresence. cmd_unfold.
    repeat match goal with
           | |- context [if ?c then _ else _] => destruct c; simpl
           end; reflexivity. }
  assert (H2 : forall g', view (exec (phoneTask (in_now i) (in_ir i)
                                        (in_start_t1 i) (in_start_t2 i)) g')
                          = view g').
  { intros g'. unfold exec, phoneTask, startCountdown. cmd_unfold.
    repeat match goal with
           | |- context [if ?c then _ else _] => destruct c; simpl
           end; reflexivity. }
  assert (H3 : forall g', view (exec (countdownTask (in_cd_t1 i) (in_cd_t2 i)
                                        (in_buzz_t i)) g') = view g').
  { intros g'. unfold exec, countdownTask, rapidBuzzer. cmd_unfold.
    repeat match goal with
           | |- context [if ?c then _ else _] => destruct c; simpl
           end; reflexivity. }
  assert (H4 : forall g', view (exec (modify (runEncoder (in_isr_late i))) g')
                          = view g').
  { intros g'. unfold exec, modify. simpl fst.
    pose proof (runEncoder_frame (in_isr_late i) g') as F.
    unfold same_but_encoder in F. rewrite F. reflexivity. }
  assert (H5 : forall g', view (exec setTimerTask g') = view g').
  { intros g'. unfold exec, setTimerTask. cmd_unfold.
    repeat match goal with
           | |- context [if ?c then _ else _] => destruct c; simpl
           end; reflexivity. }
  assert (H6 : forall g', view (exec (displayTask (in_now i)) g') = view g').
  { intros g'. unfold exec, displayTask, updateDisplay. cmd_unfold.
    repeat match goal with
           | |- context [if ?c then _ else _] => destruct c; simpl
           end; reflexivity. }
  unfold loop. rewrite !exec_seq. rewrite H6, H5, H4, H3, H2, H1.
  apply debounceButton_view. rewrite <- exec_seq. apply Hpre.
Qed.

(** Along iterations of the loop the classifier reports what it reports
    on the samples the iterations take. *)
Lemma loop_events_are_events inputs : forall g,
  Forall (fun i => is_ulong (in_btn_t i)) inputs ->
  loop_events inputs g = events (map sample_of inputs) g.
Proof.
  induction inputs as [|i rest IH]; intros g Hclock.
  - reflexivity.
  - inversion Hclock as [|? ? Hi Hrest]; subst.
    cbn [loop_events map events sample_of].
    rewrite (wrap_ulong_id (in_btn_t i) Hi).
    destruct (loop_view i g) as [Hpre Hloop].
    destruct (debounceButton_view (in_btn i) (in_btn_t i) _ g Hpre) as [-> _].
    f_equal. rewrite (IH _ Hrest).
    apply events_view, Hloop.
Qed.

(** C4.  For samples taken at times that never go back.  While a level is
    accepted and stable, if every stretch of samples of the other level
    spans no more than the 50 ms debounce window, no event is reported.
    For one clean press and release from the released state, each held
    until the classifier accepts it, exactly one event is reported:
    [LongPress] if the duration it measures, from the accepted press to
    the accepted release, is at least 2000 ms, and [ShortPress] if it is
    less. *)
Theorem C4_button_classifier (g : Globals) :
  (forall stable samples,
     btnState g = stable -> lastBtnState g = stable ->
     chronological samples -> bounces_only stable None samples ->
     events samples g = []) /\
  (forall p0 ps r0 rs pa ra,
     btnState g = HIGH -> lastBtnState g = HIGH ->
     chronological (press_release p0 ps r0 rs) ->
     accept_time p0 ps = Some pa ->
     accept_time r0 rs = Some ra ->
     ra - p0 < ULONG_MOD ->
     events (press_release p0 ps r0 rs) g
     = [if LONG_PRESS_MS <=? ra - pa then LongPress else ShortPress]).
Proof.
  split.
  - intros stable samples Hb Hl Hchron Hbounce.
    destruct samples as [|[T level] rest]; [reflexivity|].
    apply (bounces_emit_nothing stable ((T, level) :: rest) None T g).
    + split; [exact Hb | exact Hl].
    + unfold chronological in Hchron. simpl in *. split; [lia | exact Hchron].
    + exact Hbounce.
  - intros p0 ps r0 rs pa ra Hb Hl Hchron Hpa Hra Hspan.
    apply (clean_press_one_event g p0 ps r0 rs pa ra); assumption.
Qed.

(** Contact bounce of 15 ms and of 45 ms; a press held for 300 ms; a
    press held for 2500 ms. *)
Lemma C4_button_classifier_witness :
  events [(1000, LOW); (1015, HIGH); (1030, LOW); (1045, LOW); (1060, LOW);
          (1075, LOW); (1090, HIGH); (1105, HIGH)] initial = [] /\
  events (press_release 1000 [1100; 1200; 1300] 1400 [1500; 1600]) initial
  = [ShortPress] /\
  events (press_release 1000 [1100; 2000; 3000] 3500 [3600; 3700]) initial
  = [LongPress].
Proof.
  destruct (C4_button_classifier initial) as [H1 H2].
  split; [|split].
  - apply (H1 HIGH).
    + reflexivity.
    + reflexivity.
    + unfold chronological. simpl. lia.
    + simpl. unfold debounceDelay. lia.
  - apply (H2 1000 [1100; 1200; 1300] 1400 [1500; 1600] 1100 1500).
    + reflexivity.
    + reflexivity.
    + unfold chronological. simpl. lia.
    + reflexivity.
    + reflexivity.
    + unfold ULONG_MOD. simpl. lia.
  - apply (H2 1000 [1100; 2000; 3000] 3500 [3600; 3700] 1100 3600).
    + reflexivity.
    + reflexivity.
    + unfold chronological. simpl. lia.
    + reflexivity.
    + reflexivity.
    + unfold ULONG_MOD. simpl. lia.
Defined.

End ButtonClassifier.

(** * Further properties of the sketch *)

Ltac if_cases :=
  repeat match goal with
         | |- context [if ?c then _ else _] => destruct c eqn:?; simpl
         end.

(** ** Walking the encoder back *)

Section EncoderRetrace.
Import Quadrature Quadrature2.

(** The table is antisymmetric: a transition and its reverse cancel. *)
Lemma delta_reverse (a b : bool * bool) :
  delta (transition_code b a) = - delta (transition_code a b).
Proof. destruct a as [[] []], b as [[] []]; reflexivity. Qed.

Lemma net_cons c codes : net (c :: codes) = delta c + net codes.
Proof. unfold net, delta. rewrite !count_cons. lia. Qed.

Lemma net_app c1 c2 : net (c1 ++ c2) = net c1 + net c2.
Proof.
  induction c1 as [|c rest IH]; simpl.
  - unfold net, count. simpl. lia.
  - rewrite !net_cons, IH. lia.
Qed.

Lemma last_default {A} (l : list A) : forall a d1 d2,
  last (a :: l) d1 = last (a :: l) d2.
Proof.
  induction l as [|b rest IH]; intros a d1 d2.
  - reflexivity.
  - change (last (b :: rest) d1 = last (b :: rest) d2). apply IH.
Qed.

Lemma transition_codes_app a b : forall prev,
  transition_codes prev (a ++ b)
  = transition_codes prev a ++ transition_codes (last a prev) b.
Proof.
  induction a as [|s rest IH]; intros prev.
  - reflexivity.
  - simpl app. cbn [transition_codes]. rewrite IH. simpl app.
    f_equal. f_equal.
    destruct rest as [|p rest']; [reflexivity|].
    f_equal. apply last_default.
Qed.

Lemma retrace_cons prev s rest :
  retrace prev (s :: rest) = retrace s rest ++ [prev].
Proof.
  unfold retrace. simpl rev.
  destruct (rev rest ++ [s]) eqn:E.
  - destruct (rev rest); discriminate E.
  - reflexivity.
Qed.

Lemma retrace_ends prev path : last (path ++ retrace prev path) prev = prev.
Proof.
  destruct path as [|s rest].
  - reflexivity.
  - rewrite retrace_cons, app_assoc. apply last_last.
Qed.

Lemma net_retrace path : forall prev,
  net (transition_codes prev (path ++ retrace prev path)) = 0.
Proof.
  induction path as [|s rest IH]; intros prev.
  - reflexivity.
  - rewrite retrace_cons. simpl app. cbn [transition_codes].
    rewrite net_cons, app_assoc, transition_codes_app, net_app.
    rewrite IH, retrace_ends. cbn [transition_codes].
    rewrite net_cons. unfold net at 1, count. simpl.
    rewrite (delta_reverse prev s). lia.
Qed.

(** Turning the encoder along any path of phase samples and back along
    the same path returns [encoderPos] to where it was, whatever bounces
    or skipped phases the path contains. *)
Theorem encoder_retrace_returns (g : Globals) (prev : bool * bool)
  (path : list (bool * bool)) :
  lastEncoded g = phase_code prev ->
  is_long (encoderPos g) ->
  encoderPos (runEncoder (path ++ retrace prev path) g) = encoderPos g /\
  lastEncoded (runEncoder (path ++ retrace prev path) g) = lastEncoded g.
Proof.
  intros Hprev Hlong. split.
  - rewrite (runEncoder_net _ g prev Hprev Hlong).
    pose proof (net_retrace path prev) as Hnet. unfold net in Hnet.
    replace (encoderPos g
             + count is_inc (transition_codes prev (path ++ retrace prev path))
             - count is_dec (transition_codes prev (path ++ retrace prev path)))
      with (encoderPos g) by lia.
    apply wrap_long_id, Hlong.
  - assert (Hlast : forall samples g0 p,
               lastEncoded g0 = phase_code p ->
               lastEncoded (runEncoder samples g0)
               = phase_code (last samples p)).
    { induction samples as [|s rest IH]; intros g0 p Hp.
      - exact Hp.
      - change (runEncoder (s :: rest) g0)
          with (runEncoder rest (updateEncoder (fst s) (snd s) g0)).
        rewrite (IH _ s).
        + destruct rest as [|p0 rest']; [reflexivity|].
          change (last (s :: p0 :: rest') p) with (last (p0 :: rest') p).
          f_equal. apply last_default.
        + unfold updateEncoder. cbv zeta. simpl. apply phase_code_encoded. }
    rewrite (Hlast _ g prev Hprev), retrace_ends. symmetry. exact Hprev.
Qed.

Lemma encoder_retrace_returns_witness :
  encoderPos
    (runEncoder ([(false, true); (true, true); (false, false)]
                 ++ retrace (false, false)
                      [(false, true); (true, true); (false, false)])
       (set_encoderPos 100 initial)) = 100.
Proof.
  destruct (encoder_retrace_returns (set_encoderPos 100 initial) (false, false)
              [(false, true); (true, true); (false, false)]) as [H _].
  - reflexivity.
  - unfold is_long. simpl. lia.
  - exact H.
Defined.

End EncoderRetrace.

(** ** Setting the timer with the encoder *)

Section TimerSetting.
Import Quadrature Quadrature2.

(** From [IDLE], a short press opens the timer, the encoder is turned, and
    a second short press commits: the timer is the old value moved by a
    quarter of the net encoder count, clamped to 1..600.  Without any
    turn the timer keeps its value, and a net count of [4 * n] moves it
    by [n] minutes. *)
Theorem timer_follows_encoder (g : Globals) (prev : bool * bool)
  (samples : list (bool * bool)) :
  state g = IDLE ->
  1 <= timerMinutes g <= 600 ->
  lastEncoded g = phase_code prev ->
  Z.of_nat (List.length samples) < 2 ^ 30 ->
  let g3 := exec onEncoderShortPress
              (runEncoder samples (exec onEncoderShortPress g)) in
  let turned := net (transition_codes prev samples) in
  state g3 = WAIT_PHONE /\
  timerMinutes g3
  = Z.max 1 (Z.min 600 ((4 * timerMinutes g + turned) ÷ 4)) /\
  (samples = [] -> timerMinutes g3 = timerMinutes g) /\
  (forall n, turned = 4 * n ->
     timerMinutes g3 = Z.max 1 (Z.min 600 (timerMinutes g + n))).
Proof.
  intros Hs Hm Hprev Hlen g3 turned.
  set (g1 := exec onEncoderShortPress g) in *.
  assert (H1 : state g1 = SET_TIMER /\ encoderPos g1 = timerMinutes g * 4 /\
               lastEncoded g1 = phase_code prev /\
               timerMinutes g1 = timerMinutes g).
  { unfold g1, exec, onEncoderShortPress. rewrite Hs. cmd_unfold. simpl.
    repeat split; try assumption.
    apply wrap_long_id. unfold is_long. lia. }
  destruct H1 as (S1 & E1 & L1 & T1).
  set (g2 := runEncoder samples g1) in *.
  assert (Hlong1 : is_long (encoderPos g1)) by (rewrite E1; unfold is_long; lia).
  pose proof (runEncoder_net samples g1 prev L1 Hlong1) as Hpos.
  fold g2 in Hpos.
  pose proof (count_bounds is_inc (transition_codes prev samples)) as Bi.
  pose proof (count_bounds is_dec (transition_codes prev samples)) as Bd.
  rewrite transition_codes_length in Bi, Bd.
  rewrite wrap_long_id in Hpos by (rewrite E1; unfold is_long; lia).
  assert (Hpos' : encoderPos g2 = 4 * timerMinutes g + turned).
  { rewrite Hpos, E1. unfold turned, net. lia. }
  assert (S2 : state g2 = SET_TIMER).
  { pose proof (runEncoder_frame samples g1) as F. fold g2 in F.
    unfold same_but_encoder in F. rewrite F. exact S1. }
  assert (H3 : state g3 = WAIT_PHONE /\
               timerMinutes g3
               = Z.max 1 (Z.min 600 ((4 * timerMinutes g + turned) ÷ 4))).
  { unfold g3, exec, onEncoderShortPress. rewrite S2. cmd_unfold. simpl.
    rewrite clamped_minutes_fit, clampMinutes_spec, Hpos'.
    split; reflexivity. }
  destruct H3 as [S3 T3].
  assert (H4 : forall n, turned = 4 * n ->
                 timerMinutes g3 = Z.max 1 (Z.min 600 (timerMinutes g + n))).
  { intros n Hn. rewrite T3, Hn.
    replace (4 * timerMinutes g + 4 * n) with ((timerMinutes g + n) * 4) by lia.
    rewrite Z.quot_mul by lia. reflexivity. }
  split; [exact S3|]. split; [exact T3|]. split; [|exact H4].
  intros Hnil. rewrite (H4 0).
  - lia.
  - unfold turned. rewrite Hnil. reflexivity.
Qed.

(** Two detents clockwise from the default of 25 minutes. *)
Lemma timer_follows_encoder_witness :
  timerMinutes
    (exec onEncoderShortPress
       (runEncoder [(false, true); (true, true); (true, false); (false, false);
                    (false, true); (true, true); (true, false); (false, false)]
          (exec onEncoderShortPress initial))) = 27.
Proof.
  destruct (timer_follows_encoder initial (false, false)
              [(false, true); (true, true); (true, false); (false, false);
               (false, true); (true, true); (true, false); (false, false)])
    as (_ & _ & _ & H).
  - reflexivity.
  - simpl. lia.
  - reflexivity.
  - simpl. lia.
  - apply (H 2). reflexivity.
Defined.

End TimerSetting.

(** ** Invariants of LED and buzzer *)

(** [readEncoderButton] keeps whatever the classifier's own variables do
    not matter for and a short press keeps. *)
Lemma readEncoderButton_preserves (P : Globals -> Prop) reading t :
  (forall g v, P g -> P (set_lastDebounceBtn v g)) ->
  (forall g v, P g -> P (set_btnState v g)) ->
  (forall g v, P g -> P (set_btnPressStart v g)) ->
  (forall g v, P g -> P (set_lastBtnState v g)) ->
  preserves P onEncoderShortPress ->
  preserves P (readEncoderButton reading t).
Proof.
  intros Hd Hb Hp Hl Hshort g Hg. unfold exec, readEncoderButton.
  assert (H1 : P (fst (debounceButton reading t g))).
  { unfold debounceButton.
    destruct (negb (Bool.eqb reading (lastBtnState g)));
      repeat match goal with
             | |- context [if ?c then _ else _] => destruct c; simpl
             end; auto. }
  destruct (debounceButton reading t g) as [g1 ev]. simpl in H1.
  fold (exec (dispatchButton ev ;; modify (set_lastBtnState reading)) g1).
  rewrite exec_seq. unfold exec at 1, modify. simpl fst. apply Hl.
  destruct ev as [[]|]; simpl.
  - apply Hshort, H1.
  - rewrite onEncoderLongPress_globals. exact H1.
  - exact H1.
Qed.

Lemma onEncoderShortPress_not_COUNTDOWN g :
  state (exec onEncoderShortPress g) <> COUNTDOWN.
Proof.
  unfold exec, onEncoderShortPress.
  destruct (state g); cmd_unfold; simpl; discriminate.
Qed.

Lemma serial_and_encoder_preserve (P : Globals -> Prop) :
  (forall g v, P g -> P (set_serialLine v g)) ->
  (forall g v, P g -> P (set_encoderPos v g)) ->
  (forall g v, P g -> P (set_lastEncoded v g)) ->
  (forall bytes, preserves P (handleSerialInput bytes)) /\
  (forall samples, preserves P (modify (runEncoder samples))).
Proof.
  intros Hs He Hl. split.
  - intros bytes g Hg. pose proof (handleSerialInput_frame bytes g) as F.
    unfold same_but_serialLine in F. rewrite F. apply Hs, Hg.
  - intros samples g Hg. unfold exec, modify. simpl fst.
    pose proof (runEncoder_frame samples g) as F.
    unfold same_but_encoder in F. rewrite F. apply Hl, He, Hg.
Qed.

Lemma loop_LedInv i : preserves LedInv (loop i).
Proof.
  destruct (serial_and_encoder_preserve LedInv) as [Hser Henc];
    try (intros g v Hg; exact Hg).
  unfold loop. repeat apply preserves_seq.
  - apply Hser.
  - apply Henc.
  - apply readEncoderButton_preserves; try (intros g v Hg; exact Hg).
    intros g _ Hc. exfalso. exact (onEncoderShortPress_not_COUNTDOWN g Hc).
  - intros g Hg. unfold exec, presenceTask, handleStudentPresence, LedInv in *.
    cmd_unfold. destruct (state g) eqn:Es; if_cases; intros Hc;
      rewrite ?Es in *; try discriminate; try reflexivity;
      apply Hg; reflexivity.
  - intros g Hg. unfold exec, phoneTask, startCountdown, LedInv in *.
    cmd_unfold. destruct (state g) eqn:Es; simpl; if_cases; intros Hc;
      rewrite ?Es in *; try discriminate; try reflexivity;
      apply Hg; reflexivity.
  - intros g Hg. unfold exec, countdownTask, rapidBuzzer, LedInv in *.
    cmd_unfold. destruct (state g) eqn:Es; simpl; if_cases; intros Hc;
      rewrite ?Es in *; try discriminate; try reflexivity;
      apply Hg; reflexivity.
  - apply Henc.
  - intros g Hg. unfold exec, setTimerTask, LedInv in *. cmd_unfold.
    if_cases; exact Hg.
  - intros g Hg. unfold exec, displayTask, updateDisplay, LedInv in *.
    cmd_unfold. if_cases; exact Hg.
Qed.

(** In every reachable state with a countdown in progress the LED is on,
    whether or not the student is present. *)
Theorem led_on_during_countdown (g : Globals) :
  reachable g -> state g = COUNTDOWN -> ledState g = true.
Proof.
  intros Hr. change (LedInv g).
  induction Hr as [found | i g Hr IH | a b g Hr IH].
  - destruct found; intros H; discriminate H.
  - apply loop_LedInv, IH.
  - pose proof (updateEncoder_frame a b g) as F.
    unfold same_but_encoder in F. rewrite F. exact IH.
Qed.

Lemma led_on_during_countdown_witness :
  ledState (exec (loop (tick 3200 HIGH LOW)) Session.counting) = true.
Proof.
  apply led_on_during_countdown.
  - apply reach_loop. exact counting_reachable.
  - vm_compute. reflexivity.
Defined.

(** ** What one button sample can do *)

Lemma same_but_button_refl g : same_but_button g g.
Proof. unfold same_but_button. destruct g; reflexivity. Qed.

Lemma debounceButton_frame reading t g :
  same_but_button g (fst (debounceButton reading t g)).
Proof.
  unfold debounceButton, same_but_button.
  destruct (negb (Bool.eqb reading (lastBtnState g)));
    repeat match goal with
           | |- context [if ?c then _ else _] => destruct c; simpl
           end; destruct g; reflexivity.
Qed.

Lemma readEncoderButton_exec reading t g :
  exec (readEncoderButton reading t) g
  = set_lastBtnState reading
      (exec (dispatchButton (snd (debounceButton reading t g)))
         (fst (debounceButton reading t g))).
Proof.
  unfold exec at 1, readEncoderButton.
  destruct (debounceButton reading t g) as [g1 ev]. simpl fst. simpl snd.
  fold (exec (dispatchButton ev ;; modify (set_lastBtnState reading)) g1).
  rewrite exec_seq. reflexivity.
Qed.

(** One call of [readEncoderButton] changes the classifier's variables
    and, besides, does nothing or does what one short press does. *)
Lemma readEncoderButton_outcome reading t g :
  same_but_button g (exec (readEncoderButton reading t) g) \/
  exists g1, same_but_button g g1 /\
             same_but_button (exec onEncoderShortPress g1)
               (exec (readEncoderButton reading t) g).
Proof.
  rewrite readEncoderButton_exec.
  pose proof (debounceButton_frame reading t g) as F.
  destruct (debounceButton reading t g) as [g1 ev]. simpl fst in *. simpl snd.
  destruct ev as [[]|]; simpl dispatchButton.
  - right. exists g1. split; [exact F|].
    unfold same_but_button.
    destruct (exec onEncoderShortPress g1); reflexivity.
  - left. rewrite onEncoderLongPress_globals.
    unfold same_but_button in *. rewrite F. destruct g; reflexivity.
  - left. unfold same_but_button in *. rewrite F. destruct g; reflexivity.
Qed.

(** ** The buzzer *)

Lemma phone_then_countdown_BuzzerInv now ir t1 t2 c1 c2 tb g :
  SessionInv g -> BuzzerInv g ->
  BuzzerInv (exec (countdownTask c1 c2 tb) (exec (phoneTask now ir t1 t2) g)).
Proof.
  intros (Hm & Hr & Ha) Hb.
  unfold exec, countdownTask, phoneTask, startCountdown, rapidBuzzer, BuzzerInv
    in *.
  cmd_unfold.
  destruct (state g) eqn:Es; destruct (countdownRunning g) eqn:Er;
    try (exfalso; destruct Hr as [Hr1 Hr2];
         (discriminate (Hr1 eq_refl) || discriminate (Hr2 eq_refl)));
    destruct (phonePresent g) eqn:Ep; destruct (buzzerOn g) eqn:Eb;
    try (discriminate (Hb eq_refl));
    destruct ir;
    repeat (repeat (progress (simpl; rewrite ?Es, ?Er, ?Ep, ?Eb));
            match goal with
            | |- context [if ?c then _ else _] =>
                lazymatch c with
                | context [if _ then _ else _] => fail
                | _ => destruct c eqn:?
                end
            end);
    repeat (progress (simpl; rewrite ?Es, ?Er, ?Ep, ?Eb));
    intros H; try discriminate H; reflexivity.
Qed.

Lemma loop_BuzzerInv i g :
  SessionInv g -> BuzzerInv g -> BuzzerInv (exec (loop i) g).
Proof.
  intros Hs Hb.
  destruct (serial_and_encoder_preserve BuzzerInv) as [Hser Henc];
    try (intros g0 v Hg; exact Hg).
  unfold loop. rewrite !exec_seq.
  set (g1 := exec (handleSerialInput (in_serial i)) g).
  assert (S1 : SessionInv g1) by (apply handleSerialInput_inv, Hs).
  assert (B1 : BuzzerInv g1) by (apply Hser, Hb).
  set (g2 := exec (modify (runEncoder (in_isr_early i))) g1).
  assert (S2 : SessionInv g2) by (apply runEncoder_inv, S1).
  assert (B2 : BuzzerInv g2) by (apply Henc, B1).
  set (g3 := exec (readEncoderButton (in_btn i) (in_btn_t i)) g2).
  assert (S3 : SessionInv g3) by (apply readEncoderButton_inv, S2).
  assert (B3 : BuzzerInv g3).
  { apply readEncoderButton_preserves; try (intros g0 v Hg; exact Hg);
      [|exact B2].
    intros g0 Hg0. unfold exec, onEncoderShortPress, BuzzerInv in *.
    destruct (state g0); cmd_unfold; simpl; try exact Hg0.
    intros H; discriminate H. }
  set (g4 := exec (presenceTask (in_now i) (in_echo_us i) (in_echo_cm i)) g3).
  assert (S4 : SessionInv g4) by (apply presenceTask_inv, S3).
  assert (B4 : BuzzerInv g4).
  { unfold g4, exec, presenceTask, handleStudentPresence, BuzzerInv in *.
    cmd_unfold. if_cases; exact B3. }
  pose proof (phone_then_countdown_BuzzerInv (in_now i) (in_ir i)
                (in_start_t1 i) (in_start_t2 i) (in_cd_t1 i) (in_cd_t2 i)
                (in_buzz_t i) g4 S4 B4) as B6.
  set (g6 := exec (countdownTask (in_cd_t1 i) (in_cd_t2 i) (in_buzz_t i))
               (exec (phoneTask (in_now i) (in_ir i) (in_start_t1 i)
                        (in_start_t2 i)) g4)) in *.
  assert (B7 : BuzzerInv (exec (modify (runEncoder (in_isr_late i))) g6))
    by (apply Henc, B6).
  set (g7 := exec (modify (runEncoder (in_isr_late i))) g6) in *.
  assert (B8 : BuzzerInv (exec setTimerTask g7)).
  { unfold exec, setTimerTask, BuzzerInv in *. cmd_unfold. if_cases; exact B7. }
  set (g8 := exec setTimerTask g7) in *.
  unfold exec, displayTask, updateDisplay, BuzzerInv in *. cmd_unfold.
  if_cases; exact B8.
Qed.

(** At the end of every loop iteration, and so whenever the display is
    drawn or a button is read, the buzzer is on only if the last phone
    sample found no phone. *)
Theorem buzzer_only_without_phone (g : Globals) :
  reachable g -> buzzerOn g = true -> phonePresent g = false.
Proof.
  intros Hr. change (BuzzerInv g).
  induction Hr as [found | i g Hr IH | a b g Hr IH].
  - destruct found; intros H; discriminate H.
  - apply loop_BuzzerInv; [apply reachable_inv, Hr | exact IH].
  - pose proof (updateEncoder_frame a b g) as F.
    unfold same_but_encoder in F. rewrite F. exact IH.
Qed.

Lemma buzzer_only_without_phone_witness :
  phonePresent
    (runLoop [tick 3200 HIGH HIGH; tick 3300 HIGH HIGH] Session.counting)
  = false.
Proof.
  apply buzzer_only_without_phone.
  - apply runLoop_reachable. exact counting_reachable.
  - vm_compute. reflexivity.
Defined.

(** The frame of everything in the loop after the button, for a state
    that is neither [WAIT_PHONE] nor [COUNTDOWN]. *)
Lemma loop_tail_buzzer i g :
  state g = IDLE \/ state g = SET_TIMER ->
  buzzerOn
    (exec (presenceTask (in_now i) (in_echo_us i) (in_echo_cm i) ;;
           phoneTask (in_now i) (in_ir i) (in_start_t1 i) (in_start_t2 i) ;;
           countdownTask (in_cd_t1 i) (in_cd_t2 i) (in_buzz_t i) ;;
           modify (runEncoder (in_isr_late i)) ;;
           setTimerTask ;;
           displayTask (in_now i)) g) = buzzerOn g.
Proof.
  intros Hs. rewrite !exec_seq.
  set (g4 := exec (presenceTask (in_now i) (in_echo_us i) (in_echo_cm i)) g).
  assert (H4 : state g4 = state g /\ buzzerOn g4 = buzzerOn g).
  { unfold g4, exec, presenceTask, handleStudentPresence. cmd_unfold.
    if_cases; split; reflexivity. }
  destruct H4 as [S4 B4].
  set (g5 := exec (phoneTask (in_now i) (in_ir i) (in_start_t1 i)
                     (in_start_t2 i)) g4).
  assert (H5 : g5 = g4).
  { unfold g5, exec, phoneTask, when, ifc. rewrite S4.
    destruct Hs as [-> | ->]; reflexivity. }
  set (g6 := exec (countdownTask (in_cd_t1 i) (in_cd_t2 i) (in_buzz_t i)) g5).
  assert (H6 : g6 = g4).
  { unfold g6, exec, countdownTask, when, ifc. rewrite H5, S4.
    destruct Hs as [-> | ->]; reflexivity. }
  rewrite H6.
  set (g7 := exec (modify (runEncoder (in_isr_late i))) g4).
  assert (B7 : buzzerOn g7 = buzzerOn g4).
  { unfold g7, exec, modify. simpl fst.
    pose proof (runEncoder_frame (in_isr_late i) g4) as F.
    unfold same_but_encoder in F. rewrite F. reflexivity. }
  set (g8 := exec setTimerTask g7).
  assert (B8 : buzzerOn g8 = buzzerOn g7).
  { unfold g8, exec, setTimerTask. cmd_unfold. if_cases; reflexivity. }
  rewrite <- B4, <- B7, <- B8.
  unfold exec, displayTask, updateDisplay. cmd_unfold. if_cases; reflexivity.
Qed.

(** When the deadline passes while the phone is away and a buzzer toggle
    is due, the countdown block silences the buzzer and then toggles it on
    again on its way out: the session is back in [IDLE] with the buzzer
    on.  No later loop iteration that starts in [IDLE] changes the
    buzzer. *)
Theorem buzzer_left_on_after_timer_done :
  (forall g t1 t2 tb,
     state g = COUNTDOWN -> countdownRunning g = true ->
     phonePresent g = false ->
     countdownEndMillis g <= t1 ->
     BUZZER_TOGGLE_MS < ulong_sub tb (lastBuzzerToggle g) ->
     let g' := exec (countdownTask t1 t2 tb) g in
     state g' = IDLE /\ countdownRunning g' = false /\ buzzerOn g' = true /\
     effects (countdownTask t1 t2 tb) g
     = [ DigitalWrite relayPin LOW; DrawMessage "Timer Done"; Delay 900;
         DigitalWrite buzzerPin LOW; DigitalWrite buzzerPin HIGH ]) /\
  (forall g i, state g = IDLE -> buzzerOn (exec (loop i) g) = buzzerOn g).
Proof.
  split.
  - intros g t1 t2 tb Hs Hr Hp Hend Hdue g'. subst g'.
    apply Z.leb_le in Hend. apply Z.ltb_lt in Hdue.
    unfold exec, effects, countdownTask, rapidBuzzer. cmd_unfold.
    rewrite Hs, Hr. simpl. rewrite Hend. simpl. rewrite Hp. simpl.
    rewrite Hdue. simpl. repeat split; reflexivity.
  - intros g i Hs. unfold loop.
    rewrite exec_seq, exec_seq, exec_seq.
    set (g1 := exec (handleSerialInput (in_serial i)) g).
    assert (H1 : state g1 = IDLE /\ buzzerOn g1 = buzzerOn g).
    { pose proof (handleSerialInput_frame (in_serial i) g) as F.
      fold g1 in F. unfold same_but_serialLine in F. rewrite F.
      split; [exact Hs | reflexivity]. }
    destruct H1 as [S1 B1].
    set (g2 := exec (modify (runEncoder (in_isr_early i))) g1).
    assert (H2 : state g2 = IDLE /\ buzzerOn g2 = buzzerOn g).
    { unfold g2, exec, modify. simpl fst.
      pose proof (runEncoder_frame (in_isr_early i) g1) as F.
      unfold same_but_encoder in F. rewrite F.
      split; [exact S1 | exact B1]. }
    destruct H2 as [S2 B2].
    set (g3 := exec (readEncoderButton (in_btn i) (in_btn_t i)) g2).
    assert (H3 : (state g3 = IDLE \/ state g3 = SET_TIMER) /\
                 buzzerOn g3 = buzzerOn g).
    { destruct (readEncoderButton_outcome (in_btn i) (in_btn_t i) g2)
        as [F | [g' [F1 F2]]]; fold g3 in F || fold g3 in F2.
      - unfold same_but_button in F. rewrite F. simpl.
        split; [left; exact S2 | exact B2].
      - unfold same_but_button in F1, F2. rewrite F2. simpl.
        assert (S' : state g' = IDLE) by (rewrite F1; exact S2).
        assert (B' : buzzerOn g' = buzzerOn g) by (rewrite F1; exact B2).
        unfold exec, onEncoderShortPress. rewrite S'. cmd_unfold. simpl.
        split; [right; reflexivity | exact B']. }
    destruct H3 as [S3 B3].
    rewrite (loop_tail_buzzer i g3 S3). exact B3.
Qed.

(** The phone is taken away during the countdown and the deadline
    passes. *)
Lemma buzzer_left_on_after_timer_done_witness :
  let g := runLoop [tick 3200 HIGH HIGH] Session.counting in
  buzzerOn (exec (countdownTask 1503000 1503000 1503000) g) = true /\
  buzzerOn
    (exec (loop (tick 1504000 HIGH HIGH))
       (exec (loop (tick 1503000 HIGH HIGH)) g)) = true.
Proof.
  intros g. destruct buzzer_left_on_after_timer_done as [H1 H2]. split.
  - destruct (H1 g 1503000 1503000 1503000) as (_ & _ & H & _).
    + vm_compute. reflexivity.
    + vm_compute. reflexivity.
    + vm_compute. reflexivity.
    + vm_compute. discriminate.
    + vm_compute. reflexivity.
    + exact H.
  - rewrite H2.
    + vm_compute. reflexivity.
    + vm_compute. reflexivity.
Defined.

(** ** Long press *)

(** A long press changes nothing but the classifier's variables: state,
    timer, countdown, LED, buzzer and encoder count stay as they are.  It
    sets the RTC to the compile time only if one was found, and shows its
    message for 900 ms either way. *)
Theorem long_press_leaves_session (g : Globals) (reading : bool) (t : Z) :
  snd (debounceButton reading t g) = Some LongPress ->
  same_but_button g (exec (readEncoderButton reading t) g) /\
  effects (readEncoderButton reading t) g
  = if rtcOk g
    then [ RtcAdjustCompileTime;
           SerialPrintln "RTC set to compile time (long press).";
           DrawMessage "RTC Saved"; Delay 900 ]
    else [ SerialPrintln "RTC missing; cannot set time.";
           DrawMessage "RTC Missing"; Delay 900 ].
Proof.
  intros Hev. split.
  - rewrite readEncoderButton_exec, Hev. simpl dispatchButton.
    rewrite onEncoderLongPress_globals.
    pose proof (debounceButton_frame reading t g) as F.
    unfold same_but_button in *. rewrite F. destruct g; reflexivity.
  - unfold effects, readEncoderButton.
    pose proof (debounceButton_frame reading t g) as F.
    destruct (debounceButton reading t g) as [g1 ev]. simpl in Hev, F.
    subst ev. unfold same_but_button in F.
    assert (Hrtc : rtcOk g1 = rtcOk g) by (rewrite F; reflexivity).
    simpl dispatchButton. unfold onEncoderLongPress. cmd_unfold.
    rewrite Hrtc. destruct (rtcOk g); reflexivity.
Qed.

(** A press accepted at 1100 ms and released 2500 ms later, during a
    countdown. *)
Lemma long_press_leaves_session_witness :
  let g := Button.after (Button.held LOW [1000; 1100; 2000; 3000]
                         ++ [(3500, HIGH)]) Session.counting in
  state (exec (readEncoderButton HIGH 3600) g) = COUNTDOWN /\
  countdownRunning (exec (readEncoderButton HIGH 3600) g) = true.
Proof.
  intros g.
  destruct (long_press_leaves_session g HIGH 3600) as [F _].
  - vm_compute. reflexivity.
  - unfold same_but_button in F. rewrite F. vm_compute.
    split; reflexivity.
Defined.

(** ** The ultrasonic sensor *)

(** A due presence sample without an echo ([pulseIn] times out and
    returns 0) reads as distance -1 and counts as absent: outside a
    countdown the LED is off afterwards, and if it was on the relay is
    switched off right after the measurement.  The same holds for a
    distance of 0 cm or of more than 100 cm. *)
Theorem no_echo_is_absent (g : Globals) (now duration cm : Z) :
  ultrasonicInterval <= ulong_sub now (lastUltrasonicCheck g) ->
  state g <> COUNTDOWN ->
  duration = 0 \/ cm <= 0 \/ presenceThreshold < cm ->
  let g' := exec (presenceTask now duration cm) g in
  (duration = 0 -> studentDistance g' = -1) /\
  ledState g' = false /\
  effects (presenceTask now duration cm) g
  = readUltrasonic_effects
    ++ (if ledState g then [DigitalWrite relayPin LOW] else []).
Proof.
  intros Hdue Hs Habsent g'. subst g'. apply Z.leb_le in Hdue.
  assert (Hp : (0 <? readUltrasonic_value duration cm)
               && (readUltrasonic_value duration cm <=? presenceThreshold)
               = false).
  { unfold readUltrasonic_value.
    destruct (duration =? 0) eqn:Ed; [reflexivity|].
    apply Z.eqb_neq in Ed.
    destruct Habsent as [H | [H | H]]; [contradiction | |].
    - apply andb_false_iff. left. apply Z.ltb_ge. exact H.
    - apply andb_false_iff. right. apply Z.leb_gt. exact H. }
  assert (Hn : negb (State_eqb (state g) COUNTDOWN) = true).
  { destruct (state g); try reflexivity. exfalso. apply Hs. reflexivity. }
  unfold exec, effects, presenceTask, handleStudentPresence. cmd_unfold.
  rewrite Hdue. simpl. rewrite Hp. simpl. rewrite Hn. simpl.
  split.
  - intros ->. destruct (ledState g); reflexivity.
  - destruct (ledState g) eqn:El; simpl; split; try reflexivity; exact El.
Qed.

Lemma no_echo_is_absent_witness :
  ledState (exec (presenceTask 5000 0 0) (set_ledState true Session.cancelled))
  = false.
Proof.
  destruct (no_echo_is_absent (set_ledState true Session.cancelled) 5000 0 0)
    as (_ & H & _).
  - vm_compute. discriminate.
  - vm_compute. discriminate.
  - left. reflexivity.
  - exact H.
Defined.

(** ** Periodic tasks across the clock wrap *)

Lemma ulong_sub_elapsed T d :
  0 <= d < ULONG_MOD ->
  ulong_sub (wrap_ulong (T + d)) (wrap_ulong T) = d.
Proof.
  intros H. rewrite ulong_sub_wrap; [lia|].
  replace (T + d - T) with d by lia. exact H.
Qed.

(** The presence sample, the phone sample and the display refresh are
    gated by the time elapsed since their last run, taken modulo [2^32]:
    [d] ms after a run at time [T] each is skipped if [d] is below its
    interval and runs, stamping the new time, if not, also when the
    millisecond clock has wrapped in between. *)
Theorem periodic_tasks_survive_clock_wrap (g : Globals) (T d : Z) :
  0 <= d < ULONG_MOD ->
  let now := wrap_ulong (T + d) in
  (forall duration cm,
     lastUltrasonicCheck g = wrap_ulong T ->
     (d < ultrasonicInterval -> presenceTask now duration cm g = (g, [])) /\
     (ultrasonicInterval <= d ->
      lastUltrasonicCheck (exec (presenceTask now duration cm) g) = now)) /\
  (forall ir t1 t2,
     lastPhoneCheck g = wrap_ulong T ->
     (d < phoneCheckInterval -> phoneTask now ir t1 t2 g = (g, [])) /\
     (phoneCheckInterval <= d ->
      state g = WAIT_PHONE \/ state g = COUNTDOWN ->
      lastPhoneCheck (exec (phoneTask now ir t1 t2) g) = now /\
      phonePresent (exec (phoneTask now ir t1 t2) g)
      = Bool.eqb ir PHONE_DETECTED_STATE)) /\
  (lastDisplayUpdate g = wrap_ulong T ->
   (d < displayInterval -> displayTask now g = (g, [])) /\
   (displayInterval <= d ->
    displayTask now g
    = (set_lastDisplayUpdate now g,
       [DrawStatus (statusPage (set_lastDisplayUpdate now g))]))).
Proof.
  intros Hd now. pose proof (ulong_sub_elapsed T d Hd) as He. fold now in He.
  split; [|split].
  - intros duration cm Hlast. split.
    + intros Hlt. unfold presenceTask, when, ifc. rewrite Hlast, He.
      apply Z.leb_gt in Hlt. rewrite Hlt. reflexivity.
    + intros Hge. apply Z.leb_le in Hge.
      unfold exec, presenceTask, handleStudentPresence. cmd_unfold.
      rewrite Hlast, He, Hge. simpl. if_cases; reflexivity.
  - intros ir t1 t2 Hlast. split.
    + intros Hlt. unfold phoneTask, when, ifc. rewrite Hlast, He.
      apply Z.leb_gt in Hlt. rewrite Hlt. destruct (_ || _); reflexivity.
    + intros Hge Hs. apply Z.leb_le in Hge.
      unfold exec, phoneTask, startCountdown. cmd_unfold.
      rewrite Hlast, He, Hge.
      destruct Hs as [-> | ->]; simpl; if_cases; split; reflexivity.
  - intros Hlast. split.
    + intros Hlt. unfold displayTask, when, ifc. rewrite Hlast, He.
      apply Z.leb_gt in Hlt. rewrite Hlt. reflexivity.
    + intros Hge. apply Z.leb_le in Hge.
      unfold displayTask, updateDisplay. cmd_unfold.
      rewrite Hlast, He, Hge. reflexivity.
Qed.

(** The display was refreshed 100 ms before the clock wrapped; 150 ms
    later it is not refreshed, 250 ms later it is. *)
Lemma periodic_tasks_survive_clock_wrap_witness :
  displayTask 50 (set_lastDisplayUpdate 4294967196 initial)
  = (set_lastDisplayUpdate 4294967196 initial, []) /\
  lastDisplayUpdate
    (exec (displayTask 150) (set_lastDisplayUpdate 4294967196 initial)) = 150.
Proof.
  split.
  - destruct (periodic_tasks_survive_clock_wrap
                (set_lastDisplayUpdate 4294967196 initial) 4294967196 150)
      as (_ & _ & H).
    + unfold ULONG_MOD. simpl. lia.
    + destruct H as [H _]; [reflexivity|].
      apply H. unfold displayInterval. lia.
  - destruct (periodic_tasks_survive_clock_wrap
                (set_lastDisplayUpdate 4294967196 initial) 4294967196 250)
      as (_ & _ & H).
    + unfold ULONG_MOD. simpl. lia.
    + destruct H as [_ H]; [reflexivity|].
      change 150 with (wrap_ulong (4294967196 + 250)).
      unfold exec. rewrite H; [reflexivity|]. unfold displayInterval. lia.
Defined.

(** ** Entering the countdown *)

(** The last three blocks of the loop: what they leave alone. *)
Lemma loop_end_frame i g :
  let g' := exec (modify (runEncoder (in_isr_late i)) ;;
                  setTimerTask ;;
                  displayTask (in_now i)) g in
  state g' = state g /\ phonePresent g' = phonePresent g /\
  countdownRunning g' = countdownRunning g /\ ledState g' = ledState g /\
  countdownEndMillis g' = countdownEndMillis g /\
  buzzerOn g' = buzzerOn g /\
  (state g <> SET_TIMER -> timerMinutes g' = timerMinutes g).
Proof.
  intros g'. subst g'. rewrite !exec_seq.
  set (g7 := exec (modify (runEncoder (in_isr_late i))) g).
  assert (F : same_but_encoder g g7).
  { unfold g7, exec, modify. simpl fst. apply runEncoder_frame. }
  unfold same_but_encoder in F.
  assert (H7 : state g7 = state g /\ phonePresent g7 = phonePresent g /\
               countdownRunning g7 = countdownRunning g /\
               ledState g7 = ledState g /\
               countdownEndMillis g7 = countdownEndMillis g /\
               buzzerOn g7 = buzzerOn g /\ timerMinutes g7 = timerMinutes g).
  { rewrite F. simpl. repeat split. }
  destruct H7 as (A1 & A2 & A3 & A4 & A5 & A6 & A7).
  rewrite <- A1, <- A2, <- A3, <- A4, <- A5, <- A6, <- A7.
  unfold exec, setTimerTask, displayTask, updateDisplay. cmd_unfold.
  destruct (state g7) eqn:Es; simpl; if_cases;
    repeat split; try reflexivity; try exact Es;
    try (intros H; try reflexivity; exfalso; apply H; reflexivity);
    try (exfalso; match goal with H : _ <> _ |- _ => apply H end; reflexivity).
Qed.

(** Phone poll and countdown block together, from a state without a
    countdown. *)
Lemma phone_countdown_start now ir t1 t2 c1 c2 tb g :
  state g <> COUNTDOWN ->
  let g' := exec (countdownTask c1 c2 tb) (exec (phoneTask now ir t1 t2) g) in
  state g' = COUNTDOWN ->
  ir = PHONE_DETECTED_STATE /\ state g = WAIT_PHONE /\
  phonePresent g' = true /\ countdownRunning g' = true /\
  ledState g' = true /\ buzzerOn g' = false /\
  timerMinutes g' = timerMinutes g /\
  countdownEndMillis g'
  = ulong_add t1 (ulong_mul (ulong_mul (timerMinutes g) 60) 1000).
Proof.
  intros Hs g'. subst g'.
  unfold exec, countdownTask, phoneTask, startCountdown, rapidBuzzer.
  cmd_unfold.
  destruct (state g) eqn:Es; try (exfalso; apply Hs; reflexivity);
    destruct (countdownRunning g) eqn:Er; destruct ir;
    repeat (repeat (progress (simpl; rewrite ?Es, ?Er));
            match goal with
            | |- context [if ?c then _ else _] =>
                lazymatch c with
                | context [if _ then _ else _] => fail
                | _ => destruct c eqn:?
                end
            end);
    repeat (progress (simpl; rewrite ?Es, ?Er));
    intros H; try discriminate H; repeat split; reflexivity.
Qed.

(** A loop iteration that enters [COUNTDOWN] has read the phone detector
    at its detecting level in that same iteration.  It leaves the
    countdown running with the LED on, the buzzer off, and the deadline
    set to the clock value read in [startCountdown] plus the timer in
    milliseconds, in 32-bit arithmetic. *)
Theorem countdown_starts_only_with_phone (g : Globals) (i : LoopInput) :
  state g <> COUNTDOWN ->
  let g' := exec (loop i) g in
  state g' = COUNTDOWN ->
  in_ir i = PHONE_DETECTED_STATE /\
  phonePresent g' = true /\ countdownRunning g' = true /\
  ledState g' = true /\ buzzerOn g' = false /\
  countdownEndMillis g'
  = ulong_add (in_start_t1 i)
      (ulong_mul (ulong_mul (timerMinutes g') 60) 1000).
Proof.
  intros Hs g'. subst g'. unfold loop.
  rewrite (exec_seq (handleSerialInput _)), (exec_seq (modify _)),
    (exec_seq (readEncoderButton _ _)), (exec_seq (presenceTask _ _ _)).
  set (g1 := exec (handleSerialInput (in_serial i)) g).
  assert (S1 : state g1 <> COUNTDOWN).
  { pose proof (handleSerialInput_frame (in_serial i) g) as F. fold g1 in F.
    unfold same_but_serialLine in F. rewrite F. exact Hs. }
  set (g2 := exec (modify (runEncoder (in_isr_early i))) g1).
  assert (S2 : state g2 <> COUNTDOWN).
  { unfold g2, exec, modify. simpl fst.
    pose proof (runEncoder_frame (in_isr_early i) g1) as F.
    unfold same_but_encoder in F. rewrite F. exact S1. }
  set (g3 := exec (readEncoderButton (in_btn i) (in_btn_t i)) g2).
  assert (S3 : state g3 <> COUNTDOWN).
  { destruct (readEncoderButton_outcome (in_btn i) (in_btn_t i) g2)
      as [F | [g0 [F1 F2]]]; fold g3 in F || fold g3 in F2.
    - unfold same_but_button in F. rewrite F. exact S2.
    - unfold same_but_button in F2. rewrite F2.
      apply onEncoderShortPress_not_COUNTDOWN. }
  set (g4 := exec (presenceTask (in_now i) (in_echo_us i) (in_echo_cm i)) g3).
  assert (S4 : state g4 = state g3 /\ timerMinutes g4 = timerMinutes g3).
  { unfold g4, exec, presenceTask, handleStudentPresence. cmd_unfold.
    if_cases; split; reflexivity. }
  destruct S4 as [S4 T4].
  rewrite (exec_seq (phoneTask _ _ _ _)), (exec_seq (countdownTask _ _ _)).
  set (g6 := exec (countdownTask (in_cd_t1 i) (in_cd_t2 i) (in_buzz_t i))
               (exec (phoneTask (in_now i) (in_ir i) (in_start_t1 i)
                        (in_start_t2 i)) g4)).
  destruct (loop_end_frame i g6) as (E1 & E2 & E3 & E4 & E5 & E6 & E7).
  rewrite E1, E2, E3, E4, E5, E6. intros Hc.
  assert (S4' : state g4 <> COUNTDOWN) by (rewrite S4; exact S3).
  destruct (phone_countdown_start (in_now i) (in_ir i) (in_start_t1 i)
              (in_start_t2 i) (in_cd_t1 i) (in_cd_t2 i) (in_buzz_t i) g4
              S4' Hc) as (P1 & P2 & P3 & P4 & P5 & P6 & P7 & P8).
  fold g6 in P3, P4, P5, P6, P7, P8.
  rewrite E7 by (rewrite Hc; discriminate).
  rewrite P7. repeat split; assumption.
Qed.

Lemma countdown_starts_only_with_phone_witness :
  in_ir (tick 3000 HIGH LOW) = PHONE_DETECTED_STATE /\
  countdownEndMillis (exec (loop (tick 3000 HIGH LOW)) Session.waiting)
  = 1503000.
Proof.
  destruct (countdown_starts_only_with_phone Session.waiting
              (tick 3000 HIGH LOW)) as (H1 & _ & _ & _ & _ & H2).
  - vm_compute. discriminate.
  - vm_compute. reflexivity.
  - split; [exact H1|]. rewrite H2. vm_compute. reflexivity.
Defined.

(** ** Without an RTC *)

Lemma rtc_untouched_app a b :
  rtc_untouched (a ++ b) = rtc_untouched a && rtc_untouched b.
Proof. unfold rtc_untouched. apply forallb_app. Qed.

Lemma seq_rtc_untouched (c1 c2 : Cmd) :
  (forall g, noRtc g -> rtc_untouched (effects c1 g) = true) ->
  preserves noRtc c1 ->
  (forall g, noRtc g -> rtc_untouched (effects c2 g) = true) ->
  forall g, noRtc g -> rtc_untouched (effects (c1 ;; c2) g) = true.
Proof.
  intros H1 P1 H2 g Hg. rewrite effects_seq, rtc_untouched_app.
  rewrite (H1 g Hg), (H2 _ (P1 g Hg)). reflexivity.
Qed.

Lemma processSerialCommand_no_rtc line g :
  noRtc g -> rtc_untouched (effects (processSerialCommand line) g) = true.
Proof.
  unfold noRtc. intros Hg. unfold effects, processSerialCommand.
  destruct (commandTokens line) as [|tok0 args]; [reflexivity|].
  cbv zeta.
  destruct (String.eqb _ "SETNOW").
  { cmd_unfold. rewrite Hg. reflexivity. }
  destruct (String.eqb _ "SET").
  { unfold commandSET.
    destruct args as [|a1 [|a2 [|a3 [|a4 [|a5 [|a6 rest]]]]]];
      try reflexivity.
    destruct (negb (setArgsOk _ _ _ _ _ _)); [reflexivity|].
    cmd_unfold. rewrite Hg. reflexivity. }
  destruct (String.eqb _ "READ").
  { cmd_unfold. rewrite Hg. reflexivity. }
  reflexivity.
Qed.

Lemma serialByte_no_rtc c g :
  noRtc g -> rtc_untouched (effects (serialByte c) g) = true.
Proof.
  unfold noRtc. intros Hg. unfold effects, serialByte.
  destruct (CString.code c =? 13); [reflexivity|].
  destruct (CString.code c =? 10).
  - cmd_unfold. simpl.
    destruct (0 <? _); [|reflexivity].
    match goal with
    | |- context [processSerialCommand ?l ?g1] =>
        pose proof (processSerialCommand_no_rtc l g1 Hg) as H;
        unfold effects in H;
        destruct (processSerialCommand l g1) as [g2 o2]
    end.
    simpl in *. rewrite app_nil_r. exact H.
  - cmd_unfold. simpl. destruct (200 <? _); reflexivity.
Qed.

Lemma handleSerialInput_no_rtc bytes : forall g,
  noRtc g -> rtc_untouched (effects (handleSerialInput bytes) g) = true.
Proof.
  induction bytes as [|c rest IH]; intros g Hg.
  - reflexivity.
  - simpl handleSerialInput.
    apply seq_rtc_untouched; try assumption.
    + intros g0. apply serialByte_no_rtc.
    + intros g0 H0. pose proof (serialByte_frame c g0) as F.
      unfold same_but_serialLine in F. unfold noRtc. rewrite F. exact H0.
Qed.

Lemma readEncoderButton_no_rtc reading t g :
  noRtc g -> rtc_untouched (effects (readEncoderButton reading t) g) = true.
Proof.
  unfold noRtc. intros Hg. unfold effects, readEncoderButton.
  pose proof (debounceButton_frame reading t g) as F.
  destruct (debounceButton reading t g) as [g1 ev]. simpl in F.
  unfold same_but_button in F.
  assert (Hg1 : rtcOk g1 = false) by (rewrite F; exact Hg).
  destruct ev as [[]|]; simpl dispatchButton.
  - unfold onEncoderShortPress. cmd_unfold.
    destruct (state g1); reflexivity.
  - unfold onEncoderLongPress. cmd_unfold. rewrite Hg1. reflexivity.
  - reflexivity.
Qed.

Lemma loop_noRtc i : preserves noRtc (loop i).
Proof.
  destruct (serial_and_encoder_preserve noRtc) as [Hser Henc];
    try (intros g v Hg; exact Hg).
  unfold loop. repeat apply preserves_seq.
  - apply Hser.
  - apply Henc.
  - apply readEncoderButton_preserves; try (intros g v Hg; exact Hg).
    intros g Hg. unfold noRtc, exec, onEncoderShortPress in *.
    destruct (state g); cmd_unfold; exact Hg.
  - intros g Hg. unfold noRtc, exec, presenceTask, handleStudentPresence in *.
    cmd_unfold. if_cases; exact Hg.
  - intros g Hg. unfold noRtc, exec, phoneTask, startCountdown in *.
    cmd_unfold. if_cases; exact Hg.
  - intros g Hg. unfold noRtc, exec, countdownTask, rapidBuzzer in *.
    cmd_unfold. if_cases; exact Hg.
  - apply Henc.
  - intros g Hg. unfold noRtc, exec, setTimerTask in *. cmd_unfold.
    if_cases; exact Hg.
  - intros g Hg. unfold noRtc, exec, displayTask, updateDisplay in *.
    cmd_unfold. if_cases; exact Hg.
Qed.

Lemma loop_no_rtc i g :
  noRtc g -> rtc_untouched (effects (loop i) g) = true.
Proof.
  destruct (serial_and_encoder_preserve noRtc) as [Hser Henc];
    try (intros g0 v Hg; exact Hg).
  revert g. unfold loop.
  apply seq_rtc_untouched;
    [intros g; apply handleSerialInput_no_rtc | apply Hser |].
  apply seq_rtc_untouched; [reflexivity | apply Henc |].
  apply seq_rtc_untouched; [intros g; apply readEncoderButton_no_rtc | |].
  { apply readEncoderButton_preserves; try (intros g v Hg; exact Hg).
    intros g Hg. unfold noRtc, exec, onEncoderShortPress in *.
    destruct (state g); cmd_unfold; exact Hg. }
  apply seq_rtc_untouched.
  { intros g _. unfold effects, presenceTask, handleStudentPresence.
    cmd_unfold. if_cases; reflexivity. }
  { intros g Hg. unfold noRtc, exec, presenceTask, handleStudentPresence in *.
    cmd_unfold. if_cases; exact Hg. }
  apply seq_rtc_untouched.
  { intros g _. unfold effects, phoneTask, startCountdown.
    cmd_unfold. if_cases; reflexivity. }
  { intros g Hg. unfold noRtc, exec, phoneTask, startCountdown in *.
    cmd_unfold. if_cases; exact Hg. }
  apply seq_rtc_untouched.
  { intros g _. unfold effects, countdownTask, rapidBuzzer.
    cmd_unfold. if_cases; reflexivity. }
  { intros g Hg. unfold noRtc, exec, countdownTask, rapidBuzzer in *.
    cmd_unfold. if_cases; exact Hg. }
  apply seq_rtc_untouched; [reflexivity | apply Henc |].
  apply seq_rtc_untouched.
  { intros g _. unfold effects, setTimerTask. cmd_unfold.
    if_cases; reflexivity. }
  { intros g Hg. unfold noRtc, exec, setTimerTask in *. cmd_unfold.
    if_cases; exact Hg. }
  intros g Hg. unfold noRtc in Hg.
  unfold effects, displayTask, updateDisplay. cmd_unfold.
  if_cases; [|reflexivity].
  unfold rtc_untouched. simpl. rewrite Hg. reflexivity.
Qed.

(** With an RTC, drawing the status page reads it. *)
Lemma updateDisplay_reads_rtc g :
  rtcOk g = true -> rtc_untouched (effects updateDisplay g) = false.
Proof.
  intros H. unfold effects, updateDisplay, emit, rtc_untouched. simpl.
  rewrite H. reflexivity.
Qed.

(** If no RTC was found at power-up, [rtcOk] stays false for ever and no
    loop iteration, whatever serial commands and button presses it
    handles and whenever it refreshes the display, adjusts or reads the
    RTC. *)
Theorem rtc_never_touched_without_rtc (inputs : list LoopInput)
  (i : LoopInput) :
  let g := runLoop inputs (exec (setup false) initial) in
  rtcOk g = false /\ rtc_untouched (effects (loop i) g) = true.
Proof.
  intros g.
  assert (Hg : noRtc g).
  { assert (Hgen : forall g0, noRtc g0 -> noRtc (runLoop inputs g0)).
    { induction inputs as [|j rest IH]; intros g0 H0.
      - exact H0.
      - simpl. apply IH. apply loop_noRtc, H0. }
    apply Hgen. reflexivity. }
  split; [exact Hg | apply loop_no_rtc, Hg].
Qed.

(** ** The display *)

Lemma loop_before_display i g :
  lastDisplayUpdate
    (exec setTimerTask
       (exec (modify (runEncoder (in_isr_late i)))
          (exec (countdownTask (in_cd_t1 i) (in_cd_t2 i) (in_buzz_t i))
             (exec (phoneTask (in_now i) (in_ir i) (in_start_t1 i)
                      (in_start_t2 i))
                (exec (presenceTask (in_now i) (in_echo_us i) (in_echo_cm i))
                   (exec (readEncoderButton (in_btn i) (in_btn_t i))
                      (exec (modify (runEncoder (in_isr_early i)))
                         (exec (handleSerialInput (in_serial i)) g))))))))
  = lastDisplayUpdate g.
Proof.
  pose (P := fun x : Globals => lastDisplayUpdate x = lastDisplayUpdate g).
  destruct (serial_and_encoder_preserve P) as [Hser Henc];
    try (intros g0 v Hg; exact Hg).
  change (P (exec setTimerTask
       (exec (modify (runEncoder (in_isr_late i)))
          (exec (countdownTask (in_cd_t1 i) (in_cd_t2 i) (in_buzz_t i))
             (exec (phoneTask (in_now i) (in_ir i) (in_start_t1 i)
                      (in_start_t2 i))
                (exec (presenceTask (in_now i) (in_echo_us i) (in_echo_cm i))
                   (exec (readEncoderButton (in_btn i) (in_btn_t i))
                      (exec (modify (runEncoder (in_isr_early i)))
                         (exec (handleSerialInput (in_serial i)) g))))))))).
  assert (P8 : preserves P setTimerTask).
  { intros g0 H0. unfold P, exec, setTimerTask in *. cmd_unfold.
    if_cases; exact H0. }
  assert (P6 : preserves P (countdownTask (in_cd_t1 i) (in_cd_t2 i)
                              (in_buzz_t i))).
  { intros g0 H0. unfold P, exec, countdownTask, rapidBuzzer in *. cmd_unfold.
    if_cases; exact H0. }
  assert (P5 : preserves P (phoneTask (in_now i) (in_ir i) (in_start_t1 i)
                              (in_start_t2 i))).
  { intros g0 H0. unfold P, exec, phoneTask, startCountdown in *. cmd_unfold.
    if_cases; exact H0. }
  assert (P4 : preserves P (presenceTask (in_now i) (in_echo_us i)
                              (in_echo_cm i))).
  { intros g0 H0. unfold P, exec, presenceTask, handleStudentPresence in *.
    cmd_unfold. if_cases; exact H0. }
  assert (P3 : preserves P (readEncoderButton (in_btn i) (in_btn_t i))).
  { apply readEncoderButton_preserves; try (intros g0 v Hg; exact Hg).
    intros g0 H0. unfold P, exec, onEncoderShortPress in *.
    destruct (state g0); cmd_unfold; exact H0. }
  apply P8, Henc, P6, P5, P4, P3, Henc, Hser. reflexivity.
Qed.

(** Whenever the display refresh is due, the status page is the last
    thing a loop iteration does, and it shows the globals as the
    iteration leaves them: the state, timer, remaining seconds, phone and
    LED status computed in that same iteration. *)
Theorem display_shows_the_final_state (g : Globals) (i : LoopInput) :
  displayInterval <= ulong_sub (in_now i) (lastDisplayUpdate g) ->
  exists out,
    effects (loop i) g = out ++ [DrawStatus (statusPage (exec (loop i) g))].
Proof.
  intros Hdue. apply Z.leb_le in Hdue.
  unfold loop. rewrite !effects_seq, !exec_seq.
  set (g8 := exec setTimerTask _).
  assert (H8 : lastDisplayUpdate g8 = lastDisplayUpdate g)
    by apply loop_before_display.
  assert (Hd : displayTask (in_now i) g8
               = (set_lastDisplayUpdate (in_now i) g8,
                  [DrawStatus (statusPage (set_lastDisplayUpdate (in_now i) g8))])).
  { unfold displayTask, updateDisplay. cmd_unfold. rewrite H8, Hdue.
    reflexivity. }
  assert (He : effects (displayTask (in_now i)) g8
               = [DrawStatus (statusPage (set_lastDisplayUpdate (in_now i) g8))])
    by (unfold effects; rewrite Hd; reflexivity).
  assert (Hx : exec (displayTask (in_now i)) g8
               = set_lastDisplayUpdate (in_now i) g8)
    by (unfold exec; rewrite Hd; reflexivity).
  rewrite He, Hx, !app_assoc. eexists. reflexivity.
Qed.

Lemma display_shows_the_final_state_witness :
  exists out,
    effects (loop (tick 3000 HIGH LOW)) Session.waiting
    = out ++ [DrawStatus
                (statusPage (exec (loop (tick 3000 HIGH LOW)) Session.waiting))].
Proof.
  apply display_shows_the_final_state. vm_compute. discriminate.
Defined.

(** ** The serial line buffer *)

Lemma list_ascii_of_append s1 s2 :
  list_ascii_of_string (s1 ++ s2)
  = list_ascii_of_string s1 ++ list_ascii_of_string s2.
Proof. induction s1 as [|c s IH]; simpl; [reflexivity | now rewrite IH]. Qed.

Lemma length_list_ascii s :
  List.length (list_ascii_of_string s) = String.length s.
Proof. induction s as [|c s IH]; simpl; [reflexivity | now rewrite IH]. Qed.

Lemma set_serialLine_twice v w g :
  set_serialLine v (set_serialLine w g) = set_serialLine v g.
Proof. reflexivity. Qed.

Lemma set_serialLine_same g : set_serialLine (serialLine g) g = g.
Proof. destruct g; reflexivity. Qed.

(** What one received byte does to the buffer: a carriage return nothing,
    a line feed empties it, any other byte is appended and the buffer cut
    down to its last 200 characters. *)
Lemma serialByte_lineChars c g :
  lineChars (exec (serialByte c) g)
  = if CString.code c =? 13 then lineChars g
    else if CString.code c =? 10 then []
    else let l := lineChars g ++ [c] in
         if 200 <? Z.of_nat (List.length l)
         then skipn (List.length l - 200) l else l.
Proof.
  unfold serialByte.
  destruct (CString.code c =? 13); [reflexivity|].
  destruct (CString.code c =? 10).
  - rewrite exec_seq. set (g1 := exec (modify _) g).
    unfold exec, when, ifc.
    destruct (0 <? Z.of_nat (String.length (serialLine g1))) eqn:E.
    + fold (exec ((fun g0 => processSerialCommand (serialLine g0) g0) ;;
                    modify (set_serialLine EmptyString)) g1).
      rewrite exec_seq. reflexivity.
    + apply Z.ltb_ge in E. unfold skip, lineChars. simpl fst.
      destruct (serialLine g1); [reflexivity|]. simpl in E. lia.
  - rewrite exec_seq. set (g1 := exec (modify _) g).
    assert (H1 : lineChars g1 = lineChars g ++ [c]).
    { unfold g1, exec, modify, lineChars. simpl.
      rewrite list_ascii_of_append. reflexivity. }
    unfold exec, when, ifc. cbv zeta.
    rewrite <- H1.
    assert (Hl : List.length (lineChars g1) = String.length (serialLine g1))
      by apply length_list_ascii.
    rewrite Hl.
    destruct (200 <? Z.of_nat (String.length (serialLine g1))).
    + unfold modify, lineChars in *. simpl.
      rewrite list_ascii_of_string_of_list_ascii, length_list_ascii.
      reflexivity.
    + reflexivity.
Qed.

Lemma serialByte_SerialInv c g : SerialInv g -> SerialInv (exec (serialByte c) g).
Proof.
  intros [Hlen Hbrk]. unfold SerialInv. rewrite serialByte_lineChars.
  destruct (CString.code c =? 13) eqn:E13; [split; assumption|].
  destruct (CString.code c =? 10) eqn:E10.
  { split; [simpl; lia | constructor]. }
  cbv zeta.
  assert (Hall : Forall (fun c0 => is_line_break c0 = false) (lineChars g ++ [c])).
  { apply Forall_app. split; [exact Hbrk|].
    constructor; [|constructor]. unfold is_line_break. rewrite E13, E10.
    reflexivity. }
  destruct (200 <? Z.of_nat (List.length (lineChars g ++ [c]))) eqn:E.
  - split.
    + rewrite length_skipn. rewrite length_app in *. simpl in *. lia.
    + rewrite Forall_forall in *. intros x Hx. apply Hall.
      rewrite <- (firstn_skipn (List.length (lineChars g ++ [c]) - 200)).
      apply in_or_app. right. exact Hx.
  - apply Z.ltb_ge in E. split; [lia | exact Hall].
Qed.

Lemma handleSerialInput_SerialInv bytes :
  preserves SerialInv (handleSerialInput bytes).
Proof.
  induction bytes as [|c rest IH]; intros g Hg.
  - exact Hg.
  - simpl. rewrite exec_seq. apply IH, serialByte_SerialInv, Hg.
Qed.

Lemma loop_SerialInv i : preserves SerialInv (loop i).
Proof.
  assert (Henc : forall samples, preserves SerialInv (modify (runEncoder samples))).
  { intros samples g Hg. unfold exec, modify. simpl fst.
    pose proof (runEncoder_frame samples g) as F.
    unfold same_but_encoder in F. rewrite F. exact Hg. }
  unfold loop. repeat apply preserves_seq.
  - apply handleSerialInput_SerialInv.
  - apply Henc.
  - apply readEncoderButton_preserves; try (intros g v Hg; exact Hg).
    intros g Hg. unfold exec, onEncoderShortPress.
    destruct (state g); cmd_unfold; exact Hg.
  - intros g Hg. unfold exec, presenceTask, handleStudentPresence.
    cmd_unfold. if_cases; exact Hg.
  - intros g Hg. unfold exec, phoneTask, startCountdown.
    cmd_unfold. if_cases; exact Hg.
  - intros g Hg. unfold exec, countdownTask, rapidBuzzer.
    cmd_unfold. if_cases; exact Hg.
  - apply Henc.
  - intros g Hg. unfold exec, setTimerTask. cmd_unfold. if_cases; exact Hg.
  - intros g Hg. unfold exec, displayTask, updateDisplay. cmd_unfold.
    if_cases; exact Hg.
Qed.

(** However many bytes arrive and whatever they are, the serial line
    buffer never holds more than 200 characters and never a carriage
    return or line feed; this holds in every reachable state. *)
Theorem serial_buffer_bounded :
  (forall bytes g, SerialInv g -> SerialInv (exec (handleSerialInput bytes) g)) /\
  (forall g, reachable g -> SerialInv g).
Proof.
  split.
  - intros bytes g. apply handleSerialInput_SerialInv.
  - intros g Hr. induction Hr as [found | i g Hr IH | a b g Hr IH].
    + destruct found; split; simpl; try lia; constructor.
    + apply loop_SerialInv, IH.
    + pose proof (updateEncoder_frame a b g) as F.
      unfold same_but_encoder in F. rewrite F. exact IH.
Qed.

(** 300 bytes without a line end leave 200 in the buffer. *)
Lemma serial_buffer_bounded_witness :
  (List.length
     (lineChars (exec (handleSerialInput (repeat "a"%char 300)) initial))
   <= 200)%nat.
Proof.
  destruct serial_buffer_bounded as [H _].
  apply (H (repeat "a"%char 300) initial).
  split; [simpl; lia | constructor].
Defined.

(** ** A serial line is handled once, when its line feed arrives *)

Lemma handleSerialInput_app a b g :
  handleSerialInput (a ++ b) g = (handleSerialInput a ;; handleSerialInput b) g.
Proof.
  revert g. induction a as [|c rest IH]; intros g.
  - simpl. unfold seq, skip. destruct (handleSerialInput b g). reflexivity.
  - simpl. unfold seq. destruct (serialByte c g) as [g1 o1].
    rewrite IH. unfold seq.
    destruct (handleSerialInput rest g1) as [g2 o2].
    destruct (handleSerialInput b g2) as [g3 o3].
    rewrite app_assoc. reflexivity.
Qed.

Lemma handleSerialInput_accumulates cs : forall g,
  Forall (fun c => is_line_break c = false) cs ->
  (List.length (lineChars g) + List.length cs <= 200)%nat ->
  handleSerialInput cs g
  = (set_serialLine (string_of_list_ascii (lineChars g ++ cs)) g, []).
Proof.
  induction cs as [|c rest IH]; intros g Hbrk Hlen.
  - simpl. unfold skip, lineChars.
    rewrite app_nil_r, string_of_list_ascii_of_string, set_serialLine_same.
    reflexivity.
  - inversion Hbrk as [|? ? Hc Hrest]; subst.
    unfold is_line_break in Hc. apply orb_false_iff in Hc.
    destruct Hc as [H13 H10].
    assert (H1 : serialByte c g
                 = (set_serialLine (string_of_list_ascii (lineChars g ++ [c])) g,
                    [])).
    { unfold serialByte. rewrite H13, H10. cmd_unfold. simpl.
      assert (Hl : String.length (serialLine g ++ String c "")
                   = (List.length (lineChars g) + 1)%nat).
      { rewrite <- length_list_ascii, list_ascii_of_append, length_app.
        reflexivity. }
      rewrite Hl.
      destruct (200 <? Z.of_nat (List.length (lineChars g) + 1)) eqn:E.
      - apply Z.ltb_lt in E. simpl in Hlen. lia.
      - f_equal. f_equal. unfold lineChars.
        rewrite <- (string_of_list_ascii_of_string (serialLine g ++ String c "")).
        rewrite list_ascii_of_append. reflexivity. }
    simpl handleSerialInput. unfold seq. rewrite H1.
    rewrite IH; [| exact Hrest |].
    + unfold lineChars. simpl serialLine.
      rewrite list_ascii_of_string_of_list_ascii, <- app_assoc. reflexivity.
    + unfold lineChars at 1. simpl serialLine.
      rewrite list_ascii_of_string_of_list_ascii, length_app. simpl in *. lia.
Qed.

(** A line of at most 200 characters followed by a line feed, received
    with an empty buffer: the trimmed line is handed to
    [processSerialCommand] exactly once, unless it is blank, and the
    globals, buffer included, end up as they were.  Carriage returns in
    the input make no difference. *)
Theorem serial_line_is_processed_once :
  (forall cs g,
     serialLine g = EmptyString ->
     Forall (fun c => is_line_break c = false) cs ->
     (List.length cs <= 200)%nat ->
     let line := string_of_list_ascii (CString.trim cs) in
     handleSerialInput (cs ++ [LF]) g
     = (g, if String.eqb line EmptyString then []
           else effects (processSerialCommand line) (set_serialLine line g))) /\
  (forall bytes g,
     handleSerialInput bytes g
     = handleSerialInput
         (filter (fun c => negb (CString.code c =? 13)) bytes) g).
Proof.
  split.
  - intros cs g Hempty Hbrk Hlen line.
    rewrite handleSerialInput_app. unfold seq.
    rewrite handleSerialInput_accumulates; [| exact Hbrk |].
    2:{ unfold lineChars. rewrite Hempty. simpl. exact Hlen. }
    unfold lineChars at 1. rewrite Hempty. simpl app at 1.
    simpl handleSerialInput. unfold seq at 1, skip.
    set (g0 := set_serialLine (string_of_list_ascii cs) g).
    assert (HLF : serialByte LF g0
                  = (g, if String.eqb line EmptyString then []
                        else effects (processSerialCommand line)
                               (set_serialLine line g))).
    { unfold serialByte. change (CString.code LF =? 13) with false.
      change (CString.code LF =? 10) with true. cbv iota.
      unfold seq at 1. unfold modify at 1. cbv beta iota.
      assert (Hg1 : set_serialLine
                      (string_of_list_ascii
                         (CString.trim (list_ascii_of_string (serialLine g0))))
                      g0 = set_serialLine line g).
      { unfold g0. simpl serialLine.
        rewrite list_ascii_of_string_of_list_ascii. reflexivity. }
      rewrite Hg1. unfold when, ifc. cbv beta.
      change (serialLine (set_serialLine line g)) with line.
      destruct line as [|c0 rest0] eqn:El.
      - change (0 <? Z.of_nat (String.length EmptyString)) with false.
        cbv iota. unfold skip. simpl.
        rewrite <- Hempty, set_serialLine_same. reflexivity.
      - change (0 <? Z.of_nat (String.length (String c0 rest0))) with true.
        cbv iota. unfold seq, modify.
        change (serialLine (set_serialLine (String c0 rest0) g))
          with (String c0 rest0).
        pose proof (processSerialCommand_globals (String c0 rest0)
                      (set_serialLine (String c0 rest0) g)) as Hpg.
        unfold exec in Hpg. unfold effects.
        destruct (processSerialCommand (String c0 rest0)
                    (set_serialLine (String c0 rest0) g)) as [g2 o2].
        simpl in Hpg. subst g2. simpl.
        rewrite app_nil_r.
        change (set_serialLine "" (set_serialLine (String c0 rest0) g))
          with (set_serialLine "" g).
        replace (set_serialLine "" g) with g
          by (rewrite <- Hempty, set_serialLine_same; reflexivity).
        reflexivity. }
    rewrite HLF. simpl. rewrite app_nil_r. reflexivity.
  - intros bytes. induction bytes as [|c rest IH]; intros g.
    + reflexivity.
    + simpl filter. destruct (CString.code c =? 13) eqn:E; simpl negb; cbv iota.
      * simpl handleSerialInput. unfold serialByte. rewrite E.
        unfold seq, skip. rewrite IH.
        destruct (handleSerialInput _ g). reflexivity.
      * simpl handleSerialInput. unfold seq.
        destruct (serialByte c g) as [g1 o1]. rewrite IH. reflexivity.
Qed.

Lemma serial_line_is_processed_once_witness :
  handleSerialInput (list_ascii_of_string "  read " ++ [LF])
    (set_rtcOk true initial)
  = (set_rtcOk true initial, [SerialPrintlnRtcNow]).
Proof.
  destruct serial_line_is_processed_once as [H _].
  rewrite (H (list_ascii_of_string "  read ") (set_rtcOk true initial)).
  - reflexivity.
  - reflexivity.
  - repeat constructor.
  - simpl. lia.
Defined.

(** ** Outcomes of the SET command *)

(** A [SET] line with fewer than six arguments only prints the usage.
    With six arguments in the validated ranges and an RTC present, the
    RTC is adjusted exactly once, with the six values as [atoi] reads
    them, before anything is printed; without an RTC only the complaint
    is printed.  Arguments after the sixth are ignored.  In no case does
    a global change. *)
Theorem SET_command_outcomes (line : string) (g : Globals)
  (tok0 : list ascii) (args : list (list ascii)) :
  commandTokens line = tok0 :: args ->
  string_of_list_ascii (map CString.toupper tok0) = "SET"%string ->
  ((List.length args < 6)%nat ->
   processSerialCommand line g
   = (g, [SerialPrintln "Usage: SET YYYY MM DD HH MM SS"])) /\
  (forall a1 a2 a3 a4 a5 a6 rest,
     args = a1 :: a2 :: a3 :: a4 :: a5 :: a6 :: rest ->
     validSetArgs (CString.atoi a1) (CString.atoi a2) (CString.atoi a3)
       (CString.atoi a4) (CString.atoi a5) (CString.atoi a6) ->
     exec (processSerialCommand line) g = g /\
     (rtcOk g = false ->
      effects (processSerialCommand line) g
      = [SerialPrintln "RTC not available - can't set time."]) /\
     (rtcOk g = true ->
      exists prints,
        effects (processSerialCommand line) g
        = RtcAdjust (CString.atoi a1) (CString.atoi a2) (CString.atoi a3)
            (CString.atoi a4) (CString.atoi a5) (CString.atoi a6) :: prints /\
        rtc_untouched prints = true /\
        last prints (Delay 0) = Delay 900)).
Proof.
  intros Htok Hset. split.
  - intros Hlen. unfold processSerialCommand. rewrite Htok. cbv zeta.
    rewrite Hset. simpl String.eqb. cbv iota. unfold commandSET.
    destruct args as [|a1 [|a2 [|a3 [|a4 [|a5 [|a6 rest]]]]]];
      try reflexivity.
    simpl in Hlen. lia.
  - intros a1 a2 a3 a4 a5 a6 rest -> Hvalid.
    split; [apply processSerialCommand_globals|].
    apply setArgsOk_valid in Hvalid.
    unfold effects, processSerialCommand. rewrite Htok. cbv zeta.
    rewrite Hset.
    change (String.eqb "SET" "SETNOW") with false.
    change (String.eqb "SET" "SET") with true.
    cbv iota. unfold commandSET.
    rewrite Hvalid. change (negb true) with false. cbv iota.
    cmd_unfold. cbv beta. split.
    + intros H. rewrite H. reflexivity.
    + intros H. rewrite H. simpl. eexists. split; [reflexivity|].
      split; reflexivity.
Qed.

Lemma SET_command_outcomes_witness :
  effects (processSerialCommand "set 2025 12 12 14 30 00 extra")
    (set_rtcOk true initial)
  = RtcAdjust 2025 12 12 14 30 0
      :: tl (effects (processSerialCommand "set 2025 12 12 14 30 00 extra")
               (set_rtcOk true initial)) /\
  processSerialCommand "SET 2025 12" initial
  = (initial, [SerialPrintln "Usage: SET YYYY MM DD HH MM SS"]).
Proof.
  split.
  - destruct (SET_command_outcomes "set 2025 12 12 14 30 00 extra"
                (set_rtcOk true initial) (list_ascii_of_string "set")
                (map list_ascii_of_string
                   ["2025"; "12"; "12"; "14"; "30"; "00"; "extra"]%string))
      as [_ H].
    + vm_compute. reflexivity.
    + vm_compute. reflexivity.
    + destruct (H (list_ascii_of_string "2025") (list_ascii_of_string "12")
                  (list_ascii_of_string "12") (list_ascii_of_string "14")
                  (list_ascii_of_string "30") (list_ascii_of_string "00")
                  [list_ascii_of_string "extra"]) as (_ & _ & H3).
      * reflexivity.
      * unfold validSetArgs. vm_compute.
        repeat split; discriminate.
      * destruct (H3 eq_refl) as [prints [E _]]. rewrite E. reflexivity.
  - destruct (SET_command_outcomes "SET 2025 12" initial
                (list_ascii_of_string "SET")
                (map list_ascii_of_string ["2025"; "12"]%string)) as [H _].
    + vm_compute. reflexivity.
    + vm_compute. reflexivity.
    + apply H. simpl. lia.
Defined.

(** ** The timer setting outside SET_TIMER *)

Lemma phone_countdown_keep_timer now ir t1 t2 c1 c2 tb g :
  state g = IDLE \/ state g = WAIT_PHONE \/ state g = COUNTDOWN ->
  let g' := exec (countdownTask c1 c2 tb) (exec (phoneTask now ir t1 t2) g) in
  timerMinutes g' = timerMinutes g /\ state g' <> SET_TIMER.
Proof.
  intros Hs g'. subst g'.
  unfold exec, countdownTask, phoneTask, startCountdown, rapidBuzzer.
  cmd_unfold.
  destruct Hs as [Es | [Es | Es]];
    repeat (repeat (progress (simpl; rewrite ?Es));
            match goal with
            | |- context [if ?c then _ else _] =>
                lazymatch c with
                | context [if _ then _ else _] => fail
                | _ => destruct c eqn:?
                end
            end);
    repeat (progress (simpl; rewrite ?Es));
    split; try reflexivity; discriminate.
Qed.

(** While the session waits for the phone or counts down, no loop
    iteration changes the timer setting, however the encoder is turned
    and whatever the button does. *)
Theorem timer_frozen_outside_setting (g : Globals) (i : LoopInput) :
  state g = WAIT_PHONE \/ state g = COUNTDOWN ->
  timerMinutes (exec (loop i) g) = timerMinutes g.
Proof.
  intros Hs. unfold loop.
  rewrite (exec_seq (handleSerialInput _)), (exec_seq (modify _)),
    (exec_seq (readEncoderButton _ _)), (exec_seq (presenceTask _ _ _)),
    (exec_seq (phoneTask _ _ _ _)), (exec_seq (countdownTask _ _ _)).
  set (g1 := exec (handleSerialInput (in_serial i)) g).
  assert (H1 : state g1 = state g /\ timerMinutes g1 = timerMinutes g).
  { pose proof (handleSerialInput_frame (in_serial i) g) as F. fold g1 in F.
    unfold same_but_serialLine in F. rewrite F. split; reflexivity. }
  destruct H1 as [S1 T1].
  set (g2 := exec (modify (runEncoder (in_isr_early i))) g1).
  assert (H2 : state g2 = state g /\ timerMinutes g2 = timerMinutes g).
  { unfold g2, exec, modify. simpl fst.
    pose proof (runEncoder_frame (in_isr_early i) g1) as F.
    unfold same_but_encoder in F. rewrite F. split; assumption. }
  destruct H2 as [S2 T2].
  set (g3 := exec (readEncoderButton (in_btn i) (in_btn_t i)) g2).
  assert (H3 : (state g3 = IDLE \/ state g3 = WAIT_PHONE \/ state g3 = COUNTDOWN)
               /\ timerMinutes g3 = timerMinutes g).
  { destruct (readEncoderButton_outcome (in_btn i) (in_btn_t i) g2)
      as [F | [g0 [F1 F2]]]; fold g3 in F || fold g3 in F2.
    - unfold same_but_button in F. rewrite F. simpl. rewrite S2, T2.
      split; [right; exact Hs | reflexivity].
    - unfold same_but_button in F1, F2. rewrite F2. simpl.
      assert (S0 : state g0 = state g) by (rewrite F1; exact S2).
      assert (T0 : timerMinutes g0 = timerMinutes g) by (rewrite F1; exact T2).
      unfold exec, onEncoderShortPress.
      destruct Hs as [Hs | Hs]; rewrite Hs in S0; rewrite S0;
        cmd_unfold; simpl; (split; [left; reflexivity | exact T0]). }
  destruct H3 as [S3 T3].
  set (g4 := exec (presenceTask (in_now i) (in_echo_us i) (in_echo_cm i)) g3).
  assert (H4 : state g4 = state g3 /\ timerMinutes g4 = timerMinutes g3).
  { unfold g4, exec, presenceTask, handleStudentPresence. cmd_unfold.
    if_cases; split; reflexivity. }
  destruct H4 as [S4 T4].
  rewrite <- S4 in S3.
  destruct (phone_countdown_keep_timer (in_now i) (in_ir i) (in_start_t1 i)
              (in_start_t2 i) (in_cd_t1 i) (in_cd_t2 i) (in_buzz_t i) g4 S3)
    as [T6 S6].
  set (g6 := exec (countdownTask (in_cd_t1 i) (in_cd_t2 i) (in_buzz_t i))
               (exec (phoneTask (in_now i) (in_ir i) (in_start_t1 i)
                        (in_start_t2 i)) g4)) in *.
  destruct (loop_end_frame i g6) as (_ & _ & _ & _ & _ & _ & E7).
  rewrite (E7 S6), T6, T4, T3. reflexivity.
Qed.

(** A full detent of the encoder and a button sample during the
    countdown. *)
Lemma timer_frozen_outside_setting_witness :
  timerMinutes
    (exec (loop {| in_now := 3300; in_serial := [];
                   in_isr_early := [(false, true); (true, true)];
                   in_btn := LOW; in_btn_t := 3300;
                   in_echo_us := 0; in_echo_cm := 0; in_ir := LOW;
                   in_start_t1 := 3300; in_start_t2 := 3300;
                   in_cd_t1 := 3300; in_cd_t2 := 3300; in_buzz_t := 3300;
                   in_isr_late := [(true, false); (false, false)] |})
       Session.counting) = 25.
Proof.
  rewrite timer_frozen_outside_setting.
  - vm_compute. reflexivity.
  - right. vm_compute. reflexivity.
Defined.

(** ** Two earlier results at concrete inputs *)

(** A 25-minute countdown started at 3000 ms.  One second later 1499
    seconds are left; at the deadline the countdown ends; with reads
    1 ms before and 5 ms after the deadline 4294967 seconds are shown. *)
Lemma countdown_without_wrap_witness :
  let g0 := exec (phoneTask 3000 LOW 3000 3000) Session.waiting in
  countdownSeconds (exec (countdownTask 4000 4000 4000) g0) = 1499 /\
  state (exec (countdownTask 1503000 1503000 1503000) g0) = IDLE /\
  countdownSeconds (exec (countdownTask 1502999 1503005 1503005) g0) = 4294967.
Proof.
  intros g0.
  destruct (countdown_without_wrap Session.waiting 3000 LOW 3000 3000)
    as [_ H].
  - vm_compute. reflexivity.
  - vm_compute. reflexivity.
  - vm_compute. discriminate.
  - reflexivity.
  - vm_compute. discriminate.
  - unfold is_ulong. vm_compute. split; [discriminate | reflexivity].
  - vm_compute. reflexivity.
  - fold g0 in H. split; [|split].
    + destruct (H 4000 4000 4000) as (_ & _ & E & _).
      * lia.
      * lia.
      * unfold is_ulong. vm_compute. split; [discriminate | reflexivity].
      * destruct E as [E _].
        -- vm_compute. reflexivity.
        -- vm_compute. discriminate.
        -- rewrite E. vm_compute. reflexivity.
    + destruct (H 1503000 1503000 1503000) as (E & _).
      * lia.
      * lia.
      * unfold is_ulong. vm_compute. split; [discriminate | reflexivity].
      * destruct E as [E _]; [vm_compute; discriminate | exact E].
    + destruct (H 1502999 1503005 1503005) as (_ & _ & _ & E).
      * lia.
      * lia.
      * unfold is_ulong. vm_compute. split; [discriminate | reflexivity].
      * rewrite E.
        -- vm_compute. reflexivity.
        -- vm_compute. reflexivity.
        -- vm_compute. reflexivity.
Defined.

(** The four iterations of a short press, run through the whole loop. *)
Lemma loop_events_are_events_witness :
  Button.loop_events (shortPressAt 1000 HIGH) initial = [ShortPress].
Proof.
  rewrite loop_events_are_events.
  - vm_compute. reflexivity.
  - unfold shortPressAt.
    repeat (apply Forall_cons;
            [unfold is_ulong; vm_compute; split; [discriminate | reflexivity]|]).
    apply Forall_nil.
Defined.

(** ** Presence, the LED and the relay *)

Lemma relayAfter_app level a b :
  relayAfter level (a ++ b) = relayAfter (relayAfter level a) b.
Proof. unfold relayAfter. apply fold_left_app. Qed.

Lemma relay_sync_seq c1 c2 :
  relay_sync c1 -> relay_sync c2 -> relay_sync (c1 ;; c2).
Proof.
  intros H1 H2 g. rewrite effects_seq, exec_seq, relayAfter_app, H1.
  apply H2.
Qed.

(** Serial commands never write a pin. *)
Lemma processSerialCommand_relay line g level :
  relayAfter level (effects (processSerialCommand line) g) = level.
Proof.
  unfold effects, processSerialCommand.
  destruct (commandTokens line) as [|tok0 args]; [reflexivity|].
  cbv zeta.
  destruct (String.eqb _ "SETNOW").
  { cmd_unfold. destruct (negb (rtcOk g)); reflexivity. }
  destruct (String.eqb _ "SET").
  { unfold commandSET.
    destruct args as [|a1 [|a2 [|a3 [|a4 [|a5 [|a6 rest]]]]]];
      try reflexivity.
    destruct (negb (setArgsOk _ _ _ _ _ _)); [reflexivity|].
    cmd_unfold. destruct (negb (rtcOk g)); reflexivity. }
  destruct (String.eqb _ "READ").
  { cmd_unfold. destruct (negb (rtcOk g)); reflexivity. }
  reflexivity.
Qed.

Lemma serialByte_relay c g level :
  relayAfter level (effects (serialByte c) g) = level.
Proof.
  unfold effects, serialByte.
  destruct (CString.code c =? 13); [reflexivity|].
  destruct (CString.code c =? 10).
  - cmd_unfold. simpl.
    destruct (0 <? _); [|reflexivity].
    match goal with
    | |- context [processSerialCommand ?l ?g1] =>
        pose proof (processSerialCommand_relay l g1 level) as H;
        unfold effects in H;
        destruct (processSerialCommand l g1) as [g2 o2]
    end.
    simpl in *. rewrite app_nil_r. exact H.
  - cmd_unfold. simpl. destruct (200 <? _); reflexivity.
Qed.

Lemma handleSerialInput_relay_sync bytes : relay_sync (handleSerialInput bytes).
Proof.
  induction bytes as [|c rest IH].
  - intros g. reflexivity.
  - simpl. apply relay_sync_seq; [|exact IH].
    intros g. rewrite serialByte_relay.
    pose proof (serialByte_frame c g) as F.
    unfold same_but_serialLine in F. rewrite F. reflexivity.
Qed.

Lemma runEncoder_relay_sync samples : relay_sync (modify (runEncoder samples)).
Proof.
  intros g. unfold effects, exec, modify. simpl.
  pose proof (runEncoder_frame samples g) as F.
  unfold same_but_encoder in F. rewrite F. reflexivity.
Qed.

Lemma readEncoderButton_relay_sync reading t :
  relay_sync (readEncoderButton reading t).
Proof.
  intros g. unfold effects, exec, readEncoderButton.
  pose proof (debounceButton_frame reading t g) as F.
  destruct (debounceButton reading t g) as [g1 ev]. simpl in F.
  unfold same_but_button in F.
  assert (Hled : ledState g = ledState g1) by (rewrite F; reflexivity).
  rewrite Hled.
  destruct ev as [[]|]; simpl dispatchButton.
  - unfold onEncoderShortPress. cmd_unfold.
    destruct (state g1); reflexivity.
  - unfold onEncoderLongPress. cmd_unfold.
    destruct (rtcOk g1); reflexivity.
  - reflexivity.
Qed.

Lemma handleStudentPresence_relay_sync present :
  relay_sync (handleStudentPresence present).
Proof.
  intros g. unfold effects, exec, handleStudentPresence. cmd_unfold.
  destruct present; destruct (ledState g) eqn:El;
    destruct (state g); simpl; rewrite ?El; reflexivity.
Qed.

Lemma loop_relay_sync i : relay_sync (loop i).
Proof.
  unfold loop. repeat apply relay_sync_seq.
  - apply handleSerialInput_relay_sync.
  - apply runEncoder_relay_sync.
  - apply readEncoderButton_relay_sync.
  - intros g. unfold effects, exec, presenceTask, handleStudentPresence.
    cmd_unfold.
    destruct (ultrasonicInterval <=? _); [|reflexivity]. simpl.
    destruct ((0 <? _) && (_ <=? presenceThreshold)); simpl.
    + destruct (ledState g) eqn:El; simpl; rewrite ?El; reflexivity.
    + destruct (state g) eqn:Es; destruct (ledState g) eqn:El; simpl;
        rewrite ?El; reflexivity.
  - intros g. unfold effects, exec, phoneTask, startCountdown. cmd_unfold.
    if_cases; reflexivity.
  - intros g. unfold effects, exec, countdownTask, rapidBuzzer. cmd_unfold.
    if_cases; reflexivity.
  - apply runEncoder_relay_sync.
  - intros g. unfold effects, exec, setTimerTask. cmd_unfold.
    if_cases; reflexivity.
  - intros g. unfold effects, exec, displayTask, updateDisplay. cmd_unfold.
    if_cases; reflexivity.
Qed.

(** From power-up on, whatever level the relay had before, the relay pin
    is at the level that [ledState] records. *)
Lemma relay_follows_ledState found inputs level :
  relayAfter level (snd (powerUp found inputs))
  = ledState (fst (powerUp found inputs)).
Proof.
  unfold powerUp.
  assert (Hgen : forall acc,
             relayAfter level (snd acc) = ledState (fst acc) ->
             relayAfter level
               (snd (fold_left
                       (fun acc i =>
                          let (g', o) := loop i (fst acc) in (g', snd acc ++ o))
                       inputs acc))
             = ledState
                 (fst (fold_left
                         (fun acc i =>
                            let (g', o) := loop i (fst acc) in
                            (g', snd acc ++ o))
                         inputs acc))).
  { induction inputs as [|i rest IH]; intros acc Hacc.
    - exact Hacc.
    - simpl fold_left. apply IH.
      pose proof (loop_relay_sync i (fst acc)) as Hsync.
      unfold effects, exec in Hsync.
      destruct (loop i (fst acc)) as [g' o]. simpl in *.
      rewrite relayAfter_app, Hacc. exact Hsync. }
  apply Hgen. destruct found; reflexivity.
Qed.

(** C5.  The presence handler, run on every presence-poll tick with the
    presence derived from the distance.  A present student: the LED state
    is on, and the relay is written [HIGH] unless the LED was on already.
    An absent student outside [COUNTDOWN]: the LED state is off, and the
    relay is written [LOW] unless the LED was off already.  An absent
    student during [COUNTDOWN]: nothing changes and nothing is written.
    In each case the relay ends at the level of the LED state if it was
    there before, which from power-up on it always is; so the same absent
    reading keeps a lit LED on during [COUNTDOWN] and switches it off in
    [IDLE].  The tick itself performs the measurement and then exactly
    these writes. *)
Theorem C5_presence_rule (g : Globals) (present : bool) :
  let g' := exec (handleStudentPresence present) g in
  let out := effects (handleStudentPresence present) g in
  (present = true ->
   ledState g' = true /\
   out = if ledState g then [] else [DigitalWrite relayPin HIGH]) /\
  (present = false -> state g <> COUNTDOWN ->
   ledState g' = false /\
   out = if ledState g then [DigitalWrite relayPin LOW] else []) /\
  (present = false -> state g = COUNTDOWN -> g' = g /\ out = []) /\
  (out = [] \/ out = [DigitalWrite relayPin (ledState g')]) /\
  relayAfter (ledState g) out = ledState g' /\
  (forall now duration cm,
     ultrasonicInterval <= ulong_sub now (lastUltrasonicCheck g) ->
     present = presenceOf (readUltrasonic_value duration cm) ->
     ledState (exec (presenceTask now duration cm) g) = ledState g' /\
     effects (presenceTask now duration cm) g = readUltrasonic_effects ++ out) /\
  (forall found inputs level,
     relayAfter level (snd (powerUp found inputs))
     = ledState (fst (powerUp found inputs))).
Proof.
  intros g' out. subst g' out.
  split; [|split; [|split; [|split; [|split; [|split]]]]].
  - intros ->. unfold exec, effects, handleStudentPresence. cmd_unfold.
    destruct (ledState g) eqn:E; simpl; split; try reflexivity; exact E.
  - intros -> Hs. unfold exec, effects, handleStudentPresence. cmd_unfold.
    destruct (state g) eqn:Es; try (exfalso; apply Hs; reflexivity);
      destruct (ledState g) eqn:E; simpl; split; try reflexivity; exact E.
  - intros -> Hs. unfold exec, effects, handleStudentPresence. cmd_unfold.
    rewrite Hs. simpl. split; reflexivity.
  - unfold exec, effects, handleStudentPresence. cmd_unfold.
    destruct present.
    + destruct (ledState g); simpl; [left | right]; reflexivity.
    + destruct (negb (State_eqb (state g) COUNTDOWN) && ledState g);
        simpl; [right | left]; reflexivity.
  - apply handleStudentPresence_relay_sync.
  - intros now duration cm Hdue ->.
    destruct (presenceTask_due now duration cm g Hdue) as [Hled _].
    split; [exact Hled|].
    apply Z.leb_le in Hdue.
    unfold effects, presenceTask, handleStudentPresence, presenceOf.
    cmd_unfold. rewrite Hdue. simpl.
    destruct ((0 <? readUltrasonic_value duration cm)
              && (readUltrasonic_value duration cm <=? presenceThreshold));
      simpl.
    + destruct (ledState g); reflexivity.
    + destruct (negb (State_eqb (state g) COUNTDOWN) && ledState g);
        reflexivity.
  - intros found inputs level. apply relay_follows_ledState.
Qed.

(** An absent reading with the LED lit: kept during the countdown, and
    the relay written [LOW] once the countdown has been cancelled and the
    LED lit again; a present reading with the LED off writes the relay
    [HIGH]. *)
Lemma C5_presence_rule_witness :
  ledState (exec (handleStudentPresence false) Session.counting) = true /\
  effects (handleStudentPresence false) (set_ledState true Session.cancelled)
  = [DigitalWrite relayPin LOW] /\
  effects (handleStudentPresence true) Session.cancelled
  = [DigitalWrite relayPin HIGH] /\
  effects (presenceTask 5000 3000 51) Session.cancelled
  = readUltrasonic_effects ++ [DigitalWrite relayPin HIGH].
Proof.
  split; [|split; [|split]].
  - destruct (C5_presence_rule Session.counting false) as (_ & _ & H & _).
    destruct H as [H _]; [reflexivity | vm_compute; reflexivity |].
    rewrite H. vm_compute. reflexivity.
  - destruct (C5_presence_rule (set_ledState true Session.cancelled) false)
      as (_ & H & _).
    destruct H as [_ H]; [reflexivity | vm_compute; discriminate |].
    rewrite H. vm_compute. reflexivity.
  - destruct (C5_presence_rule Session.cancelled true) as (H & _).
    destruct H as [_ H]; [reflexivity|].
    rewrite H. vm_compute. reflexivity.
  - destruct (C5_presence_rule Session.cancelled true)
      as (H1 & _ & _ & _ & _ & H & _).
    destruct (H 5000 3000 51) as [_ E].
    + vm_compute. discriminate.
    + vm_compute. reflexivity.
    + rewrite E. destruct H1 as [_ H1]; [reflexivity|].
      rewrite H1. vm_compute. reflexivity.
Defined.

(** ** The SET command and the width of [int] *)

Lemma wrap_int_small z : - 32768 <= z <= 32767 -> wrap_int z = z.
Proof.
  intros H. unfold wrap_int, UINT_MOD.
  rewrite Z.mod_small; lia.
Qed.

Lemma isdigit_code c : CString.isdigit c = true -> 0 <= CString.code c - 48 <= 9.
Proof.
  unfold CString.isdigit. intros H. apply andb_true_iff in H.
  destruct H as [H1 H2]. apply Z.leb_le in H1. apply Z.leb_le in H2. lia.
Qed.

Lemma Written_digits_grow cs : forall acc,
  0 <= acc -> acc <= Written.digits cs acc.
Proof.
  induction cs as [|c rest IH]; intros acc Hacc; simpl; [lia|].
  destruct (CString.isdigit c) eqn:Ed; [|lia].
  apply isdigit_code in Ed.
  specialize (IH (acc * 10 + (CString.code c - 48))). lia.
Qed.

(** While the number fits, [atoi] accumulates the digits as written. *)
Lemma atoi_digits_written cs : forall acc,
  0 <= acc -> Written.digits cs acc <= 32767 ->
  CString.atoi_digits cs acc = Written.digits cs acc.
Proof.
  induction cs as [|c rest IH]; intros acc Hacc Hfit; simpl in *;
    [reflexivity|].
  destruct (CString.isdigit c) eqn:Ed; [|reflexivity].
  apply isdigit_code in Ed.
  assert (Hle : acc * 10 + (CString.code c - 48)
                <= Written.digits rest (acc * 10 + (CString.code c - 48)))
    by (apply Written_digits_grow; lia).
  rewrite wrap_int_small by lia.
  apply IH; [lia | exact Hfit].
Qed.

Lemma Written_digits_nonneg cs : 0 <= Written.digits cs 0.
Proof. apply Written_digits_grow. lia. Qed.

Lemma atoi_written cs :
  Written.fits_int (Written.value cs) -> CString.atoi cs = Written.value cs.
Proof.
  unfold Written.fits_int, Written.value, CString.atoi.
  destruct (CString.drop_space cs) as [|c rest]; [reflexivity|].
  destruct (CString.code c =? 45).
  { intros H. pose proof (Written_digits_nonneg rest).
    rewrite atoi_digits_written by lia.
    apply wrap_int_small. lia. }
  destruct (CString.code c =? 43).
  { intros H. apply atoi_digits_written; lia. }
  intros H. apply atoi_digits_written; lia.
Qed.

(** A [SET] line whose six arguments, as written, fit a 16-bit [int] and
    violate the validated ranges is answered with "Invalid date/time."
    and nothing else: the RTC is not adjusted and no global variable
    changes, neither by the command nor by any serial input. *)
Theorem SET_out_of_range_rejected
  (line : string) (g : Globals) (tok0 a1 a2 a3 a4 a5 a6 : list ascii)
  (rest : list (list ascii)) :
  commandTokens line = tok0 :: a1 :: a2 :: a3 :: a4 :: a5 :: a6 :: rest ->
  string_of_list_ascii (map CString.toupper tok0) = "SET"%string ->
  Forall (fun a => Written.fits_int (Written.value a)) [a1; a2; a3; a4; a5; a6] ->
  ~ validSetArgs (Written.value a1) (Written.value a2) (Written.value a3)
      (Written.value a4) (Written.value a5) (Written.value a6) ->
  processSerialCommand line g = (g, [SerialPrintln "Invalid date/time."]) /\
  (forall bytes,
     let g' := exec (handleSerialInput bytes) g in
     state g' = state g /\ timerMinutes g' = timerMinutes g /\
     countdownRunning g' = countdownRunning g /\
     countdownEndMillis g' = countdownEndMillis g).
Proof.
  intros Htok Hset Hfit Hbad. split.
  - apply (SET_rejected_as_read line g tok0 a1 a2 a3 a4 a5 a6 rest Htok Hset).
    repeat match goal with
           | H : Forall _ (_ :: _) |- _ =>
               let Hx := fresh "Hx" in
               let Hr := fresh "Hr" in
               inversion H as [|? ? Hx Hr]; subst; clear H;
               apply atoi_written in Hx
           end.
    congruence.
  - intros bytes g'. subst g'.
    pose proof (handleSerialInput_frame bytes g) as H.
    unfold same_but_serialLine in H. rewrite H. simpl. repeat split.
Qed.

(** The malformed command of the specification's scenario. *)
Lemma SET_out_of_range_rejected_witness :
  processSerialCommand "SET 1999 13 40 25 61 61" Session.counting
  = (Session.counting, [SerialPrintln "Invalid date/time."]).
Proof.
  apply (SET_out_of_range_rejected "SET 1999 13 40 25 61 61" Session.counting
           (list_ascii_of_string "SET") (list_ascii_of_string "1999")
           (list_ascii_of_string "13") (list_ascii_of_string "40")
           (list_ascii_of_string "25") (list_ascii_of_string "61")
           (list_ascii_of_string "61") []).
  - vm_compute. reflexivity.
  - vm_compute. reflexivity.
  - repeat (apply Forall_cons;
            [unfold Written.fits_int; vm_compute; split; discriminate|]).
    apply Forall_nil.
  - unfold validSetArgs. vm_compute. intros [H _]. apply H. reflexivity.
Defined.

(** C9.  The command [SET 2025 65537 1 0 0 0] is not rejected.  Its six
    arguments are the integers 2025, 65537, 1, 0, 0, 0, and month 65537
    violates the range 1-12.  [atoi] returns a 16-bit [int] and reads
    65537 as 1, so both range tests pass: with an RTC present the command
    adjusts the RTC to 2025-01-01 00:00:00 as its first effect and never
    prints "Invalid date/time."; so does the line when it arrives on the
    serial port with an empty buffer. *)
Theorem C9_wrapped_argument_accepted (g : Globals) :
  rtcOk g = true ->
  let line := "SET 2025 65537 1 0 0 0"%string in
  let out := effects (processSerialCommand line) g in
  map Written.value (tl (commandTokens line)) = [2025; 65537; 1; 0; 0; 0] /\
  ~ validSetArgs 2025 65537 1 0 0 0 /\
  map CString.atoi (tl (commandTokens line)) = [2025; 1; 1; 0; 0; 0] /\
  setArgsOk 2025 1 1 0 0 0 = true /\
  hd_error out = Some (RtcAdjust 2025 1 1 0 0 0) /\
  ~ In (SerialPrintln "Invalid date/time.") out /\
  (serialLine g = EmptyString ->
   hd_error (effects (handleSerialInput (list_ascii_of_string line ++ [LF])) g)
   = Some (RtcAdjust 2025 1 1 0 0 0)).
Proof.
  intros Hrtc line out. subst line out.
  split; [vm_compute; reflexivity|].
  split; [unfold validSetArgs; lia|].
  split; [vm_compute; reflexivity|].
  split; [reflexivity|].
  destruct g; simpl in Hrtc; subst.
  split; [vm_compute; reflexivity|].
  split.
  - vm_compute. intros H.
    repeat (destruct H as [H | H]; [discriminate H|]). exact H.
  - simpl serialLine. intros ->. vm_compute. reflexivity.
Qed.

(** Straight after [setup] with an RTC found. *)
Lemma C9_wrapped_argument_accepted_witness :
  rtcOk (exec (setup true) initial) = true /\
  hd_error (effects (processSerialCommand "SET 2025 65537 1 0 0 0")
              (exec (setup true) initial))
  = Some (RtcAdjust 2025 1 1 0 0 0).
Proof.
  assert (H : rtcOk (exec (setup true) initial) = true)
    by (vm_compute; reflexivity).
  split; [exact H|].
  destruct (C9_wrapped_argument_accepted (exec (setup true) initial) H)
    as (_ & _ & _ & _ & Hhd & _).
  exact Hhd.
Defined.
